(** * Network-Discovery-Tool: the capture-and-decode pipeline

    A shallow embedding of [scanner/base.py], [scanner/ubnt.py],
    [scanner/mimosa.py] and [scanner/manager.py], and the properties of the
    design document that are checked against it.

    Conventions of the embedding.
    - A Python [bytes] value is a [list byte].
    - A Python [str] value is the [string] of its UTF-8 bytes.  Equality,
      emptiness, concatenation, [in] and [strip] with an ASCII argument agree
      with their code point versions on that representation.
    - [str.upper] and [str.lower] are taken through the class [PyCase]; the
      instance [ascii_case] is their restriction to ASCII text.
    - Python integers that index or measure a buffer are [nat]; values read
      from the wire are [N]; a port number is a [Z].
    - Objects that are mutated in place ([Device]) live in a heap and are
      passed by reference. *)

From Stdlib Require Import ZArith NArith Lia Strings.Byte Ascii String List.
From stdpp Require Import base option list strings gmap pretty.
From Equations Require Import Equations.
Import ListNotations.

Local Open Scope string_scope.
Local Open Scope nat_scope.

(** ** Python [bytes] *)

Abbreviation bytes := (list byte) (only parsing).

#[export] Instance byte_eq_decision : EqDecision byte := Byte.byte_eq_dec.

(** [data[a:b]] for [0 <= a, b] (slices clamp, they never raise). *)
Definition slice (data : bytes) (a b : nat) : bytes :=
  take (b - a) (drop a data).

(** [data[i]] raises [IndexError] out of range: [None]. *)
Definition byte_at (data : bytes) (i : nat) : option byte := data !! i.

(** ** Python [str] *)

Module PyStr.

(** [sep.join(parts)] *)
Fixpoint join (sep : string) (parts : list string) : string :=
  match parts with
  | [] => ""
  | [p] => p
  | p :: rest => p ++ sep ++ join sep rest
  end.

(** [s.startswith(p)] *)
Fixpoint startswith (p s : string) : bool :=
  match p, s with
  | EmptyString, _ => true
  | String a p', String b s' => if Ascii.eqb a b then startswith p' s' else false
  | String _ _, EmptyString => false
  end.

(** [needle in s] *)
Fixpoint contains (needle s : string) : bool :=
  if startswith needle s then true
  else match s with
       | EmptyString => false
       | String _ s' => contains needle s'
       end.

(** [s.lstrip(c)], [s.rstrip(c)] and [s.strip(c)] for a one-character [c]. *)
Fixpoint lstrip (c : ascii) (s : string) : string :=
  match s with
  | String a s' => if Ascii.eqb a c then lstrip c s' else s
  | EmptyString => EmptyString
  end.

Fixpoint rstrip (c : ascii) (s : string) : string :=
  match s with
  | String a s' =>
      match rstrip c s' with
      | EmptyString => if Ascii.eqb a c then EmptyString else String a EmptyString
      | r => String a r
      end
  | EmptyString => EmptyString
  end.

Definition strip (c : ascii) (s : string) : string := rstrip c (lstrip c s).

Definition NUL : ascii := Ascii.zero.

(** The format spec [02X]: two upper-case hexadecimal digits. *)
Definition hex_digit (n : N) : ascii :=
  match n with
  | 0 => "0" | 1 => "1" | 2 => "2" | 3 => "3" | 4 => "4" | 5 => "5"
  | 6 => "6" | 7 => "7" | 8 => "8" | 9 => "9" | 10 => "A" | 11 => "B"
  | 12 => "C" | 13 => "D" | 14 => "E" | _ => "F"
  end%char%N.

Definition format_02X (b : byte) : string :=
  let n := Byte.to_N b in
  String (hex_digit (n / 16)) (String (hex_digit (n mod 16)) EmptyString).

(** [str(b)] for a byte [b]. *)
Definition str_of_byte (b : byte) : string := pretty (Byte.to_N b).

(** Truthiness of a [str]: non-empty. *)
Definition truthy (s : string) : bool :=
  match s with EmptyString => false | _ => true end.

End PyStr.

(** [str.upper] and [str.lower].  Their full tables are Unicode's; the
    development is generic in them. *)
Class PyCase := {
  str_upper : string -> string;
  str_lower : string -> string
}.

Definition ascii_upper (a : ascii) : ascii :=
  let n := N_of_ascii a in
  if ((97 <=? n) && (n <=? 122))%N then ascii_of_N (n - 32) else a.

Definition ascii_lower (a : ascii) : ascii :=
  let n := N_of_ascii a in
  if ((65 <=? n) && (n <=? 90))%N then ascii_of_N (n + 32) else a.

Fixpoint string_map (f : ascii -> ascii) (s : string) : string :=
  match s with
  | EmptyString => EmptyString
  | String a s' => String (f a) (string_map f s')
  end.

#[export] Instance ascii_case : PyCase := {|
  str_upper := string_map ascii_upper;
  str_lower := string_map ascii_lower
|}.

(** ** [bytes.decode('utf-8', errors='ignore')]

    The decoder drops every maximal ill-formed subsequence and keeps the
    well-formed ones; on the UTF-8 representation of [str] the kept bytes are
    the result. *)

Module Utf8.

Definition is_cont (b : byte) : bool :=
  let n := Byte.to_N b in ((128 <=? n) && (n <? 192))%N.

Definition chr (b : byte) : ascii := ascii_of_byte b.

Fixpoint decode_ignore (l : bytes) : string :=
  match l with
  | [] => EmptyString
  | b0 :: r =>
      let n0 := Byte.to_N b0 in
      if (n0 <? 128)%N then String (chr b0) (decode_ignore r)
      else if (n0 <? 194)%N then decode_ignore r
      else if (n0 <? 224)%N then
        match r with
        | [] => EmptyString
        | b1 :: r1 =>
            if is_cont b1
            then String (chr b0) (String (chr b1) (decode_ignore r1))
            else decode_ignore r
        end
      else if (n0 <? 240)%N then
        match r with
        | [] => EmptyString
        | b1 :: r1 =>
            let n1 := Byte.to_N b1 in
            if negb (is_cont b1)
               || ((n0 =? 224)%N && (n1 <? 160)%N)
               || ((n0 =? 237)%N && (160 <=? n1)%N)
            then decode_ignore r
            else match r1 with
                 | [] => EmptyString
                 | b2 :: r2 =>
                     if is_cont b2
                     then String (chr b0) (String (chr b1) (String (chr b2)
                            (decode_ignore r2)))
                     else decode_ignore r1
                 end
        end
      else if (n0 <? 245)%N then
        match r with
        | [] => EmptyString
        | b1 :: r1 =>
            let n1 := Byte.to_N b1 in
            if negb (is_cont b1)
               || ((n0 =? 240)%N && (n1 <? 144)%N)
               || ((n0 =? 244)%N && (144 <=? n1)%N)
            then decode_ignore r
            else match r1 with
                 | [] => EmptyString
                 | b2 :: r2 =>
                     if negb (is_cont b2) then decode_ignore r1
                     else match r2 with
                          | [] => EmptyString
                          | b3 :: r3 =>
                              if is_cont b3
                              then String (chr b0) (String (chr b1)
                                     (String (chr b2) (String (chr b3)
                                       (decode_ignore r3))))
                              else decode_ignore r2
                          end
                 end
        end
      else decode_ignore r
  end.

End Utf8.

(** The idiom of both decoders:
    [value.decode('utf-8', errors='ignore').strip('\x00')]. *)
Definition decode_text (value : bytes) : string :=
  PyStr.strip PyStr.NUL (Utf8.decode_ignore value).

(** ** [struct.unpack]

    [struct.unpack(fmt, buf)] raises [struct.error] unless [buf] has exactly
    the size of the format: [None]. *)

Module Struct.

Definition be (l : bytes) : N :=
  fold_left (fun acc b => (acc * 256 + Byte.to_N b)%N) l 0%N.

Definition le (l : bytes) : N := be (rev l).

(** ['>H'] and ['<H'] *)
Definition unpack_BE_H (buf : bytes) : option N :=
  if length buf =? 2 then Some (be buf) else None.
Definition unpack_LE_H (buf : bytes) : option N :=
  if length buf =? 2 then Some (le buf) else None.

(** ['>I'] and ['<I'] *)
Definition unpack_BE_I (buf : bytes) : option N :=
  if length buf =? 4 then Some (be buf) else None.
Definition unpack_LE_I (buf : bytes) : option N :=
  if length buf =? 4 then Some (le buf) else None.

End Struct.

(** [':'.join(f'{b:02X}' for b in value)] and ['.'.join(str(b) for b in value)] *)
Definition format_mac (value : bytes) : string :=
  PyStr.join ":" (map PyStr.format_02X value).

Definition format_ipv4 (value : bytes) : string :=
  PyStr.join "." (map PyStr.str_of_byte value).

(** ** [scanner/base.py]: the [Device] record *)

(** A [datetime] value; only its order matters. *)
Abbreviation datetime := N (only parsing).

Record Device := mkDevice {
  brand : string;
  ip : string;
  mac : string;
  name : string;
  model : string;
  firmware : string;
  uptime : N;
  discovered_at : datetime;
  last_seen : datetime
}.

(** The dataclass constructor: both timestamps default to
    [datetime.now()], read at construction. *)
Definition new_Device (now : datetime)
    (brand ip mac name model firmware : string) (uptime : N) : Device :=
  mkDevice brand ip mac name model firmware uptime now now.

Definition unique_id `{PyCase} (d : Device) : string := str_upper (mac d).

Definition set_ip (v : string) (d : Device) : Device :=
  mkDevice (brand d) v (mac d) (name d) (model d) (firmware d) (uptime d)
           (discovered_at d) (last_seen d).

Definition set_last_seen (t : datetime) (d : Device) : Device :=
  mkDevice (brand d) (ip d) (mac d) (name d) (model d) (firmware d) (uptime d)
           (discovered_at d) t.

(** [Device.update_last_seen] *)
Definition update_last_seen (now : datetime) (d : Device) : Device :=
  set_last_seen now d.

(** ** Captured frames (scapy's [Packet], as far as the scanners look)

    [haslayer(IP)] and [packet[IP].src]; [haslayer(UDP)], [sport], [dport] and
    the optional raw [load]. *)

Record IPLayer := { src : string }.
Record UDPLayer := { sport : Z; dport : Z; load : option bytes }.
Record Packet := { ip_layer : option IPLayer; udp_layer : option UDPLayer }.

(** ** [scanner/ubnt.py] *)

Module Ubnt.

Definition TLV_MAC_ADDRESS : N := 0x01.
Definition TLV_IP_INFO : N := 0x02.
Definition TLV_FIRMWARE : N := 0x03.
Definition TLV_HOSTNAME : N := 0x0B.
Definition TLV_MODEL_SHORT : N := 0x0C.
Definition TLV_ESSID : N := 0x0D.
Definition TLV_UPTIME : N := 0x0E.
Definition TLV_MODEL_FULL : N := 0x14.

Definition port : Z := 10001.
Definition brand : string := "Ubiquiti".

(** The dict [result] of [_parse_tlv]: its keys are fixed, an absent key is
    [None]. *)
Record TlvData := mkTlv {
  r_mac : option string;
  r_ip : option string;
  r_firmware : option string;
  r_hostname : option string;
  r_model : option string;
  r_uptime : option N
}.

Definition empty : TlvData := mkTlv None None None None None None.

Definition set_mac v r := mkTlv (Some v) (r_ip r) (r_firmware r) (r_hostname r) (r_model r) (r_uptime r).
Definition set_ip v r := mkTlv (r_mac r) (Some v) (r_firmware r) (r_hostname r) (r_model r) (r_uptime r).
Definition set_firmware v r := mkTlv (r_mac r) (r_ip r) (Some v) (r_hostname r) (r_model r) (r_uptime r).
Definition set_hostname v r := mkTlv (r_mac r) (r_ip r) (r_firmware r) (Some v) (r_model r) (r_uptime r).
Definition set_model v r := mkTlv (r_mac r) (r_ip r) (r_firmware r) (r_hostname r) (Some v) (r_uptime r).
Definition set_uptime v r := mkTlv (r_mac r) (r_ip r) (r_firmware r) (r_hostname r) (r_model r) (Some v).

(** The chain of [if]/[elif] on [tlv_type]; [None] is an exception raised
    inside it. *)
Definition dispatch (tlv_type : N) (value : bytes) (result : TlvData) : option TlvData :=
  if (tlv_type =? TLV_MAC_ADDRESS)%N then
    if 6 <=? length value
    then Some (set_mac (format_mac (take 6 value)) result)
    else Some result
  else if (tlv_type =? TLV_IP_INFO)%N then
    if 10 <=? length value
    then Some (set_ip (format_ipv4 (slice value 6 10))
                 (set_mac (format_mac (take 6 value)) result))
    else Some result
  else if (tlv_type =? TLV_FIRMWARE)%N then
    Some (set_firmware (decode_text value) result)
  else if (tlv_type =? TLV_HOSTNAME)%N then
    Some (set_hostname (decode_text value) result)
  else if (tlv_type =? TLV_MODEL_SHORT)%N then
    match r_model result with
    | None => Some (set_model (decode_text value) result)
    | Some _ => Some result
    end
  else if (tlv_type =? TLV_MODEL_FULL)%N then
    Some (set_model (decode_text value) result)
  else if (tlv_type =? TLV_UPTIME)%N then
    if 4 <=? length value
    then u ← Struct.unpack_BE_I (take 4 value); Some (set_uptime u result)
    else Some result
  else Some result.

(** One pass through the body of the [while] loop, inside its [try]:
    [None] is a raised exception, [Break] the [break] of the overrun test,
    [Next tlv_len result] the end of the body, before [offset += 3 + tlv_len]. *)
Inductive ctl := Break | Next (tlv_len : nat) (result : TlvData).

Definition body (data : bytes) (offset : nat) (result : TlvData) : option ctl :=
  tlv_type ← byte_at data offset;
  tlv_len ← Struct.unpack_BE_H (slice data (offset + 1) (offset + 3));
  let tlv_len := N.to_nat tlv_len in
  if length data <? offset + 3 + tlv_len then Some Break
  else
    let value := slice data (offset + 3) (offset + 3 + tlv_len) in
    result' ← dispatch (Byte.to_N tlv_type) value result;
    Some (Next tlv_len result').

(** The loop [while offset + 3 <= len(data)]; an exception in the body is
    caught and breaks. *)
Equations? loop (data : bytes) (offset : nat) (result : TlvData) : TlvData
  by wf (length data - offset) lt :=
  loop data offset result with decide (offset + 3 <= length data) := {
    | left _ with body data offset result := {
        | Some (Next tlv_len result') := loop data (offset + 3 + tlv_len) result';
        | Some Break := result;
        | None := result };
    | right _ := result }.
Proof. lia. Qed.

Definition _parse_tlv (data : bytes) : TlvData := loop data 0 empty.

Definition parse_packet (now : datetime) (packet : Packet) : option Device :=
  match ip_layer packet, udp_layer packet with
  | Some ip_l, Some udp_l =>
      if negb (sport udp_l =? port)%Z && negb (dport udp_l =? port)%Z then None
      else match load udp_l with
      | None => None
      | Some payload =>
          if length payload <? 6 then None
          else if negb (bool_decide (slice payload 0 2 = [x01; x00]))
                  && negb (bool_decide (slice payload 0 2 = [x02; x00]))
          then None
          else
            let tlv_data := _parse_tlv (drop 4 payload) in
            let mac := default "" (r_mac tlv_data) in
            let ip := default (src ip_l) (r_ip tlv_data) in
            let name := default "Unknown" (r_hostname tlv_data) in
            let model := default "" (r_model tlv_data) in
            let firmware := default "" (r_firmware tlv_data) in
            let uptime := default 0%N (r_uptime tlv_data) in
            if negb (PyStr.truthy mac) then None
            else Some (new_Device now brand ip mac name model firmware uptime)
      end
  | _, _ => None
  end.

End Ubnt.

(** ** [scanner/mimosa.py] *)

Module Mndp.

Definition TLV_MAC_ADDRESS : N := 0x0001.
Definition TLV_IDENTITY : N := 0x0005.
Definition TLV_VERSION : N := 0x0007.
Definition TLV_PLATFORM : N := 0x0008.
Definition TLV_UPTIME : N := 0x000A.
Definition TLV_SOFTWARE_ID : N := 0x000B.
Definition TLV_BOARD : N := 0x000E.
Definition TLV_IPV6 : N := 0x0010.
Definition TLV_INTERFACE : N := 0x0011.
Definition TLV_IPV4 : N := 0x0014.

Definition port : Z := 5678.
Definition brand : string := "Mikrotik/Mimosa".

Record TlvData := mkTlv {
  r_mac : option string;
  r_identity : option string;
  r_version : option string;
  r_platform : option string;
  r_board : option string;
  r_uptime : option N;
  r_ip : option string
}.

Definition empty : TlvData := mkTlv None None None None None None None.

Definition set_mac v r := mkTlv (Some v) (r_identity r) (r_version r) (r_platform r) (r_board r) (r_uptime r) (r_ip r).
Definition set_identity v r := mkTlv (r_mac r) (Some v) (r_version r) (r_platform r) (r_board r) (r_uptime r) (r_ip r).
Definition set_version v r := mkTlv (r_mac r) (r_identity r) (Some v) (r_platform r) (r_board r) (r_uptime r) (r_ip r).
Definition set_platform v r := mkTlv (r_mac r) (r_identity r) (r_version r) (Some v) (r_board r) (r_uptime r) (r_ip r).
Definition set_board v r := mkTlv (r_mac r) (r_identity r) (r_version r) (r_platform r) (Some v) (r_uptime r) (r_ip r).
Definition set_uptime v r := mkTlv (r_mac r) (r_identity r) (r_version r) (r_platform r) (r_board r) (Some v) (r_ip r).
Definition set_ip v r := mkTlv (r_mac r) (r_identity r) (r_version r) (r_platform r) (r_board r) (r_uptime r) (Some v).

Definition dispatch (tlv_type : N) (value : bytes) (result : TlvData) : option TlvData :=
  if (tlv_type =? TLV_MAC_ADDRESS)%N then
    if 6 <=? length value
    then Some (set_mac (format_mac (take 6 value)) result)
    else Some result
  else if (tlv_type =? TLV_IDENTITY)%N then
    Some (set_identity (decode_text value) result)
  else if (tlv_type =? TLV_VERSION)%N then
    Some (set_version (decode_text value) result)
  else if (tlv_type =? TLV_PLATFORM)%N then
    Some (set_platform (decode_text value) result)
  else if (tlv_type =? TLV_BOARD)%N then
    Some (set_board (decode_text value) result)
  else if (tlv_type =? TLV_UPTIME)%N then
    if 4 <=? length value
    then u ← Struct.unpack_LE_I (take 4 value); Some (set_uptime u result)
    else Some result
  else if (tlv_type =? TLV_IPV4)%N then
    if 4 <=? length value
    then Some (set_ip (format_ipv4 (take 4 value)) result)
    else Some result
  else Some result.

Inductive ctl := Break | Next (tlv_len : nat) (result : TlvData).

Definition body (data : bytes) (offset : nat) (result : TlvData) : option ctl :=
  tlv_type ← Struct.unpack_LE_H (slice data offset (offset + 2));
  tlv_len ← Struct.unpack_LE_H (slice data (offset + 2) (offset + 4));
  let tlv_len := N.to_nat tlv_len in
  if length data <? offset + 4 + tlv_len then Some Break
  else
    let value := slice data (offset + 4) (offset + 4 + tlv_len) in
    result' ← dispatch tlv_type value result;
    Some (Next tlv_len result').

Equations? loop (data : bytes) (offset : nat) (result : TlvData) : TlvData
  by wf (length data - offset) lt :=
  loop data offset result with decide (offset + 4 <= length data) := {
    | left _ with body data offset result := {
        | Some (Next tlv_len result') := loop data (offset + 4 + tlv_len) result';
        | Some Break := result;
        | None := result };
    | right _ := result }.
Proof. lia. Qed.

Definition _parse_tlv (data : bytes) : TlvData := loop data 0 empty.

Definition mikrotik_indicators : list string :=
  ["routerboard"; "rb"; "ccr"; "crs"; "css"; "hex"; "hap";
   "mikrotik"; "routeros"; "chr"; "ltap"; "wap"; "disc";
   "sxt"; "lhg"; "basebox"; "netbox"; "netmetal"; "powerbox"].

Section WithCase.
Context `{PyCase}.

Definition _detect_brand (platform board : string) : string :=
  let combined := str_lower (platform ++ " " ++ board) in
  if PyStr.contains "mimosa" combined then "Mimosa"
  else if existsb (fun indicator => PyStr.contains indicator combined)
                  mikrotik_indicators
  then "Mikrotik"
  else "Mikrotik/MNDP".

Definition parse_packet (now : datetime) (packet : Packet) : option Device :=
  match ip_layer packet, udp_layer packet with
  | Some ip_l, Some udp_l =>
      if negb (sport udp_l =? port)%Z && negb (dport udp_l =? port)%Z then None
      else match load udp_l with
      | None => None
      | Some payload =>
          if length payload <? 4 then None
          else
            let tlv_data := _parse_tlv payload in
            let mac := default "" (r_mac tlv_data) in
            let ip := default (src ip_l) (r_ip tlv_data) in
            let identity := default "Unknown" (r_identity tlv_data) in
            let platform := default "" (r_platform tlv_data) in
            let board := default "" (r_board tlv_data) in
            let version := default "" (r_version tlv_data) in
            let uptime := default 0%N (r_uptime tlv_data) in
            if negb (PyStr.truthy mac) then None
            else
              let brand := _detect_brand platform board in
              let model := if PyStr.truthy board then board else platform in
              Some (new_Device now brand ip mac identity model version uptime)
      end
  | _, _ => None
  end.

End WithCase.

End Mndp.

(** ** The scanner interface of [scanner/base.py]

    [BaseScanner] is an abstract class: a port, a brand and [parse_packet],
    which may return [None], return a [Device], or raise. *)

Inductive exn :=
| PermissionError (msg : string)
| Exception (msg : string).

(** [str(e)] *)
Definition exn_text (e : exn) : string :=
  match e with
  | PermissionError msg => msg
  | Exception msg => msg
  end.

Record BaseScanner := {
  sc_class : string;
  sc_port : Z;
  sc_brand : string;
  sc_parse_packet : datetime -> Packet -> exn + option Device
}.

Definition UbiquitiScanner : BaseScanner := {|
  sc_class := "UbiquitiScanner";
  sc_port := Ubnt.port;
  sc_brand := Ubnt.brand;
  sc_parse_packet now packet := inr (Ubnt.parse_packet now packet)
|}.

Definition MNDPScanner `{PyCase} : BaseScanner := {|
  sc_class := "MNDPScanner";
  sc_port := Mndp.port;
  sc_brand := Mndp.brand;
  sc_parse_packet now packet := inr (Mndp.parse_packet now packet)
|}.

(** ** The process state seen by [scanner/manager.py] *)

(** A reference to a [Device] object. *)
Abbreviation loc := nat (only parsing).
(** A thread identifier. *)
Abbreviation thread := nat (only parsing).

(** [threading.RLock]: the owning thread and its recursion level. *)
Record RLock := { owner : option thread; level : nat }.

Definition unlocked : RLock := {| owner := None; level := 0 |}.

Inductive thread_state := NotStarted | Alive | Finished.

Record World := mkWorld {
  heap : list Device;            (* the Device objects *)
  scanners : list BaseScanner;   (* self._scanners *)
  devices : gmap string loc;     (* self._devices *)
  lock : RLock;                  (* self._lock *)
  sniff_thread : thread_state;   (* self._sniff_thread *)
  running : bool;                (* self._running *)
  clock : datetime;              (* what datetime.now() returns *)
  stdout : list string           (* lines written by print *)
}.

Definition with_heap v w := mkWorld v (scanners w) (devices w) (lock w) (sniff_thread w) (running w) (clock w) (stdout w).
Definition with_scanners v w := mkWorld (heap w) v (devices w) (lock w) (sniff_thread w) (running w) (clock w) (stdout w).
Definition with_devices v w := mkWorld (heap w) (scanners w) v (lock w) (sniff_thread w) (running w) (clock w) (stdout w).
Definition with_lock_state v w := mkWorld (heap w) (scanners w) (devices w) v (sniff_thread w) (running w) (clock w) (stdout w).
Definition with_sniff_thread v w := mkWorld (heap w) (scanners w) (devices w) (lock w) v (running w) (clock w) (stdout w).
Definition with_running v w := mkWorld (heap w) (scanners w) (devices w) (lock w) (sniff_thread w) v (clock w) (stdout w).
Definition with_clock v w := mkWorld (heap w) (scanners w) (devices w) (lock w) (sniff_thread w) (running w) v (stdout w).
Definition with_stdout v w := mkWorld (heap w) (scanners w) (devices w) (lock w) (sniff_thread w) (running w) (clock w) v.

(** The state of a fresh [ScannerManager()] at time [t]. *)
Definition init_world (t : datetime) : World :=
  mkWorld [] [] ∅ unlocked NotStarted false t [].

(** What running a piece of code from a world gives: a value, a raised
    exception, or a thread that waits for ever for a lock held by another
    thread. *)
Inductive outcome (A : Type) :=
| Done (a : A) (w : World)
| Raised (e : exn) (w : World)
| Deadlock.
Arguments Done {A} a w.
Arguments Raised {A} e w.
Arguments Deadlock {A}.

Definition M (A : Type) : Type := World -> outcome A.

#[export] Instance M_ret : MRet M := fun A a w => Done a w.

#[export] Instance M_bind : MBind M := fun A B k m w =>
  match m w with
  | Done a w' => k a w'
  | Raised e w' => Raised e w'
  | Deadlock => Deadlock
  end.

Definition raise {A} (e : exn) : M A := fun w => Raised e w.
Definition gets {A} (f : World -> A) : M A := fun w => Done (f w) w.
Definition modify (f : World -> World) : M unit := fun w => Done tt (f w).

(** [try: m except handler] *)
Definition try_except {A} (m : M A) (handler : exn -> M A) : M A :=
  fun w => match m w with
           | Raised e w' => handler e w'
           | r => r
           end.

(** [try: m finally: fin] *)
Definition try_finally {A} (m : M A) (fin : M unit) : M A :=
  fun w => match m w with
           | Done a w' => (fin ;; mret a) w'
           | Raised e w' => (fin ;; raise e) w'
           | Deadlock => Deadlock
           end.

Definition print (line : string) : M unit :=
  modify (fun w => with_stdout (stdout w ++ [line]) w).

Definition datetime_now : M datetime := gets clock.

(** Creating an object and reading or writing one through a reference. *)
Definition alloc (d : Device) : M loc :=
  fun w => Done (length (heap w)) (with_heap (heap w ++ [d]) w).

Definition deref (l : loc) : M Device :=
  fun w => match heap w !! l with
           | Some d => Done d w
           | None => Raised (Exception "dangling reference") w
           end.

Definition update (l : loc) (f : Device -> Device) : M unit :=
  d ← deref l; modify (fun w => with_heap (<[l := f d]> (heap w)) w).

(** [RLock.acquire] and [RLock.release] on thread [t], and [with lock:]. *)
Definition acquire (t : thread) : M unit :=
  fun w => match owner (lock w) with
           | None => Done tt (with_lock_state {| owner := Some t; level := 1 |} w)
           | Some t' =>
               if decide (t' = t)
               then Done tt (with_lock_state {| owner := Some t; level := S (level (lock w)) |} w)
               else Deadlock
           end.

Definition release (t : thread) : M unit :=
  fun w => match owner (lock w), level (lock w) with
           | Some t', S n =>
               if decide (t' = t)
               then Done tt (with_lock_state
                               (match n with
                                | 0 => unlocked
                                | _ => {| owner := Some t; level := n |}
                                end) w)
               else Raised (Exception "cannot release un-acquired lock") w
           | _, _ => Raised (Exception "cannot release un-acquired lock") w
           end.

Definition with_lock {A} (t : thread) (m : M A) : M A :=
  acquire t;; try_finally m (release t).

(** ** [scanner/manager.py]: [ScannerManager] *)

(** The two notification slots [_on_device_callback] and
    [_on_device_update_callback].  A callback receives the reference to the
    [Device] and runs on the calling thread; it may call back into the
    manager. *)
Record Callbacks := {
  on_device : option (loc -> M unit);
  on_device_update : option (loc -> M unit)
}.

Definition no_callbacks : Callbacks :=
  {| on_device := None; on_device_update := None |}.

Definition set_on_device_discovered (callback : loc -> M unit) (cbs : Callbacks) : Callbacks :=
  {| on_device := Some callback; on_device_update := on_device_update cbs |}.

Definition set_on_device_updated (callback : loc -> M unit) (cbs : Callbacks) : Callbacks :=
  {| on_device := on_device cbs; on_device_update := Some callback |}.

(** [if callback: callback(device)] *)
Definition notify (callback : option (loc -> M unit)) (device : loc) : M unit :=
  match callback with
  | Some f => f device
  | None => mret tt
  end.

(** [ScannerManager._build_filter] *)
Definition _build_filter (scs : list BaseScanner) : string :=
  let ports := map (fun s => pretty (sc_port s)) scs in
  match ports with
  | [] => "udp"
  | _ => "udp and (port " ++ PyStr.join " or port " ports ++ ")"
  end.

Section Manager.
Context `{PyCase}.

(** [ScannerManager._on_device_discovered], run on thread [t]. *)
Definition _on_device_discovered (t : thread) (cbs : Callbacks) (device : loc) : M unit :=
  with_lock t (
    d ← deref device;
    let unique_id := unique_id d in
    devs ← gets devices;
    match devs !! unique_id with
    | Some existing =>
        now ← datetime_now;
        update existing (update_last_seen now);;
        e ← deref existing;
        d ← deref device;
        (if bool_decide (ip e ≠ ip d)
         then update existing (set_ip (ip d))
         else mret tt);;
        notify (on_device_update cbs) existing
    | None =>
        modify (fun w => with_devices (<[unique_id := device]> (devices w)) w);;
        print ("[Manager] New device: " ++ brand d ++ " - " ++ name d
               ++ " (" ++ ip d ++ ")");;
        notify (on_device cbs) device
    end).

(** [BaseScanner.handle_packet]; the scanner's [_callback] is the manager's
    [_on_device_discovered], bound by [register_scanner]. *)
Definition handle_packet (t : thread) (cbs : Callbacks) (s : BaseScanner) (packet : Packet) : M unit :=
  try_except
    (now ← datetime_now;
     match sc_parse_packet s now packet with
     | inl e => raise e
     | inr None => mret tt
     | inr (Some d) => device ← alloc d; _on_device_discovered t cbs device
     end)
    (fun e => print ("[" ++ sc_brand s ++ "] Packet parsing error: " ++ exn_text e)).

(** [ScannerManager.register_scanner] *)
Definition register_scanner (s : BaseScanner) : M unit :=
  modify (fun w => with_scanners (scanners w ++ [s]) w);;
  print ("[Manager] Registered: <" ++ sc_class s ++ " port=" ++ pretty (sc_port s)
         ++ " brand='" ++ sc_brand s ++ "'>").

(** [ScannerManager._packet_handler] *)
Fixpoint for_each_scanner (t : thread) (cbs : Callbacks) (scs : list BaseScanner) (packet : Packet) : M unit :=
  match scs with
  | [] => mret tt
  | s :: rest => handle_packet t cbs s packet;; for_each_scanner t cbs rest packet
  end.

Definition _packet_handler (t : thread) (cbs : Callbacks) (packet : Packet) : M unit :=
  scs ← gets scanners; for_each_scanner t cbs scs packet.

(** scapy's [sniff(filter, prn, store=False, stop_filter, iface)].  What the
    capture source does is an input: the frames it delivers and how it ends
    when they run out (it returns, or it raises).  Each frame goes to [prn],
    then [stop_filter] is asked. *)
Inductive capture_end := Returns | Raises (e : exn).

Record Capture := { frames : list Packet; ending : capture_end }.

Fixpoint sniff_frames (prn : Packet -> M unit) (stop_filter : Packet -> M bool)
    (fs : list Packet) (e : capture_end) : M unit :=
  match fs with
  | [] => match e with Returns => mret tt | Raises x => raise x end
  | p :: rest =>
      prn p;;
      stop ← stop_filter p;
      if (stop : bool) then mret tt else sniff_frames prn stop_filter rest e
  end.

Definition sniff (prn : Packet -> M unit) (stop_filter : Packet -> M bool) (c : Capture) : M unit :=
  sniff_frames prn stop_filter (frames c) (ending c).

(** [ScannerManager._sniff_loop], the body of the capture thread [t]. *)
Definition _sniff_loop (t : thread) (cbs : Callbacks) (c : Capture) : M unit :=
  scs ← gets scanners;
  let filter_expr := _build_filter scs in
  print ("[Manager] Starting sniff with filter: " ++ filter_expr);;
  try_finally
    (try_except
       (sniff (_packet_handler t cbs) (fun _ => r ← gets running; mret (negb r)) c)
       (fun e => match e with
                 | PermissionError _ =>
                     print "[Manager] ERROR: Administrator privileges required for packet capture!"
                 | Exception msg => print ("[Manager] Sniff error: " ++ msg)
                 end))
    (print "[Manager] Sniff loop ended").

(** The capture thread from its start to its end. *)
Definition run_sniff_thread (t : thread) (cbs : Callbacks) (c : Capture) : M unit :=
  try_finally (_sniff_loop t cbs c)
              (modify (with_sniff_thread Finished)).

(** [ScannerManager.start]: the thread is created and started, its body runs
    later ([run_sniff_thread]). *)
Definition start : M unit :=
  r ← gets running;
  if (r : bool) then print "[Manager] Already running"
  else
    scs ← gets scanners;
    (match (scs : list BaseScanner) with
     | [] => print "[Manager] Warning: No scanners registered!"
     | _ => mret tt
     end);;
    modify (with_running true);;
    modify (with_sniff_thread Alive);;
    print "[Manager] Scanner started".

(** [ScannerManager.stop]; [join(timeout=2.0)] waits and changes nothing. *)
Definition stop : M unit :=
  modify (with_running false);;
  print "[Manager] Scanner stopped".

(** [ScannerManager.get_devices]: [list(self._devices.values())], a new list
    of the references the dict holds. *)
Definition get_devices (t : thread) : M (list loc) :=
  with_lock t (devs ← gets devices; mret (snd <$> map_to_list devs)).

(** [ScannerManager.get_device_count] *)
Definition get_device_count (t : thread) : M nat :=
  with_lock t (devs ← gets devices; mret (size devs)).

(** [ScannerManager.clear_devices] *)
Definition clear_devices (t : thread) : M unit :=
  with_lock t (modify (with_devices ∅));;
  print "[Manager] Device list cleared".

(** [ScannerManager.is_running] *)
Definition is_running : M bool := gets running.

End Manager.

(** * Statements

    ** Well-formed TLV streams

    The encoders below are the inverse of the wire grammar the decoders read;
    the source has no encoder.  They are used to say which payloads a
    statement is about. *)

Definition byte_of_N (n : N) : byte := default x00 (Byte.of_N (n mod 256)).

Definition bytes_of_string (s : string) : bytes :=
  map byte_of_ascii (list_ascii_of_string s).

(** [struct.pack] for ['>H'], ['<H'], ['>I'] and ['<I']. *)
Definition pack_BE_H (n : N) : bytes :=
  [byte_of_N (n / 256); byte_of_N n].
Definition pack_LE_H (n : N) : bytes := rev (pack_BE_H n).
Definition pack_BE_I (n : N) : bytes :=
  [byte_of_N (n / 16777216); byte_of_N (n / 65536); byte_of_N (n / 256); byte_of_N n].
Definition pack_LE_I (n : N) : bytes := rev (pack_BE_I n).

Module UbntStream.

(** A TLV: its type byte and its value. *)
Definition tlv : Type := byte * bytes.

(** The length field has two bytes. *)
Definition fits (t : tlv) : Prop := (N.of_nat (length t.2) < 65536)%N.

Definition encode_tlv (t : tlv) : bytes :=
  t.1 :: pack_BE_H (N.of_nat (length t.2)) ++ t.2.

Definition encode (ts : list tlv) : bytes := concat (map encode_tlv ts).

(** What the [if]/[elif] chain does with one complete TLV. *)
Definition absorb (result : Ubnt.TlvData) (t : tlv) : Ubnt.TlvData :=
  default result (Ubnt.dispatch (Byte.to_N t.1) t.2 result).

Definition accumulate (ts : list tlv) : Ubnt.TlvData :=
  fold_left absorb ts Ubnt.empty.

(** A tail that starts with a TLV header whose declared length reads past the
    end of the buffer. *)
Definition overruns (tail : bytes) : bool :=
  match tail with
  | _ :: hi :: lo :: rest => length rest <? N.to_nat (Struct.be [hi; lo])
  | _ => false
  end.

(** The executions of the loop of [_parse_tlv] in which no exception is
    raised: from [offset] and [result] the loop ends with [final]. *)
Inductive run (data : bytes) : nat -> Ubnt.TlvData -> Ubnt.TlvData -> Prop :=
| run_exit offset result :
    ¬ offset + 3 <= length data ->
    run data offset result result
| run_break offset result :
    offset + 3 <= length data ->
    Ubnt.body data offset result = Some Ubnt.Break ->
    run data offset result result
| run_next offset result tlv_len result' final :
    offset + 3 <= length data ->
    Ubnt.body data offset result = Some (Ubnt.Next tlv_len result') ->
    run data (offset + 3 + tlv_len) result' final ->
    run data offset result final.

(** A captured frame on the Ubiquiti port that carries [payload]. *)
Definition frame (source : string) (payload : bytes) : Packet :=
  {| ip_layer := Some {| src := source |};
     udp_layer := Some {| sport := Ubnt.port; dport := Ubnt.port;
                          load := Some payload |} |}.

(** The four header bytes before the TLV stream: one of the two accepted
    signatures, then two bytes the decoder does not read. *)
Definition header (v2 : bool) (b2 b3 : byte) : bytes :=
  [if v2 then x02 else x01; x00; b2; b3].

End UbntStream.

Module MndpStream.

(** A TLV: its 16-bit type and its value. *)
Definition tlv : Type := N * bytes.

Definition fits (t : tlv) : Prop :=
  (t.1 < 65536)%N ∧ (N.of_nat (length t.2) < 65536)%N.

Definition encode_tlv (t : tlv) : bytes :=
  pack_LE_H t.1 ++ pack_LE_H (N.of_nat (length t.2)) ++ t.2.

Definition encode (ts : list tlv) : bytes := concat (map encode_tlv ts).

Definition absorb (result : Mndp.TlvData) (t : tlv) : Mndp.TlvData :=
  default result (Mndp.dispatch t.1 t.2 result).

Definition accumulate (ts : list tlv) : Mndp.TlvData :=
  fold_left absorb ts Mndp.empty.

Definition overruns (tail : bytes) : bool :=
  match tail with
  | _ :: _ :: lo :: hi :: rest => length rest <? N.to_nat (Struct.le [lo; hi])
  | _ => false
  end.

Inductive run (data : bytes) : nat -> Mndp.TlvData -> Mndp.TlvData -> Prop :=
| run_exit offset result :
    ¬ offset + 4 <= length data ->
    run data offset result result
| run_break offset result :
    offset + 4 <= length data ->
    Mndp.body data offset result = Some Mndp.Break ->
    run data offset result result
| run_next offset result tlv_len result' final :
    offset + 4 <= length data ->
    Mndp.body data offset result = Some (Mndp.Next tlv_len result') ->
    run data (offset + 4 + tlv_len) result' final ->
    run data offset result final.

Definition frame (source : string) (payload : bytes) : Packet :=
  {| ip_layer := Some {| src := source |};
     udp_layer := Some {| sport := Mndp.port; dport := Mndp.port;
                          load := Some payload |} |}.

End MndpStream.

(** The decoder has extracted a hardware address. *)
Definition has_mac (r : option string) : Prop :=
  exists m, r = Some m ∧ PyStr.truthy m = true.

(** The hardware address of the examples. *)
Definition ex_mac : bytes := [xaa; xbb; xcc; xdd; xee; xff].

(** [needle] occurs in [s]. *)
Definition substring (needle s : string) : Prop :=
  exists pre post : string, s = pre ++ needle ++ post.

(** The brand rule as the design document words it: the lower-cased
    concatenation of platform and board. *)
Definition brand_as_specified `{PyCase} (platform board : string) : string :=
  let combined := str_lower (platform ++ board) in
  if PyStr.contains "mimosa" combined then "Mimosa"
  else if existsb (fun indicator => PyStr.contains indicator combined)
                  Mndp.mikrotik_indicators
  then "Mikrotik"
  else "Mikrotik/MNDP".

(** An MNDP stream whose platform ends and whose board starts inside the
    word the brand rule looks for. *)
Definition mimosa_split : bytes :=
  MndpStream.encode [(1%N, ex_mac); (8%N, bytes_of_string "Mimo"); (14%N, bytes_of_string "SA")].

(** The firmware text as the design document words it: the UTF-8 decoding
    of the value with the NULs at its end trimmed and nothing else removed. *)
Definition firmware_as_specified (value : bytes) : string :=
  PyStr.rstrip PyStr.NUL (Utf8.decode_ignore value).

(** A firmware value padded with a NUL on both sides. *)
Definition padded_firmware : bytes := [x00; x76; x31; x00].

(** ** The manager: worlds, callbacks and what the statements are about *)

Definition held (t : nat) (n : nat) : RLock := {| owner := Some t; level := n |}.

(** Every reference the registry holds points to an object. *)
Definition registry_wf (w : World) : Prop :=
  forall k l, devices w !! k = Some l -> is_Some (heap w !! l).

(** A callback that only writes to the standard output. *)
Definition passive (cb : nat -> M unit) : Prop :=
  forall l w, exists lines, cb l w = Done tt (with_stdout lines w).

Definition passive_callbacks (cbs : Callbacks) : Prop :=
  (forall f, on_device cbs = Some f -> passive f)
  ∧ (forall f, on_device_update cbs = Some f -> passive f).

(** Thread [t] can take the lock without waiting. *)
Definition lockable (t : nat) (w : World) : Prop :=
  lock w = unlocked ∨ exists n, lock w = held t (S n).

(** A callback that reports whether the lock is held when it is called. *)
Definition lock_probe : nat -> M unit := fun _ =>
  lk ← gets lock;
  print (match owner lk with
         | None => "lock released"
         | Some _ => "lock held"
         end).

Definition probing : Callbacks :=
  {| on_device := Some lock_probe; on_device_update := Some lock_probe |}.

Section ManagerStatements.
Context `{PyCase}.

Definition new_device_line (d : Device) : string :=
  "[Manager] New device: " ++ brand d ++ " - " ++ name d ++ " (" ++ ip d ++ ")".

(** The world in which the new-device callback is invoked. *)
Definition world_at_new (t : nat) (l : nat) (d : Device) (w : World) : World :=
  with_stdout (stdout w ++ [new_device_line d])
    (with_devices (<[unique_id d := l]> (devices w))
       (with_lock_state (held t 1) w)).

(** The [Device] object after a repeated sighting [d] at time [now]. *)
Definition refreshed (now : N) (d e : Device) : Device :=
  if bool_decide (ip e ≠ ip d)
  then set_ip (ip d) (update_last_seen now e)
  else update_last_seen now e.

(** The world in which the device-updated callback is invoked. *)
Definition world_at_update (t : nat) (existing : nat) (d e : Device) (w : World) : World :=
  with_heap (<[existing := refreshed (clock w) d e]> (heap w))
    (with_lock_state (held t 1) w).

(** A callback that calls back into the manager on its own thread. *)
Definition reenter (t : nat) : nat -> M unit := fun _ =>
  get_devices t;; get_device_count t;; mret tt.

Definition reentrant (t : nat) : Callbacks :=
  {| on_device := Some (reenter t); on_device_update := Some (reenter t) |}.

(** The design document's reading: the probe finds the lock released. *)
Definition callbacks_see_lock_released : Prop :=
  forall (t : nat) (w w' : World) (l : nat) (d : Device),
    lock w = unlocked -> heap w !! l = Some d ->
    _on_device_discovered t probing l w = Done tt w' ->
    last (stdout w') = Some "lock released".

(** What a reader of the registry sees: each key with the current contents
    of its record. *)
Definition registry_view (w : World) : gmap string Device :=
  omap (fun l : nat => heap w !! l) (devices w).

(** The design document's reading: nothing reached through the value
    [get_devices] returns changes what the registry holds. *)
Definition snapshot_is_deep : Prop :=
  forall (t : nat) (w w1 w2 : World) (ls : list nat) (l : nat) (f : Device -> Device),
    lock w = unlocked ->
    get_devices t w = Done ls w1 -> l ∈ ls ->
    update l f w1 = Done tt w2 ->
    registry_view w2 = registry_view w1.

End ManagerStatements.

Definition sighting (mac_text ip_text : string) (seen : N) : Device :=
  new_Device seen "Ubiquiti" ip_text mac_text "AP1" "" "" 0%N.

Definition first_sighting : Device := sighting "aa:bb:cc:dd:ee:ff" "10.0.0.5" 100.
Definition second_sighting : Device := sighting "AA:BB:CC:DD:EE:FF" "10.0.0.9" 160.

(** A fresh manager and the two [Device] objects a decoder has built. *)
Definition dedup_world : World :=
  with_heap [first_sighting; second_sighting] (init_world 170).

(** A manager that has seen one device. *)
Definition one_device_world : World :=
  with_devices {[ "AA:BB:CC:DD:EE:FF" := 0 ]}
    (with_heap [second_sighting] (init_world 170)).

(** ** Further statements: decoded devices, streams and the registry *)

(** The text of six bytes as a hardware address: seventeen characters. *)
Definition canonical_mac (m : string) : Prop :=
  exists b1 b2 b3 b4 b5 b6 : byte, m = format_mac [b1; b2; b3; b4; b5; b6].

(** No NUL at either end. *)
Definition nul_free_ends (s : string) : Prop :=
  PyStr.strip PyStr.NUL s = s.

(** ASCII text without NUL. *)
Fixpoint plain_text (s : string) : bool :=
  match s with
  | EmptyString => true
  | String a s' => (0 <? N_of_ascii a)%N && (N_of_ascii a <? 128)%N && plain_text s'
  end.

(** What the Ubiquiti loop keeps true of its result. *)
Definition ubnt_fields_ok (r : Ubnt.TlvData) : Prop :=
  (forall m, Ubnt.r_mac r = Some m -> canonical_mac m)
  ∧ (forall s, Ubnt.r_hostname r = Some s -> nul_free_ends s)
  ∧ (forall s, Ubnt.r_model r = Some s -> nul_free_ends s)
  ∧ (forall s, Ubnt.r_firmware r = Some s -> nul_free_ends s).

(** What the MNDP loop keeps true of its result. *)
Definition mndp_fields_ok (r : Mndp.TlvData) : Prop :=
  (forall m, Mndp.r_mac r = Some m -> canonical_mac m)
  ∧ (forall s, Mndp.r_identity r = Some s -> nul_free_ends s)
  ∧ (forall s, Mndp.r_version r = Some s -> nul_free_ends s)
  ∧ (forall s, Mndp.r_platform r = Some s -> nul_free_ends s)
  ∧ (forall s, Mndp.r_board r = Some s -> nul_free_ends s).

(** A TLV that gives the Ubiquiti decoder a hardware address, an IP address. *)
Definition ubnt_sets_mac (t : UbntStream.tlv) : bool :=
  ((Byte.to_N t.1 =? Ubnt.TLV_MAC_ADDRESS)%N && (6 <=? length t.2))
  || ((Byte.to_N t.1 =? Ubnt.TLV_IP_INFO)%N && (10 <=? length t.2)).

Definition ubnt_sets_ip (t : UbntStream.tlv) : bool :=
  (Byte.to_N t.1 =? Ubnt.TLV_IP_INFO)%N && (10 <=? length t.2).

(** The TLV types the Ubiquiti decoder acts on. *)
Definition ubnt_known (ty : byte) : bool :=
  existsb (N.eqb (Byte.to_N ty))
    [Ubnt.TLV_MAC_ADDRESS; Ubnt.TLV_IP_INFO; Ubnt.TLV_FIRMWARE; Ubnt.TLV_HOSTNAME;
     Ubnt.TLV_MODEL_SHORT; Ubnt.TLV_MODEL_FULL; Ubnt.TLV_UPTIME].

Definition mndp_sets_mac (t : MndpStream.tlv) : bool :=
  (t.1 =? Mndp.TLV_MAC_ADDRESS)%N && (6 <=? length t.2).

Definition mndp_sets_ip (t : MndpStream.tlv) : bool :=
  (t.1 =? Mndp.TLV_IPV4)%N && (4 <=? length t.2).

Definition mndp_known (ty : N) : bool :=
  existsb (N.eqb ty)
    [Mndp.TLV_MAC_ADDRESS; Mndp.TLV_IDENTITY; Mndp.TLV_VERSION; Mndp.TLV_PLATFORM;
     Mndp.TLV_BOARD; Mndp.TLV_UPTIME; Mndp.TLV_IPV4].

(** The end of a stream: too few bytes for a header, or an overrunning one. *)
Definition ubnt_stops (tail : bytes) : Prop :=
  length tail < 3 ∨ UbntStream.overruns tail = true.

Definition mndp_stops (tail : bytes) : Prop :=
  length tail < 4 ∨ MndpStream.overruns tail = true.

(** Streams of the examples. *)
Definition ex_host : UbntStream.tlv := (x0b, bytes_of_string "AP1").

Definition ex_essid : UbntStream.tlv := (x0d, bytes_of_string "backhaul").

Definition ex_identity : MndpStream.tlv := (5%N, bytes_of_string "gw").

Definition ex_interface : MndpStream.tlv := (17%N, bytes_of_string "ether1").

Definition ex_ip_info : bytes := ex_mac ++ [xc0; xa8; x01; x14].

(** Two states of one [Device] object: everything but [ip] and [last_seen]
    is the same. *)
Definition same_record (d d' : Device) : Prop :=
  brand d' = brand d ∧ mac d' = mac d ∧ name d' = name d ∧ model d' = model d
  ∧ firmware d' = firmware d ∧ uptime d' = uptime d
  ∧ discovered_at d' = discovered_at d.

(** What handling captured frames may change: the output, new objects, new
    keys, and the [ip] and [last_seen] of known records. *)
Definition grows (w w' : World) : Prop :=
  running w' = running w ∧ scanners w' = scanners w
  ∧ sniff_thread w' = sniff_thread w ∧ lock w' = lock w ∧ clock w' = clock w
  ∧ (forall k l, devices w !! k = Some l -> devices w' !! k = Some l)
  ∧ (forall l d, heap w !! l = Some d -> exists d', heap w' !! l = Some d' ∧ same_record d d').

Section ManagerMoreDefs.
Context `{PyCase}.

(** Every key of the registry is the [unique_id] of the record it refers to. *)
Definition registry_keyed (w : World) : Prop :=
  forall k l, devices w !! k = Some l ->
              exists d, heap w !! l = Some d ∧ unique_id d = k.

End ManagerMoreDefs.

(** [create_default_manager]: a manager with the two scanners registered. *)
Definition create_default_manager `{PyCase} : M unit :=
  register_scanner UbiquitiScanner;; register_scanner MNDPScanner.

(** A started default manager. *)
Definition default_world : World :=
  with_running true (with_scanners [UbiquitiScanner; MNDPScanner] (init_world 170)).

(** A scanner whose decoder raises on every frame. *)
Definition broken_scanner : BaseScanner :=
  {| sc_class := "BrokenScanner"; sc_port := 9999; sc_brand := "Broken";
     sc_parse_packet := fun _ _ => inl (Exception "index out of range") |}.

(** A Ubiquiti announcement and a frame of another protocol. *)
Definition ubnt_announcement : Packet :=
  UbntStream.frame "10.0.0.9"
    (UbntStream.header false x00 x00
     ++ UbntStream.encode [(x01, ex_mac); (x0b, bytes_of_string "AP1")]).

Definition dns_frame : Packet :=
  {| ip_layer := Some {| src := "10.0.0.7" |};
     udp_layer := Some {| sport := 53; dport := 40000; load := Some [x00; x01] |} |}.

(** A manager that knows the device of [second_sighting] and has been handed
    a later sighting of it under another address and name. *)
Definition later_sighting : Device :=
  new_Device 300 "Ubiquiti" "10.0.0.77" "aa:bb:cc:dd:ee:ff" "Renamed" "NSM5" "v2" 5%N.

Definition resighting_world : World :=
  with_clock 310%N
    (with_devices {[ "AA:BB:CC:DD:EE:FF" := 0 ]}
       (with_heap [second_sighting; later_sighting] (init_world 170))).

(** * Proofs *)

(** ** Auxiliary facts: bytes, slices and [struct] *)

Lemma byte_of_N_to_N (n : N) : Byte.to_N (byte_of_N n) = (n mod 256)%N.
Proof.
  unfold byte_of_N.
  assert (Hlt : (n mod 256 < 256)%N) by (apply N.mod_lt; lia).
  destruct (Byte.of_N (n mod 256)) as [b|] eqn:E.
  - simpl. by apply Byte.to_of_N.
  - apply Byte.of_N_None_iff in E. lia.
Qed.

Lemma be_pack_BE_H (n : N) : (n < 65536)%N -> Struct.be (pack_BE_H n) = n.
Proof.
  intros Hn. unfold Struct.be, pack_BE_H.
  cbn [fold_left]. rewrite !byte_of_N_to_N.
  assert ((n / 256) < 256)%N by (apply N.Div0.div_lt_upper_bound; lia).
  rewrite (N.mod_small (n / 256)) by lia.
  pose proof (N.div_mod n 256). lia.
Qed.

Lemma slice_app_shift (pre x : bytes) (a b : nat) :
  slice (pre ++ x) (length pre + a) (length pre + b) = slice x a b.
Proof.
  unfold slice. rewrite drop_app_add.
  f_equal. lia.
Qed.

Lemma ubnt_loop_unfold (data : bytes) (offset : nat) (result : Ubnt.TlvData) :
  Ubnt.loop data offset result =
  if decide (offset + 3 <= length data) then
    match Ubnt.body data offset result with
    | Some (Ubnt.Next tlv_len result') => Ubnt.loop data (offset + 3 + tlv_len) result'
    | Some Ubnt.Break => result
    | None => result
    end
  else result.
Proof.
  simp loop. destruct (decide _); simpl; [|done].
  destruct (Ubnt.body data offset result) as [[]|]; done.
Qed.

(** ** The Ubiquiti loop on a well-formed stream *)

Lemma unpack_BE_I_take4 (value : bytes) :
  4 <= length value -> Struct.unpack_BE_I (take 4 value) = Some (Struct.be (take 4 value)).
Proof.
  intros Hl. unfold Struct.unpack_BE_I.
  rewrite length_take, Nat.min_l by lia. reflexivity.
Qed.

Lemma ubnt_dispatch_total (ty : N) (value : bytes) (r : Ubnt.TlvData) :
  is_Some (Ubnt.dispatch ty value r).
Proof.
  unfold Ubnt.dispatch.
  repeat (case_match; try (eexists; reflexivity)).
  rewrite unpack_BE_I_take4 by (by apply Nat.leb_le).
  eexists; reflexivity.
Qed.

Lemma ubnt_dispatch_absorb (t : UbntStream.tlv) (r : Ubnt.TlvData) :
  Ubnt.dispatch (Byte.to_N t.1) t.2 r = Some (UbntStream.absorb r t).
Proof.
  unfold UbntStream.absorb.
  destruct (ubnt_dispatch_total (Byte.to_N t.1) t.2 r) as [r' ->]. reflexivity.
Qed.

Lemma ubnt_encode_tlv_length (t : UbntStream.tlv) :
  length (UbntStream.encode_tlv t) = 3 + length t.2.
Proof. unfold UbntStream.encode_tlv. simpl. reflexivity. Qed.

Lemma ubnt_body_at (pre post v : bytes) (ty hi lo : byte) (r : Ubnt.TlvData) :
  Struct.be [hi; lo] = N.of_nat (length v) ->
  Ubnt.body (pre ++ ty :: hi :: lo :: v ++ post) (length pre) r
  = Some (Ubnt.Next (length v) (UbntStream.absorb r (ty, v))).
Proof.
  intros Hbe. unfold Ubnt.body, byte_at.
  rewrite list_lookup_middle by reflexivity.
  cbn [mbind option_bind].
  rewrite (slice_app_shift pre _ 1 3).
  change (slice (ty :: hi :: lo :: v ++ post)%list 1 3) with [hi; lo].
  change (Struct.unpack_BE_H [hi; lo]) with (Some (Struct.be [hi; lo])).
  rewrite Hbe. cbn [mbind option_bind]. rewrite Nat2N.id.
  destruct (Nat.ltb_spec (length (pre ++ ty :: hi :: lo :: v ++ post)%list)
              (length pre + 3 + length v)) as [Hlt|_].
  { rewrite length_app in Hlt. cbn [length] in Hlt. rewrite length_app in Hlt. lia. }
  rewrite <- (Nat.add_assoc (length pre) 3 (length v)).
  rewrite (slice_app_shift pre _ 3 (3 + length v)).
  assert (Hv : slice (ty :: hi :: lo :: v ++ post)%list 3 (3 + length v) = v).
  { unfold slice. replace (3 + length v - 3) with (length v) by lia.
    cbn [skipn]. rewrite drop_0. by rewrite take_app_length. }
  rewrite Hv.
  pose proof (ubnt_dispatch_absorb (ty, v) r) as Hd. cbn [fst snd] in Hd.
  rewrite Hd. reflexivity.
Qed.

Lemma ubnt_body_tlv (pre post : bytes) (t : UbntStream.tlv) (r : Ubnt.TlvData) :
  UbntStream.fits t ->
  Ubnt.body (pre ++ UbntStream.encode_tlv t ++ post) (length pre) r
  = Some (Ubnt.Next (length t.2) (UbntStream.absorb r t)).
Proof.
  intros Hfit. destruct t as [ty v]. unfold UbntStream.fits in Hfit.
  cbn [fst snd] in *.
  pose proof (be_pack_BE_H _ Hfit) as Hbe.
  exact (ubnt_body_at pre post v ty _ _ r Hbe).
Qed.

Lemma ubnt_body_total (data : bytes) (offset : nat) (r : Ubnt.TlvData) :
  offset + 3 <= length data -> is_Some (Ubnt.body data offset r).
Proof.
  intros Hlen. unfold Ubnt.body, byte_at.
  destruct (lookup_lt_is_Some_2 data offset) as [ty ->]; [lia|].
  cbn [mbind option_bind].
  unfold Struct.unpack_BE_H.
  assert (Hl : length (slice data (offset + 1) (offset + 3)) = 2).
  { unfold slice. rewrite length_take, length_drop. lia. }
  rewrite Hl. cbn [Nat.eqb mbind option_bind].
  case_match; [by eexists|].
  destruct (ubnt_dispatch_total (Byte.to_N ty)
              (slice data (offset + 3)
                 (offset + 3 + N.to_nat (Struct.be (slice data (offset + 1) (offset + 3)))))
              r) as [r' ->].
  by eexists.
Qed.

Lemma ubnt_run_loop (data : bytes) (offset : nat) (r : Ubnt.TlvData) :
  UbntStream.run data offset r (Ubnt.loop data offset r).
Proof.
  remember (length data - offset) as m eqn:Hm.
  revert offset r Hm. induction (lt_wf m) as [m _ IH]. intros offset r ->.
  rewrite ubnt_loop_unfold.
  destruct (decide (offset + 3 <= length data)) as [Hle|Hnle].
  - destruct (ubnt_body_total data offset r Hle) as [[|n r'] Hb]; rewrite Hb.
    + by apply UbntStream.run_break.
    + eapply UbntStream.run_next; [done|exact Hb|].
      eapply IH; [|reflexivity]. lia.
  - by apply UbntStream.run_exit.
Qed.

Lemma ubnt_encode_cons (t : UbntStream.tlv) (ts : list UbntStream.tlv) :
  UbntStream.encode (t :: ts) = (UbntStream.encode_tlv t ++ UbntStream.encode ts)%list.
Proof. reflexivity. Qed.

Lemma ubnt_encode_app (ts1 ts2 : list UbntStream.tlv) :
  UbntStream.encode (ts1 ++ ts2) = (UbntStream.encode ts1 ++ UbntStream.encode ts2)%list.
Proof. unfold UbntStream.encode. by rewrite map_app, concat_app. Qed.

Lemma ubnt_loop_stream (ts : list UbntStream.tlv) :
  Forall UbntStream.fits ts ->
  forall (pre tail : bytes) (r : Ubnt.TlvData),
    Ubnt.loop (pre ++ UbntStream.encode ts ++ tail) (length pre) r
    = Ubnt.loop (pre ++ UbntStream.encode ts ++ tail)
        (length pre + length (UbntStream.encode ts)) (fold_left UbntStream.absorb ts r).
Proof.
  induction 1 as [|t ts Hfit _ IH]; intros pre tail r.
  - cbn [UbntStream.encode map concat fold_left length]. by rewrite Nat.add_0_r.
  - rewrite ubnt_encode_cons, <- !app_assoc. rewrite ubnt_loop_unfold.
    rewrite decide_True.
    2:{ rewrite !length_app, ubnt_encode_tlv_length. lia. }
    rewrite ubnt_body_tlv by done.
    rewrite (app_assoc pre).
    replace (length pre + 3 + length t.2) with (length (pre ++ UbntStream.encode_tlv t)%list)
      by (rewrite length_app, ubnt_encode_tlv_length; lia).
    rewrite IH. cbn [fold_left]. f_equal.
    rewrite !length_app. lia.
Qed.

Lemma ubnt_loop_stop (pre tail : bytes) (r : Ubnt.TlvData) :
  length tail < 3 ∨ UbntStream.overruns tail = true ->
  Ubnt.loop (pre ++ tail) (length pre) r = r.
Proof.
  intros Hstop. rewrite ubnt_loop_unfold.
  destruct (decide (length pre + 3 <= length (pre ++ tail)%list)) as [Hle|]; [|done].
  rewrite length_app in Hle.
  destruct Hstop as [Hshort|Hover]; [lia|].
  destruct tail as [|ty [|hi [|lo rest]]]; try discriminate.
  unfold Ubnt.body, byte_at.
  rewrite list_lookup_middle by reflexivity.
  cbn [mbind option_bind].
  rewrite (slice_app_shift pre _ 1 3).
  change (slice (ty :: hi :: lo :: rest) 1 3) with [hi; lo].
  change (Struct.unpack_BE_H [hi; lo]) with (Some (Struct.be [hi; lo])).
  cbn [mbind option_bind].
  unfold UbntStream.overruns in Hover. apply Nat.ltb_lt in Hover.
  rewrite (proj2 (Nat.ltb_lt _ _)); [done|].
  rewrite length_app. cbn [length]. lia.
Qed.

Lemma ubnt_parse_stream (ts : list UbntStream.tlv) (tail : bytes) :
  Forall UbntStream.fits ts ->
  length tail < 3 ∨ UbntStream.overruns tail = true ->
  Ubnt._parse_tlv (UbntStream.encode ts ++ tail) = UbntStream.accumulate ts.
Proof.
  intros Hfit Hstop. unfold Ubnt._parse_tlv, UbntStream.accumulate.
  pose proof (ubnt_loop_stream ts Hfit [] tail Ubnt.empty) as Hs.
  cbn [app length Nat.add] in Hs. rewrite Hs.
  exact (ubnt_loop_stop (UbntStream.encode ts) tail _ Hstop).
Qed.

(** ** The MNDP loop on a well-formed stream *)

Lemma mndp_loop_unfold (data : bytes) (offset : nat) (result : Mndp.TlvData) :
  Mndp.loop data offset result =
  if decide (offset + 4 <= length data) then
    match Mndp.body data offset result with
    | Some (Mndp.Next tlv_len result') => Mndp.loop data (offset + 4 + tlv_len) result'
    | Some Mndp.Break => result
    | None => result
    end
  else result.
Proof.
  simp loop. destruct (decide _); simpl; [|done].
  destruct (Mndp.body data offset result) as [[]|]; done.
Qed.

Lemma le_pack_LE_H (n : N) : (n < 65536)%N -> Struct.le (pack_LE_H n) = n.
Proof.
  intros Hn. unfold Struct.le, pack_LE_H. rewrite rev_involutive.
  by apply be_pack_BE_H.
Qed.

Lemma unpack_LE_I_take4 (value : bytes) :
  4 <= length value -> Struct.unpack_LE_I (take 4 value) = Some (Struct.le (take 4 value)).
Proof.
  intros Hl. unfold Struct.unpack_LE_I.
  rewrite length_take, Nat.min_l by lia. reflexivity.
Qed.

Lemma mndp_dispatch_total (ty : N) (value : bytes) (r : Mndp.TlvData) :
  is_Some (Mndp.dispatch ty value r).
Proof.
  unfold Mndp.dispatch.
  repeat (case_match; try (eexists; reflexivity)).
  rewrite unpack_LE_I_take4 by (by apply Nat.leb_le).
  eexists; reflexivity.
Qed.

Lemma mndp_dispatch_absorb (t : MndpStream.tlv) (r : Mndp.TlvData) :
  Mndp.dispatch t.1 t.2 r = Some (MndpStream.absorb r t).
Proof.
  unfold MndpStream.absorb.
  destruct (mndp_dispatch_total t.1 t.2 r) as [r' ->]. reflexivity.
Qed.

Lemma mndp_body_at (pre post v : bytes) (t0 t1 l0 l1 : byte) (r : Mndp.TlvData) :
  Struct.le [l0; l1] = N.of_nat (length v) ->
  Mndp.body (pre ++ t0 :: t1 :: l0 :: l1 :: v ++ post) (length pre) r
  = Some (Mndp.Next (length v) (MndpStream.absorb r (Struct.le [t0; t1], v))).
Proof.
  intros Hle. unfold Mndp.body.
  rewrite <- (Nat.add_0_r (length pre)) at 1.
  rewrite (slice_app_shift pre _ 0 2), (slice_app_shift pre _ 2 4).
  change (slice (t0 :: t1 :: l0 :: l1 :: v ++ post)%list 0 2) with [t0; t1].
  change (slice (t0 :: t1 :: l0 :: l1 :: v ++ post)%list 2 4) with [l0; l1].
  change (Struct.unpack_LE_H [t0; t1]) with (Some (Struct.le [t0; t1])).
  change (Struct.unpack_LE_H [l0; l1]) with (Some (Struct.le [l0; l1])).
  rewrite Hle. cbn [mbind option_bind]. rewrite Nat2N.id.
  destruct (Nat.ltb_spec (length (pre ++ t0 :: t1 :: l0 :: l1 :: v ++ post)%list)
              (length pre + 4 + length v)) as [Hlt|_].
  { rewrite length_app in Hlt. cbn [length] in Hlt. rewrite length_app in Hlt. lia. }
  rewrite <- (Nat.add_assoc (length pre) 4 (length v)).
  rewrite (slice_app_shift pre _ 4 (4 + length v)).
  assert (Hv : slice (t0 :: t1 :: l0 :: l1 :: v ++ post)%list 4 (4 + length v) = v).
  { unfold slice. replace (4 + length v - 4) with (length v) by lia.
    cbn [skipn]. rewrite drop_0. by rewrite take_app_length. }
  rewrite Hv.
  pose proof (mndp_dispatch_absorb (Struct.le [t0; t1], v) r) as Hd. cbn [fst snd] in Hd.
  rewrite Hd. reflexivity.
Qed.

Lemma mndp_body_tlv (pre post : bytes) (t : MndpStream.tlv) (r : Mndp.TlvData) :
  MndpStream.fits t ->
  Mndp.body (pre ++ MndpStream.encode_tlv t ++ post) (length pre) r
  = Some (Mndp.Next (length t.2) (MndpStream.absorb r t)).
Proof.
  intros [Hty Hfit]. destruct t as [ty v]. cbn [fst snd] in *.
  pose proof (le_pack_LE_H _ Hfit) as Hl.
  pose proof (le_pack_LE_H _ Hty) as Ht.
  set (len := N.of_nat (length v)) in *.
  pose proof (mndp_body_at pre post v (byte_of_N ty) (byte_of_N (ty / 256))
                (byte_of_N len) (byte_of_N (len / 256)) r Hl) as Hb.
  change (Struct.le [byte_of_N ty; byte_of_N (ty / 256)])
    with (Struct.le (pack_LE_H ty)) in Hb.
  rewrite Ht in Hb. exact Hb.
Qed.

Lemma mndp_body_total (data : bytes) (offset : nat) (r : Mndp.TlvData) :
  offset + 4 <= length data -> is_Some (Mndp.body data offset r).
Proof.
  intros Hlen. unfold Mndp.body, Struct.unpack_LE_H.
  assert (Hl1 : length (slice data offset (offset + 2)) = 2).
  { unfold slice. rewrite length_take, length_drop. lia. }
  assert (Hl2 : length (slice data (offset + 2) (offset + 4)) = 2).
  { unfold slice. rewrite length_take, length_drop. lia. }
  rewrite Hl1, Hl2. cbn [Nat.eqb mbind option_bind].
  case_match; [by eexists|].
  destruct (mndp_dispatch_total (Struct.le (slice data offset (offset + 2)))
              (slice data (offset + 4)
                 (offset + 4 + N.to_nat (Struct.le (slice data (offset + 2) (offset + 4)))))
              r) as [r' ->].
  by eexists.
Qed.

Lemma mndp_run_loop (data : bytes) (offset : nat) (r : Mndp.TlvData) :
  MndpStream.run data offset r (Mndp.loop data offset r).
Proof.
  remember (length data - offset) as m eqn:Hm.
  revert offset r Hm. induction (lt_wf m) as [m _ IH]. intros offset r ->.
  rewrite mndp_loop_unfold.
  destruct (decide (offset + 4 <= length data)) as [Hle|Hnle].
  - destruct (mndp_body_total data offset r Hle) as [[|n r'] Hb]; rewrite Hb.
    + by apply MndpStream.run_break.
    + eapply MndpStream.run_next; [done|exact Hb|].
      eapply IH; [|reflexivity]. lia.
  - by apply MndpStream.run_exit.
Qed.

Lemma mndp_encode_cons (t : MndpStream.tlv) (ts : list MndpStream.tlv) :
  MndpStream.encode (t :: ts) = (MndpStream.encode_tlv t ++ MndpStream.encode ts)%list.
Proof. reflexivity. Qed.

Lemma mndp_encode_app (ts1 ts2 : list MndpStream.tlv) :
  MndpStream.encode (ts1 ++ ts2) = (MndpStream.encode ts1 ++ MndpStream.encode ts2)%list.
Proof. unfold MndpStream.encode. by rewrite map_app, concat_app. Qed.

Lemma mndp_encode_tlv_length (t : MndpStream.tlv) :
  length (MndpStream.encode_tlv t) = 4 + length t.2.
Proof. reflexivity. Qed.

Lemma mndp_loop_stream (ts : list MndpStream.tlv) :
  Forall MndpStream.fits ts ->
  forall (pre tail : bytes) (r : Mndp.TlvData),
    Mndp.loop (pre ++ MndpStream.encode ts ++ tail) (length pre) r
    = Mndp.loop (pre ++ MndpStream.encode ts ++ tail)
        (length pre + length (MndpStream.encode ts)) (fold_left MndpStream.absorb ts r).
Proof.
  induction 1 as [|t ts Hfit _ IH]; intros pre tail r.
  - cbn [MndpStream.encode map concat fold_left length]. by rewrite Nat.add_0_r.
  - rewrite mndp_encode_cons, <- !app_assoc. rewrite mndp_loop_unfold.
    rewrite decide_True.
    2:{ rewrite !length_app, mndp_encode_tlv_length. lia. }
    rewrite mndp_body_tlv by done.
    rewrite (app_assoc pre).
    replace (length pre + 4 + length t.2) with (length (pre ++ MndpStream.encode_tlv t)%list)
      by (rewrite length_app, mndp_encode_tlv_length; lia).
    rewrite IH. cbn [fold_left]. f_equal.
    rewrite !length_app. lia.
Qed.

Lemma mndp_loop_stop (pre tail : bytes) (r : Mndp.TlvData) :
  length tail < 4 ∨ MndpStream.overruns tail = true ->
  Mndp.loop (pre ++ tail) (length pre) r = r.
Proof.
  intros Hstop. rewrite mndp_loop_unfold.
  destruct (decide (length pre + 4 <= length (pre ++ tail)%list)) as [Hle|]; [|done].
  rewrite length_app in Hle.
  destruct Hstop as [Hshort|Hover]; [lia|].
  destruct tail as [|t0 [|t1 [|l0 [|l1 rest]]]]; try discriminate.
  unfold Mndp.body.
  rewrite <- (Nat.add_0_r (length pre)) at 1.
  rewrite (slice_app_shift pre _ 0 2), (slice_app_shift pre _ 2 4).
  change (slice (t0 :: t1 :: l0 :: l1 :: rest) 0 2) with [t0; t1].
  change (slice (t0 :: t1 :: l0 :: l1 :: rest) 2 4) with [l0; l1].
  change (Struct.unpack_LE_H [t0; t1]) with (Some (Struct.le [t0; t1])).
  change (Struct.unpack_LE_H [l0; l1]) with (Some (Struct.le [l0; l1])).
  cbn [mbind option_bind].
  unfold MndpStream.overruns in Hover. apply Nat.ltb_lt in Hover.
  rewrite (proj2 (Nat.ltb_lt _ _)); [done|].
  rewrite length_app. cbn [length]. lia.
Qed.

Lemma mndp_parse_stream (ts : list MndpStream.tlv) (tail : bytes) :
  Forall MndpStream.fits ts ->
  length tail < 4 ∨ MndpStream.overruns tail = true ->
  Mndp._parse_tlv (MndpStream.encode ts ++ tail) = MndpStream.accumulate ts.
Proof.
  intros Hfit Hstop. unfold Mndp._parse_tlv, MndpStream.accumulate.
  pose proof (mndp_loop_stream ts Hfit [] tail Mndp.empty) as Hs.
  cbn [app length Nat.add] in Hs. rewrite Hs.
  exact (mndp_loop_stop (MndpStream.encode ts) tail _ Hstop).
Qed.

(** ** Decoding a captured frame *)

Lemma ubnt_parse_frame (now : N) (source : string) (v2 : bool) (b2 b3 : byte) (stream : bytes) :
  2 <= length stream ->
  Ubnt.parse_packet now (UbntStream.frame source (UbntStream.header v2 b2 b3 ++ stream))
  = let tlv_data := Ubnt._parse_tlv stream in
    let mac := default "" (Ubnt.r_mac tlv_data) in
    if PyStr.truthy mac
    then Some (new_Device now Ubnt.brand
                 (default source (Ubnt.r_ip tlv_data)) mac
                 (default "Unknown" (Ubnt.r_hostname tlv_data))
                 (default "" (Ubnt.r_model tlv_data))
                 (default "" (Ubnt.r_firmware tlv_data))
                 (default 0%N (Ubnt.r_uptime tlv_data)))
    else None.
Proof.
  intros Hlen. unfold Ubnt.parse_packet, UbntStream.frame.
  cbn [ip_layer udp_layer sport dport load src].
  change (negb (Ubnt.port =? Ubnt.port)%Z && negb (Ubnt.port =? Ubnt.port)%Z) with false.
  cbv iota.
  rewrite (proj2 (Nat.ltb_ge _ _)).
  2:{ rewrite length_app. destruct v2; cbn [UbntStream.header length]; lia. }
  assert (Hsig : negb (bool_decide (slice (UbntStream.header v2 b2 b3 ++ stream) 0 2 = [x01; x00]))
                 && negb (bool_decide (slice (UbntStream.header v2 b2 b3 ++ stream) 0 2 = [x02; x00]))
                 = false) by (destruct v2; reflexivity).
  rewrite Hsig.
  change (drop 4 (UbntStream.header v2 b2 b3 ++ stream)%list) with stream.
  cbv zeta. destruct (PyStr.truthy _); reflexivity.
Qed.

(** C5.  For every payload the TLV loop of each decoder ends after finitely
    many passes, none of which raises.  When a well-formed stream of TLVs is
    followed by a TLV header whose declared length reads past the end of the
    buffer, the result is exactly what the TLVs before it give: the same as
    parsing the stream without the overrunning tail. *)
Theorem tlv_parse_soft_stop
    (data : bytes) (uts : list UbntStream.tlv) (utail : bytes)
    (mts : list MndpStream.tlv) (mtail : bytes) :
  Forall UbntStream.fits uts -> UbntStream.overruns utail = true ->
  Forall MndpStream.fits mts -> MndpStream.overruns mtail = true ->
  UbntStream.run data 0 Ubnt.empty (Ubnt._parse_tlv data)
  ∧ MndpStream.run data 0 Mndp.empty (Mndp._parse_tlv data)
  ∧ Ubnt._parse_tlv (UbntStream.encode uts ++ utail) = UbntStream.accumulate uts
  ∧ Ubnt._parse_tlv (UbntStream.encode uts) = UbntStream.accumulate uts
  ∧ Mndp._parse_tlv (MndpStream.encode mts ++ mtail) = MndpStream.accumulate mts
  ∧ Mndp._parse_tlv (MndpStream.encode mts) = MndpStream.accumulate mts.
Proof.
  intros Hu Hou Hm Hom. repeat split.
  - apply ubnt_run_loop.
  - apply mndp_run_loop.
  - apply ubnt_parse_stream; auto.
  - rewrite <- (app_nil_r (UbntStream.encode uts)).
    apply ubnt_parse_stream; [done|]. left. cbn [length]. lia.
  - apply mndp_parse_stream; auto.
  - rewrite <- (app_nil_r (MndpStream.encode mts)).
    apply mndp_parse_stream; [done|]. left. cbn [length]. lia.
Qed.

Lemma tlv_parse_soft_stop_witness :
  Ubnt._parse_tlv
    (UbntStream.encode [(x01, ex_mac); (x0b, bytes_of_string "AP1")]
     ++ [x03; x00; x10; x76])
  = UbntStream.accumulate [(x01, ex_mac); (x0b, bytes_of_string "AP1")]
  ∧ Mndp._parse_tlv
      (MndpStream.encode [(1%N, ex_mac); (5%N, bytes_of_string "gw")]
       ++ [x07; x00; x10; x00; x36])
    = MndpStream.accumulate [(1%N, ex_mac); (5%N, bytes_of_string "gw")].
Proof.
  assert (Hu : Forall UbntStream.fits [(x01, ex_mac); (x0b, bytes_of_string "AP1")])
    by (repeat constructor; reflexivity).
  assert (Hm : Forall MndpStream.fits [(1%N, ex_mac); (5%N, bytes_of_string "gw")])
    by (repeat constructor; reflexivity).
  pose proof (tlv_parse_soft_stop [] _ [x03; x00; x10; x76] _ [x07; x00; x10; x00; x36]
                Hu eq_refl Hm eq_refl) as (_ & _ & H1 & _ & H2 & _).
  split; assumption.
Defined.

(** C6.  Round trip: a Ubiquiti payload with an accepted signature, whose
    TLV stream at offset 4 carries the MAC AA:BB:CC:DD:EE:FF, the hostname
    "AP1" and the uptime 3600, decodes to a [Device] with that [mac], that
    [name] and that [uptime]. *)
Theorem ubnt_round_trip (now : N) (source : string) (v2 : bool) (b2 b3 : byte) :
  exists d,
    Ubnt.parse_packet now
      (UbntStream.frame source
         (UbntStream.header v2 b2 b3
          ++ UbntStream.encode [(x01, [xaa; xbb; xcc; xdd; xee; xff]);
                                (x0b, bytes_of_string "AP1");
                                (x0e, pack_BE_I 3600)]))
    = Some d
    ∧ mac d = "AA:BB:CC:DD:EE:FF" ∧ name d = "AP1" ∧ uptime d = 3600%N.
Proof.
  destruct v2; eexists; (split; [vm_compute; reflexivity|]); repeat split.
Qed.
Lemma byte_to_N_inj (a b : byte) : Byte.to_N a = Byte.to_N b -> a = b.
Proof.
  intros E. pose proof (Byte.of_to_N a) as Ha. rewrite E, Byte.of_to_N in Ha.
  congruence.
Qed.

Lemma ubnt_absorb_firmware (r : Ubnt.TlvData) (v : bytes) :
  Ubnt.r_firmware (UbntStream.absorb r (x03, v)) = Some (decode_text v).
Proof. reflexivity. Qed.

Lemma ubnt_absorb_firmware_other (r : Ubnt.TlvData) (t : UbntStream.tlv) :
  t.1 ≠ x03 -> Ubnt.r_firmware (UbntStream.absorb r t) = Ubnt.r_firmware r.
Proof.
  intros Hne. unfold UbntStream.absorb, Ubnt.dispatch.
  destruct (N.eqb_spec (Byte.to_N t.1) Ubnt.TLV_FIRMWARE) as [E|_].
  { exfalso. apply Hne. by apply byte_to_N_inj. }
  repeat (case_match; try reflexivity).
  destruct (Struct.unpack_BE_I _); reflexivity.
Qed.

Lemma ubnt_fold_firmware_other (ts : list UbntStream.tlv) (r : Ubnt.TlvData) :
  Forall (fun t : UbntStream.tlv => t.1 ≠ x03) ts ->
  Ubnt.r_firmware (fold_left UbntStream.absorb ts r) = Ubnt.r_firmware r.
Proof.
  intros Hts. revert r. induction Hts as [|t ts Ht _ IH]; intros r; [done|].
  cbn [fold_left]. rewrite IH. by apply ubnt_absorb_firmware_other.
Qed.

Lemma ubnt_frame_device (now : N) (source : string) (v2 : bool) (b2 b3 : byte)
    (stream : bytes) (d : Device) :
  2 <= length stream ->
  Ubnt.parse_packet now (UbntStream.frame source (UbntStream.header v2 b2 b3 ++ stream)) = Some d ->
  firmware d = default "" (Ubnt.r_firmware (Ubnt._parse_tlv stream)).
Proof.
  intros Hlen. rewrite ubnt_parse_frame by done. cbv zeta.
  destruct (PyStr.truthy _); [|discriminate].
  intros [= <-]. reflexivity.
Qed.

(** C9.  In the Ubiquiti decoder, when the last firmware TLV (type 0x03) of
    a well-formed stream has the value [v], the decoded [firmware] is the
    UTF-8 decoding of [v] without its undecodable bytes, stripped of the NULs
    at both of its ends. *)
Theorem ubnt_firmware_stripped (now : N) (source : string) (v2 : bool) (b2 b3 : byte)
    (pre post : list UbntStream.tlv) (v tail : bytes) (d : Device) :
  Forall UbntStream.fits (pre ++ (x03, v) :: post) ->
  Forall (fun t : UbntStream.tlv => t.1 ≠ x03) post ->
  length tail < 3 ∨ UbntStream.overruns tail = true ->
  Ubnt.parse_packet now
    (UbntStream.frame source
       (UbntStream.header v2 b2 b3 ++ UbntStream.encode (pre ++ (x03, v) :: post) ++ tail))
  = Some d ->
  firmware d = PyStr.strip PyStr.NUL (Utf8.decode_ignore v).
Proof.
  intros Hfit Hpost Hstop Hd.
  apply ubnt_frame_device in Hd.
  2:{ rewrite ubnt_encode_app, ubnt_encode_cons, !length_app, ubnt_encode_tlv_length.
      lia. }
  rewrite Hd, ubnt_parse_stream by done.
  unfold UbntStream.accumulate. rewrite fold_left_app. cbn [fold_left].
  rewrite ubnt_fold_firmware_other by done.
  rewrite ubnt_absorb_firmware. reflexivity.
Qed.

Lemma ubnt_firmware_stripped_witness :
  exists d,
    Ubnt.parse_packet 7%N
      (UbntStream.frame "10.0.0.9"
         (UbntStream.header false x00 x00
          ++ UbntStream.encode ([(x01, ex_mac)] ++ (x03, [x00; x76; x31; x00]) :: []) ++ []))
    = Some d
    ∧ firmware d = "v1".
Proof.
  eexists. split; [vm_compute; reflexivity|].
  apply (ubnt_firmware_stripped 7%N "10.0.0.9" false x00 x00
           [(x01, ex_mac)] [] [x00; x76; x31; x00] []).
  - repeat constructor; reflexivity.
  - constructor.
  - left. cbn [length]. lia.
  - vm_compute; reflexivity.
Defined.

Lemma format_mac_truthy (value : bytes) :
  6 <= length value -> PyStr.truthy (format_mac (take 6 value)) = true.
Proof.
  intros Hl. destruct value as [|b [|b' value]]; [cbn [length] in Hl; lia..|].
  reflexivity.
Qed.

Lemma ubnt_absorb_short_mac (r : Ubnt.TlvData) (v : bytes) :
  length v < 6 -> UbntStream.absorb r (x01, v) = r.
Proof.
  intros Hl. unfold UbntStream.absorb, Ubnt.dispatch. cbn [fst snd].
  change (Byte.to_N x01 =? Ubnt.TLV_MAC_ADDRESS)%N with true. cbv iota.
  rewrite (proj2 (Nat.leb_gt _ _)) by lia. reflexivity.
Qed.

Lemma ubnt_absorb_good_mac (r : Ubnt.TlvData) (v : bytes) :
  6 <= length v -> has_mac (Ubnt.r_mac (UbntStream.absorb r (x01, v))).
Proof.
  intros Hl. unfold UbntStream.absorb, Ubnt.dispatch. cbn [fst snd].
  change (Byte.to_N x01 =? Ubnt.TLV_MAC_ADDRESS)%N with true. cbv iota.
  rewrite (proj2 (Nat.leb_le _ _)) by lia.
  eexists. split; [reflexivity|]. by apply format_mac_truthy.
Qed.

Lemma ubnt_absorb_keeps_mac (r : Ubnt.TlvData) (t : UbntStream.tlv) :
  has_mac (Ubnt.r_mac r) -> has_mac (Ubnt.r_mac (UbntStream.absorb r t)).
Proof.
  intros Hm. unfold UbntStream.absorb, Ubnt.dispatch.
  repeat (case_match; try exact Hm);
    try (eexists; split; [reflexivity|]; apply format_mac_truthy;
         match goal with Hle : (_ <=? _) = true |- _ => apply Nat.leb_le in Hle; lia end).
  destruct (Struct.unpack_BE_I _); exact Hm.
Qed.

Lemma ubnt_fold_keeps_mac (ts : list UbntStream.tlv) (r : Ubnt.TlvData) :
  has_mac (Ubnt.r_mac r) -> has_mac (Ubnt.r_mac (fold_left UbntStream.absorb ts r)).
Proof.
  revert r. induction ts as [|t ts IH]; intros r Hm; [done|].
  cbn [fold_left]. by apply IH, ubnt_absorb_keeps_mac.
Qed.

Lemma ubnt_fold_good_mac (ts : list UbntStream.tlv) (good : bytes) (r : Ubnt.TlvData) :
  In (x01, good) ts -> 6 <= length good ->
  has_mac (Ubnt.r_mac (fold_left UbntStream.absorb ts r)).
Proof.
  intros Hin Hl. apply in_split in Hin as (l1 & l2 & ->).
  rewrite fold_left_app. cbn [fold_left].
  by apply ubnt_fold_keeps_mac, ubnt_absorb_good_mac.
Qed.

Lemma mndp_absorb_short_mac (r : Mndp.TlvData) (v : bytes) :
  length v < 6 -> MndpStream.absorb r (1%N, v) = r.
Proof.
  intros Hl. unfold MndpStream.absorb, Mndp.dispatch. cbn [fst snd].
  change (1 =? Mndp.TLV_MAC_ADDRESS)%N with true. cbv iota.
  rewrite (proj2 (Nat.leb_gt _ _)) by lia. reflexivity.
Qed.

Lemma mndp_absorb_good_mac (r : Mndp.TlvData) (v : bytes) :
  6 <= length v -> has_mac (Mndp.r_mac (MndpStream.absorb r (1%N, v))).
Proof.
  intros Hl. unfold MndpStream.absorb, Mndp.dispatch. cbn [fst snd].
  change (1 =? Mndp.TLV_MAC_ADDRESS)%N with true. cbv iota.
  rewrite (proj2 (Nat.leb_le _ _)) by lia.
  eexists. split; [reflexivity|]. by apply format_mac_truthy.
Qed.

Lemma mndp_absorb_keeps_mac (r : Mndp.TlvData) (t : MndpStream.tlv) :
  has_mac (Mndp.r_mac r) -> has_mac (Mndp.r_mac (MndpStream.absorb r t)).
Proof.
  intros Hm. unfold MndpStream.absorb, Mndp.dispatch.
  repeat (case_match; try exact Hm);
    try (eexists; split; [reflexivity|]; apply format_mac_truthy;
         match goal with Hle : (_ <=? _) = true |- _ => apply Nat.leb_le in Hle; lia end).
  destruct (Struct.unpack_LE_I _); exact Hm.
Qed.

Lemma mndp_fold_keeps_mac (ts : list MndpStream.tlv) (r : Mndp.TlvData) :
  has_mac (Mndp.r_mac r) -> has_mac (Mndp.r_mac (fold_left MndpStream.absorb ts r)).
Proof.
  revert r. induction ts as [|t ts IH]; intros r Hm; [done|].
  cbn [fold_left]. by apply IH, mndp_absorb_keeps_mac.
Qed.

Lemma mndp_fold_good_mac (ts : list MndpStream.tlv) (good : bytes) (r : Mndp.TlvData) :
  In (1%N, good) ts -> 6 <= length good ->
  has_mac (Mndp.r_mac (fold_left MndpStream.absorb ts r)).
Proof.
  intros Hin Hl. apply in_split in Hin as (l1 & l2 & ->).
  rewrite fold_left_app. cbn [fold_left].
  by apply mndp_fold_keeps_mac, mndp_absorb_good_mac.
Qed.

Lemma ubnt_parse_encode (ts : list UbntStream.tlv) :
  Forall UbntStream.fits ts -> Ubnt._parse_tlv (UbntStream.encode ts) = UbntStream.accumulate ts.
Proof.
  intros Hfit. rewrite <- (app_nil_r (UbntStream.encode ts)).
  apply ubnt_parse_stream; [done|]. left. cbn [length]. lia.
Qed.

Lemma mndp_parse_encode (ts : list MndpStream.tlv) :
  Forall MndpStream.fits ts -> Mndp._parse_tlv (MndpStream.encode ts) = MndpStream.accumulate ts.
Proof.
  intros Hfit. rewrite <- (app_nil_r (MndpStream.encode ts)).
  apply mndp_parse_stream; [done|]. left. cbn [length]. lia.
Qed.

Section FrameFacts.
Context `{PyCase}.

Lemma mndp_parse_frame (now : N) (source : string) (payload : bytes) :
  4 <= length payload ->
  Mndp.parse_packet now (MndpStream.frame source payload)
  = let tlv_data := Mndp._parse_tlv payload in
    let mac := default "" (Mndp.r_mac tlv_data) in
    let platform := default "" (Mndp.r_platform tlv_data) in
    let board := default "" (Mndp.r_board tlv_data) in
    if PyStr.truthy mac
    then Some (new_Device now (Mndp._detect_brand platform board)
                 (default source (Mndp.r_ip tlv_data)) mac
                 (default "Unknown" (Mndp.r_identity tlv_data))
                 (if PyStr.truthy board then board else platform)
                 (default "" (Mndp.r_version tlv_data))
                 (default 0%N (Mndp.r_uptime tlv_data)))
    else None.
Proof.
  intros Hlen. unfold Mndp.parse_packet, MndpStream.frame.
  cbn [ip_layer udp_layer sport dport load src].
  change (negb (Mndp.port =? Mndp.port)%Z && negb (Mndp.port =? Mndp.port)%Z) with false.
  cbv iota.
  rewrite (proj2 (Nat.ltb_ge _ _)) by done.
  cbv zeta. destruct (PyStr.truthy _); reflexivity.
Qed.

End FrameFacts.

(** ** Brand detection *)

Lemma append_cons (a : ascii) (s t : string) : String a s ++ t = String a (s ++ t).
Proof. reflexivity. Qed.

Lemma append_nil_l (t : string) : "" ++ t = t.
Proof. reflexivity. Qed.

Lemma startswith_spec (p s : string) :
  PyStr.startswith p s = true <-> exists post : string, s = p ++ post.
Proof.
  revert s. induction p as [|a p IH]; intros s.
  - cbn [PyStr.startswith]. split; [intros _; by exists s|done].
  - destruct s as [|b s]; cbn [PyStr.startswith].
    + split; [done|]. intros [post Hp]. rewrite append_cons in Hp. discriminate.
    + destruct (Ascii.eqb_spec a b) as [->|Hne].
      * rewrite IH. split; intros [post Hp]; exists post.
        -- rewrite append_cons. by rewrite Hp.
        -- rewrite append_cons in Hp. congruence.
      * split; [done|]. intros [post Hp]. rewrite append_cons in Hp. congruence.
Qed.

Lemma contains_here (needle s : string) :
  PyStr.startswith needle s = true -> substring needle s.
Proof.
  intros E. apply startswith_spec in E as [post Hp]. by exists "", post.
Qed.

Lemma contains_spec (needle s : string) :
  PyStr.contains needle s = true <-> substring needle s.
Proof.
  induction s as [|b s IH].
  - cbn [PyStr.contains]. destruct (PyStr.startswith needle "") eqn:E.
    + split; [intros _|done]. by apply contains_here.
    + split; [done|]. intros (pre & post & Hp).
      destruct pre as [|c pre]; [|rewrite append_cons in Hp; discriminate].
      rewrite append_nil_l in Hp.
      assert (PyStr.startswith needle "" = true) by (apply startswith_spec; by exists post).
      congruence.
  - cbn [PyStr.contains]. destruct (PyStr.startswith needle (String b s)) eqn:E.
    + split; [intros _|done]. by apply contains_here.
    + rewrite IH. split.
      * intros (pre & post & Hp). exists (String b pre), post.
        rewrite append_cons. by rewrite Hp.
      * intros (pre & post & Hp). destruct pre as [|c pre].
        -- rewrite append_nil_l in Hp.
           assert (PyStr.startswith needle (String b s) = true)
             by (apply startswith_spec; by exists post).
           congruence.
        -- rewrite append_cons in Hp. injection Hp as _ Hp. by exists pre, post.
Qed.

Section BrandFacts.
Context `{PyCase}.

Lemma detect_brand_spec (platform board : string) :
  let combined := str_lower (platform ++ " " ++ board) in
  (substring "mimosa" combined -> Mndp._detect_brand platform board = "Mimosa")
  ∧ (¬ substring "mimosa" combined ->
     (exists indicator, In indicator Mndp.mikrotik_indicators ∧ substring indicator combined) ->
     Mndp._detect_brand platform board = "Mikrotik")
  ∧ (¬ substring "mimosa" combined ->
     (forall indicator, In indicator Mndp.mikrotik_indicators -> ¬ substring indicator combined) ->
     Mndp._detect_brand platform board = "Mikrotik/MNDP").
Proof.
  cbv zeta. unfold Mndp._detect_brand.
  set (combined := str_lower (platform ++ " " ++ board)).
  destruct (PyStr.contains "mimosa" combined) eqn:Em.
  { apply contains_spec in Em. split; [done|]. split; intros Hn; by destruct Hn. }
  assert (Hm : ¬ substring "mimosa" combined).
  { intros Hs. apply contains_spec in Hs. congruence. }
  destruct (existsb _ Mndp.mikrotik_indicators) eqn:Ei.
  - apply existsb_exists in Ei as (i & Hi & Hc). apply contains_spec in Hc.
    split; [intros Hs; by destruct Hm|]. split; [done|].
    intros _ Hall. by destruct (Hall i Hi).
  - split; [intros Hs; by destruct Hm|]. split; [|done].
    intros _ (i & Hi & Hc). apply contains_spec in Hc.
    assert (existsb (fun indicator => PyStr.contains indicator combined)
              Mndp.mikrotik_indicators = true)
      by (apply existsb_exists; eauto).
    congruence.
Qed.


Lemma mndp_parse_packet_Some (now : N) (packet : Packet) (d : Device) :
  Mndp.parse_packet now packet = Some d ->
  exists ip_l udp_l payload,
    ip_layer packet = Some ip_l ∧ udp_layer packet = Some udp_l
    ∧ load udp_l = Some payload
    ∧ brand d = Mndp._detect_brand (default "" (Mndp.r_platform (Mndp._parse_tlv payload)))
                  (default "" (Mndp.r_board (Mndp._parse_tlv payload)))
    ∧ model d = (if PyStr.truthy (default "" (Mndp.r_board (Mndp._parse_tlv payload)))
                 then default "" (Mndp.r_board (Mndp._parse_tlv payload))
                 else default "" (Mndp.r_platform (Mndp._parse_tlv payload))).
Proof.
  unfold Mndp.parse_packet. intros Hd.
  destruct (ip_layer packet) as [ip_l|] eqn:Hip; [|discriminate].
  destruct (udp_layer packet) as [udp_l|] eqn:Hudp; [|discriminate].
  destruct (negb _ && negb _); [discriminate|].
  destruct (load udp_l) as [payload|] eqn:Hload; [|discriminate].
  destruct (length payload <? 4); [discriminate|].
  cbv zeta in Hd. destruct (negb (PyStr.truthy _)); [discriminate|].
  injection Hd as <-. exists ip_l, udp_l, payload. by repeat split.
Qed.

(** C7.  For every MNDP payload that decodes to a [Device], the brand
    follows from the lower-cased text "platform, one space, board": "Mimosa"
    when it contains "mimosa"; otherwise "Mikrotik" when it contains one of
    the indicator substrings; otherwise "Mikrotik/MNDP".  The model is the
    board name when that is not empty, the platform otherwise. *)
Theorem mndp_brand_and_model (now : N) (packet : Packet) (udp_l : UDPLayer)
    (payload : bytes) (d : Device) :
  udp_layer packet = Some udp_l -> load udp_l = Some payload ->
  Mndp.parse_packet now packet = Some d ->
  let tlv_data := Mndp._parse_tlv payload in
  let platform := default "" (Mndp.r_platform tlv_data) in
  let board := default "" (Mndp.r_board tlv_data) in
  let combined := str_lower (platform ++ " " ++ board) in
  (substring "mimosa" combined -> brand d = "Mimosa")
  ∧ (¬ substring "mimosa" combined ->
     (exists indicator, In indicator Mndp.mikrotik_indicators ∧ substring indicator combined) ->
     brand d = "Mikrotik")
  ∧ (¬ substring "mimosa" combined ->
     (forall indicator, In indicator Mndp.mikrotik_indicators -> ¬ substring indicator combined) ->
     brand d = "Mikrotik/MNDP")
  ∧ (board ≠ "" -> model d = board)
  ∧ (board = "" -> model d = platform).
Proof.
  intros Hu Hl Hd. cbv zeta.
  apply mndp_parse_packet_Some in Hd as (ip_l & udp_l' & payload' & _ & Hu' & Hl' & Hb & Hmod).
  rewrite Hu in Hu'. injection Hu' as <-. rewrite Hl in Hl'. injection Hl' as <-.
  rewrite Hb.
  destruct (detect_brand_spec (default "" (Mndp.r_platform (Mndp._parse_tlv payload)))
              (default "" (Mndp.r_board (Mndp._parse_tlv payload)))) as (H1 & H2 & H3).
  split; [exact H1|]. split; [exact H2|]. split; [exact H3|].
  rewrite Hmod. destruct (default "" (Mndp.r_board (Mndp._parse_tlv payload))) as [|c board'].
  - split; [done|reflexivity].
  - split; [reflexivity|done].
Qed.

End BrandFacts.

Lemma mndp_brand_and_model_witness :
  exists d,
    Mndp.parse_packet 7%N (MndpStream.frame "10.0.0.9" mimosa_split) = Some d
    ∧ brand d = "Mikrotik/MNDP" ∧ model d = "SA".
Proof.
  eexists. split; [vm_compute; reflexivity|].
  pose proof (mndp_brand_and_model 7%N (MndpStream.frame "10.0.0.9" mimosa_split)
                _ mimosa_split _ eq_refl eq_refl eq_refl) as (_ & _ & _ & Hm & _).
  split; [vm_compute; reflexivity|]. apply Hm. vm_compute. discriminate.
Defined.

(** Platform "Mimo" and board "SA": the code looks at "mimo sa". *)
Lemma mndp_brand_concatenation_counterexample :
  exists d,
    Mndp.parse_packet 7%N (MndpStream.frame "10.0.0.9" mimosa_split) = Some d
    ∧ Mndp.r_platform (Mndp._parse_tlv mimosa_split) = Some "Mimo"
    ∧ Mndp.r_board (Mndp._parse_tlv mimosa_split) = Some "SA"
    ∧ brand_as_specified "Mimo" "SA" = "Mimosa"
    ∧ brand d ≠ brand_as_specified "Mimo" "SA".
Proof.
  eexists. split; [vm_compute; reflexivity|].
  repeat split; try (vm_compute; reflexivity). vm_compute. discriminate.
Qed.

(** A firmware value that starts with a NUL loses it. *)
Lemma ubnt_firmware_leading_nul_counterexample :
  exists d,
    Ubnt.parse_packet 7%N
      (UbntStream.frame "10.0.0.9"
         (UbntStream.header false x00 x00
          ++ UbntStream.encode [(x01, ex_mac); (x03, padded_firmware)]))
    = Some d
    ∧ firmware d = "v1"
    ∧ firmware d ≠ firmware_as_specified padded_firmware.
Proof.
  eexists. split; [vm_compute; reflexivity|].
  split; [vm_compute; reflexivity|]. vm_compute. discriminate.
Qed.

(** ** The manager *)

Lemma run_bind {A B : Type} (m : M A) (k : A -> M B) (w w' : World) (a : A) :
  m w = Done a w' -> (m ≫= k) w = k a w'.
Proof. intros Hm. unfold mbind, M_bind. by rewrite Hm. Qed.

Lemma deref_ok (l : nat) (w : World) (d : Device) :
  heap w !! l = Some d -> deref l w = Done d w.
Proof. intros Hl. unfold deref. by rewrite Hl. Qed.

Lemma update_ok (l : nat) (f : Device -> Device) (w : World) (d : Device) :
  heap w !! l = Some d ->
  update l f w = Done tt (with_heap (<[l := f d]> (heap w)) w).
Proof. intros Hl. unfold update. by rewrite (run_bind _ _ _ _ _ (deref_ok l w d Hl)). Qed.

Lemma with_lock_unlocked {A : Type} (t : nat) (m : M A) (w : World) :
  lock w = unlocked ->
  with_lock t m w = try_finally m (release t) (with_lock_state (held t 1) w).
Proof.
  intros Hl. unfold with_lock, acquire, mbind, M_bind. by rewrite Hl.
Qed.

Lemma with_lock_held {A : Type} (t : nat) (n : nat) (m : M A) (w : World) :
  lock w = held t n ->
  with_lock t m w = try_finally m (release t) (with_lock_state (held t (S n)) w).
Proof.
  intros Hl. unfold with_lock, acquire, mbind, M_bind. rewrite Hl. cbn [owner held level].
  by rewrite decide_True.
Qed.

Lemma try_finally_bind {A B : Type} (m : M A) (k : A -> M B) (fin : M unit)
    (w w' : World) (a : A) :
  m w = Done a w' ->
  try_finally (m ≫= k) fin w = try_finally (k a) fin w'.
Proof. intros Hm. unfold try_finally. by rewrite (run_bind m k w w' a Hm). Qed.

Lemma world_eta (w : World) : with_lock_state (lock w) w = w.
Proof. by destruct w. Qed.

Lemma release_level_1 (t : nat) (w : World) :
  lock w = held t 1 -> release t w = Done tt (with_lock_state unlocked w).
Proof.
  intros Hl. unfold release. rewrite Hl. cbn [owner held level].
  by rewrite decide_True.
Qed.

Lemma release_level_SS (t : nat) (n : nat) (w : World) :
  lock w = held t (S (S n)) -> release t w = Done tt (with_lock_state (held t (S n)) w).
Proof.
  intros Hl. unfold release. rewrite Hl. cbn [owner held level].
  by rewrite decide_True.
Qed.

Section ManagerFacts.
Context `{PyCase}.

Lemma discovered_new (t : nat) (cbs : Callbacks) (l : nat) (d : Device) (w : World) :
  lock w = unlocked -> heap w !! l = Some d ->
  devices w !! unique_id d = None ->
  _on_device_discovered t cbs l w
  = try_finally (notify (on_device cbs) l) (release t) (world_at_new t l d w).
Proof.
  intros Hlock Hl Hnone. unfold _on_device_discovered.
  rewrite with_lock_unlocked by done.
  set (w1 := with_lock_state (held t 1) w).
  assert (Hl1 : heap w1 !! l = Some d) by exact Hl.
  rewrite (try_finally_bind _ _ _ w1 w1 d (deref_ok l w1 d Hl1)).
  rewrite (try_finally_bind (gets devices) _ _ w1 w1 (devices w) eq_refl).
  rewrite Hnone.
  erewrite try_finally_bind by reflexivity.
  erewrite try_finally_bind by reflexivity.
  reflexivity.
Qed.

Lemma discovered_again (t : nat) (cbs : Callbacks) (l existing : nat) (d e : Device)
    (w : World) :
  lock w = unlocked -> heap w !! l = Some d ->
  devices w !! unique_id d = Some existing -> heap w !! existing = Some e ->
  _on_device_discovered t cbs l w
  = try_finally (notify (on_device_update cbs) existing) (release t)
      (world_at_update t existing d e w).
Proof.
  intros Hlock Hl Hsome He. unfold _on_device_discovered.
  rewrite with_lock_unlocked by done.
  set (w1 := with_lock_state (held t 1) w).
  assert (Hl1 : heap w1 !! l = Some d) by exact Hl.
  rewrite (try_finally_bind _ _ _ w1 w1 d (deref_ok l w1 d Hl1)).
  rewrite (try_finally_bind (gets devices) _ _ w1 w1 (devices w) eq_refl).
  rewrite Hsome.
  rewrite (try_finally_bind datetime_now _ _ w1 w1 (clock w) eq_refl).
  assert (He1 : heap w1 !! existing = Some e) by exact He.
  rewrite (try_finally_bind _ _ _ w1 _ tt (update_ok existing _ w1 e He1)).
  set (e' := update_last_seen (clock w) e).
  set (w2 := with_heap (<[existing := e']> (heap w1)) w1).
  assert (Hlt : existing < length (heap w)) by (by eapply lookup_lt_Some).
  assert (He2 : heap w2 !! existing = Some e')
    by (by apply list_lookup_insert_eq).
  rewrite (try_finally_bind _ _ _ w2 w2 e' (deref_ok existing w2 e' He2)).
  assert (Hd2 : exists d', heap w2 !! l = Some d' ∧ ip d' = ip d).
  { destruct (decide (existing = l)) as [->|Hne].
    - exists e'. split; [done|]. rewrite Hl in He. by injection He as ->.
    - exists d. split; [|done]. subst w2. cbn [heap with_heap].
      by rewrite list_lookup_insert_ne. }
  destruct Hd2 as (d' & Hd2 & Hip).
  rewrite (try_finally_bind _ _ _ w2 w2 d' (deref_ok l w2 d' Hd2)).
  unfold world_at_update, refreshed. fold e'. rewrite Hip.
  change (ip e') with (ip e).
  destruct (bool_decide (ip e ≠ ip d)).
  - rewrite (try_finally_bind _ _ _ w2 _ tt (update_ok existing _ w2 e' He2)).
    subst w2. cbn [heap with_heap]. rewrite list_insert_insert_eq. reflexivity.
  - erewrite try_finally_bind by reflexivity. reflexivity.
Qed.

Lemma notify_passive (cb : option (nat -> M unit)) (l : nat) (w : World) :
  (forall f, cb = Some f -> passive f) ->
  exists lines, notify cb l w = Done tt (with_stdout lines w).
Proof.
  intros Hp. destruct cb as [f|]; cbn [notify].
  - by apply (Hp f).
  - exists (stdout w). by destruct w.
Qed.

Lemma finish_passive (t : nat) (cb : option (nat -> M unit)) (l : nat) (w : World) :
  (forall f, cb = Some f -> passive f) -> lock w = held t 1 ->
  exists lines,
    try_finally (notify cb l) (release t) w
    = Done tt (with_stdout lines (with_lock_state unlocked w)).
Proof.
  intros Hp Hl. destruct (notify_passive cb l w Hp) as [lines Hn].
  exists lines. unfold try_finally. rewrite Hn.
  erewrite run_bind by (by apply release_level_1). reflexivity.
Qed.

Lemma with_lock_reader {A : Type} (t : nat) (m : M A) (a : World -> A) (w : World) :
  (forall w0, m w0 = Done (a w0) w0) ->
  (forall v w0, a (with_lock_state v w0) = a w0) ->
  lockable t w ->
  with_lock t m w = Done (a w) w.
Proof.
  intros Hm Ha [Hl|[n Hl]].
  - rewrite with_lock_unlocked by done. unfold try_finally. rewrite Hm, Ha.
    erewrite run_bind by (by apply release_level_1).
    cbn. rewrite <- Hl. f_equal. by destruct w.
  - rewrite (with_lock_held t (S n)) by done. unfold try_finally. rewrite Hm, Ha.
    erewrite run_bind by (by apply release_level_SS).
    cbn. rewrite <- Hl. f_equal. by destruct w.
Qed.

Lemma get_devices_ok (t : nat) (w : World) :
  lockable t w -> get_devices t w = Done ((map_to_list (devices w)).*2) w.
Proof.
  intros Hl. unfold get_devices.
  by apply (with_lock_reader t _ (fun w0 => (map_to_list (devices w0)).*2)).
Qed.

Lemma get_device_count_ok (t : nat) (w : World) :
  lockable t w -> get_device_count t w = Done (size (devices w)) w.
Proof.
  intros Hl. unfold get_device_count.
  by apply (with_lock_reader t _ (fun w0 => size (devices w0))).
Qed.

Lemma reenter_ok (t : nat) (l : nat) (w : World) :
  lockable t w -> reenter t l w = Done tt w.
Proof.
  intros Hl. unfold reenter.
  erewrite run_bind by (by apply get_devices_ok).
  erewrite run_bind by (by apply get_device_count_ok).
  reflexivity.
Qed.

Lemma finish_reenter (t : nat) (cb : option (nat -> M unit)) (l : nat) (w : World) :
  cb = Some (reenter t) -> lock w = held t 1 ->
  try_finally (notify cb l) (release t) w = Done tt (with_lock_state unlocked w).
Proof.
  intros -> Hl. unfold try_finally. cbn [notify].
  rewrite reenter_ok by (right; by exists 0).
  erewrite run_bind by (by apply release_level_1). reflexivity.
Qed.

(** C3.  The discovery handler calls the new-device callback (for a new
    key) or the device-updated callback (for a known key) while its thread
    holds the manager's re-entrant lock at level 1, and releases the lock
    after the callback; a callback that re-enters the manager on that thread
    through [get_devices()] and [get_device_count()] does not wait for the
    lock, and the handler returns with the lock released. *)
Theorem callbacks_run_under_reentrant_lock (t : nat) (cbs : Callbacks) (w : World)
    (l : nat) (d : Device) :
  lock w = unlocked -> heap w !! l = Some d -> registry_wf w ->
  (exists (target : nat) (w_cb : World),
      lock w_cb = held t 1
      ∧ ((devices w !! unique_id d = None ∧ target = l
          ∧ _on_device_discovered t cbs l w
            = try_finally (notify (on_device cbs) target) (release t) w_cb)
         ∨ (devices w !! unique_id d = Some target
            ∧ _on_device_discovered t cbs l w
              = try_finally (notify (on_device_update cbs) target) (release t) w_cb)))
  ∧ (exists w', _on_device_discovered t (reentrant t) l w = Done tt w'
                ∧ lock w' = unlocked).
Proof.
  intros Hlock Hl Hwf.
  destruct (devices w !! unique_id d) as [existing|] eqn:Hk.
  - destruct (Hwf _ _ Hk) as [e He]. split.
    + exists existing, (world_at_update t existing d e w). split; [reflexivity|].
      right. split; [reflexivity|]. by apply discovered_again.
    + rewrite (discovered_again t (reentrant t) l existing d e w) by done.
      rewrite finish_reenter by reflexivity. by eexists.
  - split.
    + exists l, (world_at_new t l d w). split; [reflexivity|].
      left. split; [reflexivity|]. split; [reflexivity|]. by apply discovered_new.
    + rewrite (discovered_new t (reentrant t) l d w) by done.
      rewrite finish_reenter by reflexivity. by eexists.
Qed.

(** C4.  [get_devices()] returns a new list of the references the registry
    holds and leaves the manager unchanged; [get_device_count()] returns
    their number.  A write through a returned reference cannot change which
    keys the registry has or which object each key refers to, and is seen in
    the record the registry holds for that key. *)
Theorem get_devices_shallow_copy (t : nat) (w : World) :
  lockable t w ->
  get_devices t w = Done ((map_to_list (devices w)).*2) w
  ∧ get_device_count t w = Done (size (devices w)) w
  ∧ (forall l : nat, l ∈ (map_to_list (devices w)).*2 <-> exists k, devices w !! k = Some l)
  ∧ (forall (l : nat) (f : Device -> Device) (w' : World),
        update l f w = Done tt w' ->
        devices w' = devices w
        ∧ forall k d, devices w !! k = Some l -> heap w !! l = Some d ->
                      registry_view w' !! k = Some (f d)).
Proof.
  intros Hl. split; [by apply get_devices_ok|]. split; [by apply get_device_count_ok|].
  split.
  - intros l. rewrite list_elem_of_fmap. split.
    + intros ([k l'] & -> & Hin). exists k. by apply elem_of_map_to_list.
    + intros [k Hk]. exists (k, l). split; [done|]. by apply elem_of_map_to_list.
  - intros l f w' Hup. unfold update in Hup.
    destruct (heap w !! l) as [d0|] eqn:Hd0.
    + rewrite (run_bind _ _ _ _ _ (deref_ok l w d0 Hd0)) in Hup.
      injection Hup as <-. split; [reflexivity|].
      intros k d Hk Hd. injection Hd as <-.
      unfold registry_view. rewrite lookup_omap. cbn [devices heap with_heap].
      rewrite Hk. cbn. apply list_lookup_insert_eq. by eapply lookup_lt_Some.
    + unfold mbind, M_bind, deref in Hup. rewrite Hd0 in Hup. discriminate.
Qed.

(** C2.  The capture thread of a started manager whose capture source fails
    with [PermissionError] ends without raising and leaves the registry and
    the [Device] objects as they were; [is_running()] still answers [True]
    after it. *)
Theorem permission_error_leaves_running_set (t : nat) (cbs : Callbacks) (w : World)
    (msg : string) :
  running w = false ->
  exists w1 w2,
    start w = Done tt w1
    ∧ run_sniff_thread t cbs {| frames := []; ending := Raises (PermissionError msg) |} w1
      = Done tt w2
    ∧ sniff_thread w2 = Finished
    ∧ is_running w2 = Done true w2
    ∧ devices w2 = devices w
    ∧ heap w2 = heap w.
Proof.
  intros Hr. unfold start.
  rewrite (run_bind (gets running) _ w w false) by (unfold gets; by rewrite Hr).
  rewrite (run_bind (gets scanners) _ w w (scanners w)) by reflexivity.
  destruct (scanners w) as [|s scs] eqn:Hs.
  - eexists _, _. split; [reflexivity|]. split; [reflexivity|]. by repeat split.
  - eexists _, _. split; [reflexivity|]. split; [reflexivity|]. by repeat split.
Qed.

(** C1.  Registry dedup: when the discovery handler receives two [Device]
    objects whose MAC addresses are equal up to letter case and whose [ip]
    fields differ, the first of them new to the registry, the registry
    afterwards holds one more record, keyed by the upper-cased MAC; it is the
    first object, its [ip] is the value observed last, its [discovered_at] is
    that of the first sighting and its [last_seen] is the time of the second.
    The callbacks are any that only report. *)
Theorem registry_dedup (t : nat) (cbs : Callbacks) (w : World) (l1 l2 : nat)
    (d1 d2 : Device) (later : N) :
  lock w = unlocked -> passive_callbacks cbs ->
  heap w !! l1 = Some d1 -> heap w !! l2 = Some d2 ->
  unique_id d1 = unique_id d2 -> ip d1 ≠ ip d2 ->
  devices w !! unique_id d1 = None ->
  exists w1 w2 r,
    _on_device_discovered t cbs l1 w = Done tt w1
    ∧ _on_device_discovered t cbs l2 (with_clock later w1) = Done tt w2
    ∧ devices w2 = <[str_upper (mac d1) := l1]> (devices w)
    ∧ size (devices w2) = S (size (devices w))
    ∧ heap w2 !! l1 = Some r
    ∧ ip r = ip d2
    ∧ discovered_at r = discovered_at d1
    ∧ last_seen r = later.
Proof.
  intros Hlock [Hpn Hpu] Hl1 Hl2 Hid Hip Hnone.
  pose proof (discovered_new t cbs l1 d1 w Hlock Hl1 Hnone) as Step1.
  destruct (finish_passive t (on_device cbs) l1 (world_at_new t l1 d1 w) Hpn eq_refl)
    as [lines1 Fin1].
  rewrite Fin1 in Step1.
  set (w1 := with_stdout lines1 (with_lock_state unlocked (world_at_new t l1 d1 w))) in *.
  assert (Hsome : devices (with_clock later w1) !! unique_id d2 = Some l1).
  { rewrite <- Hid. cbn. by rewrite lookup_insert_eq. }
  pose proof (discovered_again t cbs l2 l1 d2 d1 (with_clock later w1)
                eq_refl Hl2 Hsome Hl1) as Step2.
  destruct (finish_passive t (on_device_update cbs) l1
              (world_at_update t l1 d2 d1 (with_clock later w1)) Hpu eq_refl)
    as [lines2 Fin2].
  rewrite Fin2 in Step2.
  eexists w1, _, (set_ip (ip d2) (update_last_seen later d1)).
  split; [exact Step1|]. split; [exact Step2|].
  split; [reflexivity|].
  split; [cbn; by rewrite map_size_insert_None|].
  split; [|by repeat split].
  cbn. unfold refreshed. rewrite bool_decide_true by done.
  apply list_lookup_insert_eq. by eapply lookup_lt_Some.
Qed.

End ManagerFacts.

Lemma registry_dedup_witness :
  exists w1 w2 r,
    _on_device_discovered 1 no_callbacks 0 dedup_world = Done tt w1
    ∧ _on_device_discovered 1 no_callbacks 1 (with_clock 200%N w1) = Done tt w2
    ∧ devices w2 = <[str_upper (mac first_sighting) := 0]> (devices dedup_world)
    ∧ size (devices w2) = S (size (devices dedup_world))
    ∧ heap w2 !! 0 = Some r
    ∧ ip r = ip second_sighting
    ∧ discovered_at r = discovered_at first_sighting
    ∧ last_seen r = 200%N.
Proof.
  apply (registry_dedup 1 no_callbacks dedup_world 0 1
           first_sighting second_sighting 200%N).
  - reflexivity.
  - split; intros f Hf; discriminate.
  - reflexivity.
  - reflexivity.
  - reflexivity.
  - discriminate.
  - reflexivity.
Defined.

Lemma callbacks_run_under_reentrant_lock_witness :
  (exists (target : nat) (w_cb : World),
      lock w_cb = held 1 1
      ∧ ((devices dedup_world !! unique_id first_sighting = None ∧ target = 0
          ∧ _on_device_discovered 1 probing 0 dedup_world
            = try_finally (notify (on_device probing) target) (release 1) w_cb)
         ∨ (devices dedup_world !! unique_id first_sighting = Some target
            ∧ _on_device_discovered 1 probing 0 dedup_world
              = try_finally (notify (on_device_update probing) target) (release 1) w_cb)))
  ∧ (exists w', _on_device_discovered 1 (reentrant 1) 0 dedup_world = Done tt w'
                ∧ lock w' = unlocked).
Proof.
  apply (callbacks_run_under_reentrant_lock 1 probing dedup_world 0 first_sighting).
  - reflexivity.
  - reflexivity.
  - intros k l Hk. discriminate.
Defined.

(** On a fresh manager the probe reports that the lock is held. *)
Lemma callbacks_see_lock_released_fails : ¬ callbacks_see_lock_released.
Proof.
  intros Hall.
  assert (Hrun : exists w', _on_device_discovered 1 probing 0 dedup_world = Done tt w'
                            ∧ last (stdout w') = Some "lock held").
  { eexists. split; reflexivity. }
  destruct Hrun as (w' & Hrun & Hlast).
  pose proof (Hall 1 dedup_world w' 0 first_sighting eq_refl eq_refl Hrun) as Hbad.
  rewrite Hlast in Hbad. discriminate.
Qed.

Lemma get_devices_shallow_copy_witness :
  get_devices 1 one_device_world
  = Done ((map_to_list (devices one_device_world)).*2) one_device_world
  ∧ get_device_count 1 one_device_world
    = Done (size (devices one_device_world)) one_device_world
  ∧ (forall l : nat, l ∈ (map_to_list (devices one_device_world)).*2
                     <-> exists k, devices one_device_world !! k = Some l)
  ∧ (forall (l : nat) (f : Device -> Device) (w' : World),
        update l f one_device_world = Done tt w' ->
        devices w' = devices one_device_world
        ∧ forall k d, devices one_device_world !! k = Some l ->
                      heap one_device_world !! l = Some d ->
                      registry_view w' !! k = Some (f d)).
Proof.
  apply (get_devices_shallow_copy 1 one_device_world). left. reflexivity.
Defined.

(** Writing [ip] through the reference [get_devices()] returned changes the
    record the registry holds. *)
Lemma snapshot_is_deep_fails : ¬ snapshot_is_deep.
Proof.
  intros Hall.
  assert (Hget : get_devices 1 one_device_world = Done [0] one_device_world)
    by (vm_compute; reflexivity).
  assert (Hup : update 0 (set_ip "6.6.6.6") one_device_world
                = Done tt (with_heap [set_ip "6.6.6.6" second_sighting] one_device_world))
    by reflexivity.
  pose proof (Hall 1 one_device_world _ _ [0] 0 (set_ip "6.6.6.6")
                eq_refl Hget (list_elem_of_here 0 []) Hup) as Hbad.
  assert (Hv : registry_view (with_heap [set_ip "6.6.6.6" second_sighting] one_device_world)
               !! "AA:BB:CC:DD:EE:FF"
               = registry_view one_device_world !! "AA:BB:CC:DD:EE:FF")
    by (by rewrite Hbad).
  vm_compute in Hv. discriminate.
Qed.

Lemma permission_error_leaves_running_set_witness :
  exists w1 w2,
    start (init_world 170) = Done tt w1
    ∧ run_sniff_thread 1 no_callbacks
        {| frames := []; ending := Raises (PermissionError "Operation not permitted") |} w1
      = Done tt w2
    ∧ sniff_thread w2 = Finished
    ∧ is_running w2 = Done true w2
    ∧ devices w2 = devices (init_world 170)
    ∧ heap w2 = heap (init_world 170).
Proof.
  apply (permission_error_leaves_running_set 1 no_callbacks (init_world 170)
           "Operation not permitted").
  reflexivity.
Defined.

Lemma append_assoc (a b c : string) : (a ++ b) ++ c = a ++ b ++ c.
Proof.
  induction a as [|x a IH]; [reflexivity|].
  rewrite !append_cons. by rewrite IH.
Qed.

Lemma join_port_clauses (p : string) (ps : list string) :
  "port " ++ PyStr.join " or port " (p :: ps)
  = PyStr.join " or " (map (fun q => "port " ++ q) (p :: ps)).
Proof.
  revert p. induction ps as [|q ps IH]; intros p; [reflexivity|].
  change (PyStr.join " or port " (p :: q :: ps))
    with (p ++ " or port " ++ PyStr.join " or port " (q :: ps)).
  change (PyStr.join " or " (map (fun q0 => "port " ++ q0) (p :: q :: ps)))
    with (("port " ++ p) ++ " or " ++ PyStr.join " or " (map (fun q0 => "port " ++ q0) (q :: ps))).
  rewrite <- IH.
  change (" or port " ++ PyStr.join " or port " (q :: ps))
    with (" or " ++ "port " ++ PyStr.join " or port " (q :: ps)).
  by rewrite !append_assoc.
Qed.

(** C8.  [_build_filter()] is "udp" without scanners, and otherwise
    "udp and (port P1 or port P2 or ...)" over the ports of the registered
    scanners in their order; for the scanners on 10001 and 5678 it is
    "udp and (port 10001 or port 5678)". *)
Theorem build_filter_spec `{PyCase} :
  _build_filter [] = "udp"
  ∧ (forall (s : BaseScanner) (scs : list BaseScanner),
        _build_filter (s :: scs)
        = "udp and (" ++ PyStr.join " or "
                           (map (fun x => "port " ++ pretty (sc_port x)) (s :: scs))
          ++ ")")
  ∧ _build_filter [UbiquitiScanner; MNDPScanner] = "udp and (port 10001 or port 5678)"
  ∧ PyStr.contains "port 10001 or port 5678"
      (_build_filter [UbiquitiScanner; MNDPScanner]) = true.
Proof.
  split; [reflexivity|]. split; [|split; vm_compute; reflexivity].
  intros s scs.
  rewrite <- (map_map (fun x => pretty (sc_port x)) (fun q => "port " ++ q) (s :: scs)).
  change (map (fun x => pretty (sc_port x)) (s :: scs))
    with (pretty (sc_port s) :: map (fun x => pretty (sc_port x)) scs).
  rewrite <- join_port_clauses, append_assoc.
  reflexivity.
Qed.

(** * Further properties of the decoders and of the manager *)

Lemma ubnt_body_Next (data : bytes) (offset : nat) (r r' : Ubnt.TlvData) (n : nat) :
  Ubnt.body data offset r = Some (Ubnt.Next n r') ->
  exists ty v, Ubnt.dispatch ty v r = Some r'.
Proof.
  unfold Ubnt.body. intros Hb.
  destruct (byte_at data offset) as [ty|]; [|discriminate].
  cbn [mbind option_bind] in Hb.
  destruct (Struct.unpack_BE_H _) as [len|]; [|discriminate].
  cbn [mbind option_bind] in Hb.
  destruct (_ <? _); [discriminate|].
  destruct (Ubnt.dispatch _ _ r) as [r0|] eqn:Hd; [|discriminate].
  cbn [mbind option_bind] in Hb. injection Hb as _ <-. eauto.
Qed.

Lemma ubnt_loop_invariant (P : Ubnt.TlvData -> Prop) :
  (forall ty v r r', P r -> Ubnt.dispatch ty v r = Some r' -> P r') ->
  forall data offset r, P r -> P (Ubnt.loop data offset r).
Proof.
  intros Hstep data offset r Hr.
  induction (ubnt_run_loop data offset r) as [| |offset r n r' final _ Hb _ IH]; [done..|].
  apply IH. destruct (ubnt_body_Next _ _ _ _ _ Hb) as (ty & v & Hd). by eapply Hstep.
Qed.

Lemma mndp_body_Next (data : bytes) (offset : nat) (r r' : Mndp.TlvData) (n : nat) :
  Mndp.body data offset r = Some (Mndp.Next n r') ->
  exists ty v, Mndp.dispatch ty v r = Some r'.
Proof.
  unfold Mndp.body. intros Hb.
  destruct (Struct.unpack_LE_H (slice data offset _)) as [ty|]; [|discriminate].
  cbn [mbind option_bind] in Hb.
  destruct (Struct.unpack_LE_H _) as [len|]; [|discriminate].
  cbn [mbind option_bind] in Hb.
  destruct (_ <? _); [discriminate|].
  destruct (Mndp.dispatch _ _ r) as [r0|] eqn:Hd; [|discriminate].
  cbn [mbind option_bind] in Hb. injection Hb as _ <-. eauto.
Qed.

Lemma mndp_loop_invariant (P : Mndp.TlvData -> Prop) :
  (forall ty v r r', P r -> Mndp.dispatch ty v r = Some r' -> P r') ->
  forall data offset r, P r -> P (Mndp.loop data offset r).
Proof.
  intros Hstep data offset r Hr.
  induction (mndp_run_loop data offset r) as [| |offset r n r' final _ Hb _ IH]; [done..|].
  apply IH. destruct (mndp_body_Next _ _ _ _ _ Hb) as (ty & v & Hd). by eapply Hstep.
Qed.

Lemma take6_canonical (v : bytes) : 6 <= length v -> canonical_mac (format_mac (take 6 v)).
Proof.
  intros Hl.
  destruct v as [|b1 [|b2 [|b3 [|b4 [|b5 [|b6 v]]]]]]; cbn [length] in Hl; try lia.
  by exists b1, b2, b3, b4, b5, b6.
Qed.

Lemma upper_hex_digit (n : N) : ascii_upper (PyStr.hex_digit n) = PyStr.hex_digit n.
Proof.
  destruct n as [|p]; [reflexivity|].
  do 4 (destruct p as [p|p|]; try reflexivity).
Qed.

Lemma canonical_mac_length (m : string) : canonical_mac m -> String.length m = 17.
Proof. intros (b1 & b2 & b3 & b4 & b5 & b6 & ->). reflexivity. Qed.

Lemma canonical_mac_upper (m : string) : canonical_mac m -> string_map ascii_upper m = m.
Proof.
  intros (b1 & b2 & b3 & b4 & b5 & b6 & ->).
  lazy [format_mac PyStr.join map PyStr.format_02X append string_map].
  rewrite !upper_hex_digit. reflexivity.
Qed.

Lemma lstrip_head (c : ascii) (s : string) :
  PyStr.lstrip c s = EmptyString
  ∨ exists a s', PyStr.lstrip c s = String a s' ∧ a ≠ c.
Proof.
  induction s as [|a s IH]; [by left|].
  cbn [PyStr.lstrip]. destruct (Ascii.eqb_spec a c) as [->|Hne]; [exact IH|].
  right. by exists a, s.
Qed.

Lemma lstrip_fixed (c a : ascii) (s : string) :
  a ≠ c -> PyStr.lstrip c (String a s) = String a s.
Proof.
  intros Hne. cbn [PyStr.lstrip]. by destruct (Ascii.eqb_spec a c).
Qed.

Lemma rstrip_cons (c a : ascii) (s : string) :
  PyStr.rstrip c (String a s)
  = match PyStr.rstrip c s with
    | EmptyString => if Ascii.eqb a c then EmptyString else String a EmptyString
    | r => String a r
    end.
Proof. reflexivity. Qed.

Lemma rstrip_idem (c : ascii) (s : string) :
  PyStr.rstrip c (PyStr.rstrip c s) = PyStr.rstrip c s.
Proof.
  induction s as [|a s IH]; [reflexivity|].
  rewrite rstrip_cons. destruct (PyStr.rstrip c s) as [|b r] eqn:Hr.
  - destruct (Ascii.eqb_spec a c) as [->|Hne]; [reflexivity|].
    rewrite rstrip_cons. cbn [PyStr.rstrip]. by destruct (Ascii.eqb_spec a c).
  - rewrite rstrip_cons, IH. reflexivity.
Qed.

Lemma rstrip_keeps_head (c a : ascii) (s : string) :
  a ≠ c -> exists r, PyStr.rstrip c (String a s) = String a r.
Proof.
  intros Hne. cbn [PyStr.rstrip]. destruct (PyStr.rstrip c s) as [|b r].
  - destruct (Ascii.eqb_spec a c); [done|]. by eexists.
  - by eexists.
Qed.

Lemma strip_nul_free (s : string) : nul_free_ends (PyStr.strip PyStr.NUL s).
Proof.
  unfold nul_free_ends, PyStr.strip.
  destruct (lstrip_head PyStr.NUL s) as [->|(a & s' & -> & Hne)]; [reflexivity|].
  destruct (rstrip_keeps_head PyStr.NUL a s' Hne) as [r Hr].
  rewrite Hr, (lstrip_fixed _ _ _ Hne), <- Hr. apply rstrip_idem.
Qed.

Lemma ubnt_dispatch_fields_ok (ty : N) (v : bytes) (r r' : Ubnt.TlvData) :
  ubnt_fields_ok r -> Ubnt.dispatch ty v r = Some r' -> ubnt_fields_ok r'.
Proof.
  intros (Hm & Hh & Hmo & Hf). unfold Ubnt.dispatch.
  repeat case_match; intros Hd;
    try (destruct (Struct.unpack_BE_I _); cbn [mbind option_bind] in Hd);
    try discriminate; injection Hd as <-;
    (split; [|split; [|split]]); intros txt Hs;
    try (injection Hs as <-);
    try (by apply strip_nul_free);
    try (apply take6_canonical;
         match goal with Hle : (_ <=? _) = true |- _ => apply Nat.leb_le in Hle; lia end);
    auto.
  apply Hmo. congruence.
Qed.

Lemma ubnt_parse_tlv_fields_ok (data : bytes) : ubnt_fields_ok (Ubnt._parse_tlv data).
Proof.
  apply (ubnt_loop_invariant ubnt_fields_ok).
  - intros ty v r r'. apply ubnt_dispatch_fields_ok.
  - by repeat split.
Qed.

Lemma mndp_dispatch_fields_ok (ty : N) (v : bytes) (r r' : Mndp.TlvData) :
  mndp_fields_ok r -> Mndp.dispatch ty v r = Some r' -> mndp_fields_ok r'.
Proof.
  intros (Hm & Hi & Hv & Hp & Hb). unfold Mndp.dispatch.
  repeat case_match; intros Hd;
    try (destruct (Struct.unpack_LE_I _); cbn [mbind option_bind] in Hd);
    try discriminate; injection Hd as <-;
    (split; [|split; [|split; [|split]]]); intros txt Hs;
    try (injection Hs as <-);
    try (by apply strip_nul_free);
    try (apply take6_canonical;
         match goal with Hle : (_ <=? _) = true |- _ => apply Nat.leb_le in Hle; lia end);
    auto.
Qed.

Lemma mndp_parse_tlv_fields_ok (data : bytes) : mndp_fields_ok (Mndp._parse_tlv data).
Proof.
  apply (mndp_loop_invariant mndp_fields_ok).
  - intros ty v r r'. apply mndp_dispatch_fields_ok.
  - by repeat split.
Qed.

Lemma ubnt_parse_packet_inv (now : N) (packet : Packet) (d : Device) :
  Ubnt.parse_packet now packet = Some d ->
  exists ip_l udp_l payload m,
    ip_layer packet = Some ip_l ∧ udp_layer packet = Some udp_l
    ∧ (sport udp_l = Ubnt.port ∨ dport udp_l = Ubnt.port)
    ∧ load udp_l = Some payload
    ∧ 6 <= length payload
    ∧ (slice payload 0 2 = [x01; x00] ∨ slice payload 0 2 = [x02; x00])
    ∧ Ubnt.r_mac (Ubnt._parse_tlv (drop 4 payload)) = Some m
    ∧ d = new_Device now Ubnt.brand
            (default (src ip_l) (Ubnt.r_ip (Ubnt._parse_tlv (drop 4 payload)))) m
            (default "Unknown" (Ubnt.r_hostname (Ubnt._parse_tlv (drop 4 payload))))
            (default "" (Ubnt.r_model (Ubnt._parse_tlv (drop 4 payload))))
            (default "" (Ubnt.r_firmware (Ubnt._parse_tlv (drop 4 payload))))
            (default 0%N (Ubnt.r_uptime (Ubnt._parse_tlv (drop 4 payload)))).
Proof.
  unfold Ubnt.parse_packet. intros Hd.
  destruct (ip_layer packet) as [ip_l|] eqn:Hip; [|discriminate].
  destruct (udp_layer packet) as [udp_l|] eqn:Hudp; [|discriminate].
  destruct (negb (sport udp_l =? Ubnt.port)%Z && negb (dport udp_l =? Ubnt.port)%Z) eqn:Hport;
    [discriminate|].
  destruct (load udp_l) as [payload|] eqn:Hload; [|discriminate].
  destruct (Nat.ltb_spec (length payload) 6) as [|Hlen]; [discriminate|].
  destruct (negb (bool_decide (slice payload 0 2 = [x01; x00]))
            && negb (bool_decide (slice payload 0 2 = [x02; x00]))) eqn:Hsig; [discriminate|].
  cbv zeta in Hd.
  destruct (Ubnt.r_mac (Ubnt._parse_tlv (drop 4 payload))) as [m|] eqn:Hm; [|discriminate].
  change (default "" (Some m)) with m in Hd.
  destruct (negb (PyStr.truthy m)); [discriminate|].
  injection Hd as <-. exists ip_l, udp_l, payload, m.
  repeat split; try done.
  - apply andb_false_iff in Hport as [Hp|Hp]; apply negb_false_iff, Z.eqb_eq in Hp; auto.
  - apply andb_false_iff in Hsig as [Hp|Hp]; apply negb_false_iff, bool_decide_eq_true in Hp; auto.
Qed.

Section DeviceFacts.
Context `{PyCase}.

Lemma mndp_parse_packet_inv (now : N) (packet : Packet) (d : Device) :
  Mndp.parse_packet now packet = Some d ->
  exists ip_l udp_l payload m,
    ip_layer packet = Some ip_l ∧ udp_layer packet = Some udp_l
    ∧ (sport udp_l = Mndp.port ∨ dport udp_l = Mndp.port)
    ∧ load udp_l = Some payload
    ∧ 4 <= length payload
    ∧ Mndp.r_mac (Mndp._parse_tlv payload) = Some m
    ∧ d = new_Device now
            (Mndp._detect_brand (default "" (Mndp.r_platform (Mndp._parse_tlv payload)))
               (default "" (Mndp.r_board (Mndp._parse_tlv payload))))
            (default (src ip_l) (Mndp.r_ip (Mndp._parse_tlv payload))) m
            (default "Unknown" (Mndp.r_identity (Mndp._parse_tlv payload)))
            (if PyStr.truthy (default "" (Mndp.r_board (Mndp._parse_tlv payload)))
             then default "" (Mndp.r_board (Mndp._parse_tlv payload))
             else default "" (Mndp.r_platform (Mndp._parse_tlv payload)))
            (default "" (Mndp.r_version (Mndp._parse_tlv payload)))
            (default 0%N (Mndp.r_uptime (Mndp._parse_tlv payload))).
Proof.
  unfold Mndp.parse_packet. intros Hd.
  destruct (ip_layer packet) as [ip_l|] eqn:Hip; [|discriminate].
  destruct (udp_layer packet) as [udp_l|] eqn:Hudp; [|discriminate].
  destruct (negb (sport udp_l =? Mndp.port)%Z && negb (dport udp_l =? Mndp.port)%Z) eqn:Hport;
    [discriminate|].
  destruct (load udp_l) as [payload|] eqn:Hload; [|discriminate].
  destruct (Nat.ltb_spec (length payload) 4) as [|Hlen]; [discriminate|].
  cbv zeta in Hd.
  destruct (Mndp.r_mac (Mndp._parse_tlv payload)) as [m|] eqn:Hm; [|discriminate].
  change (default "" (Some m)) with m in Hd.
  destruct (negb (PyStr.truthy m)); [discriminate|].
  injection Hd as <-. exists ip_l, udp_l, payload, m.
  repeat split; try done.
  apply andb_false_iff in Hport as [Hp|Hp]; apply negb_false_iff, Z.eqb_eq in Hp; auto.
Qed.

Lemma detect_brand_range (platform board : string) :
  Mndp._detect_brand platform board = "Mimosa"
  ∨ Mndp._detect_brand platform board = "Mikrotik"
  ∨ Mndp._detect_brand platform board = "Mikrotik/MNDP".
Proof. unfold Mndp._detect_brand. repeat case_match; auto. Qed.

(** X2.  Every [Device] that the MNDP decoder returns comes from a frame
    with an IP layer and a UDP payload of at least four bytes on port 5678;
    its [mac] is the text of six bytes, seventeen characters that [upper]
    leaves alone; its [brand] is "Mimosa", "Mikrotik" or "Mikrotik/MNDP";
    its [name], [model] and [firmware] neither start nor end with NUL. *)
Theorem mndp_device_well_formed (now : N) (packet : Packet) (d : Device) :
  Mndp.parse_packet now packet = Some d ->
  (exists udp_l payload,
      udp_layer packet = Some udp_l ∧ load udp_l = Some payload
      ∧ (sport udp_l = 5678%Z ∨ dport udp_l = 5678%Z) ∧ 4 <= length payload)
  ∧ is_Some (ip_layer packet)
  ∧ canonical_mac (mac d) ∧ String.length (mac d) = 17
  ∧ string_map ascii_upper (mac d) = mac d
  ∧ (brand d = "Mimosa" ∨ brand d = "Mikrotik" ∨ brand d = "Mikrotik/MNDP")
  ∧ nul_free_ends (name d) ∧ nul_free_ends (model d) ∧ nul_free_ends (firmware d).
Proof.
  intros Hd.
  apply mndp_parse_packet_inv in Hd
    as (ip_l & udp_l & payload & m & Hip & Hudp & Hport & Hload & Hlen & Hm & ->).
  destruct (mndp_parse_tlv_fields_ok payload) as (Fm & Fi & Fv & Fp & Fb).
  pose proof (Fm m Hm) as Hc.
  split; [by exists udp_l, payload|]. split; [by eexists|].
  split; [exact Hc|]. split; [by apply canonical_mac_length|].
  split; [by apply canonical_mac_upper|].
  split; [apply detect_brand_range|].
  cbn [name model firmware discovered_at last_seen new_Device].
  assert (Hd' : forall (o : option string) (dflt : string),
             (forall s, o = Some s -> nul_free_ends s) -> nul_free_ends dflt ->
             nul_free_ends (default dflt o)).
  { intros [s|] dflt Ho Hdf; [by apply Ho|exact Hdf]. }
  split; [by apply Hd'|].
  split; [case_match; by apply Hd'|].
  by apply Hd'.
Qed.

End DeviceFacts.

(** X1.  Every [Device] that the Ubiquiti decoder returns comes from a frame
    with an IP layer and a UDP payload of at least six bytes on port 10001
    that starts with 01 00 or 02 00; its [mac] is the text of six bytes,
    seventeen characters that [upper] leaves alone; its [brand] is
    "Ubiquiti"; its [name], [model] and [firmware] neither start nor end
    with NUL. *)
Theorem ubnt_device_well_formed (now : N) (packet : Packet) (d : Device) :
  Ubnt.parse_packet now packet = Some d ->
  (exists udp_l payload,
      udp_layer packet = Some udp_l ∧ load udp_l = Some payload
      ∧ (sport udp_l = 10001%Z ∨ dport udp_l = 10001%Z) ∧ 6 <= length payload
      ∧ (slice payload 0 2 = [x01; x00] ∨ slice payload 0 2 = [x02; x00]))
  ∧ is_Some (ip_layer packet)
  ∧ canonical_mac (mac d) ∧ String.length (mac d) = 17
  ∧ string_map ascii_upper (mac d) = mac d
  ∧ brand d = "Ubiquiti"
  ∧ nul_free_ends (name d) ∧ nul_free_ends (model d) ∧ nul_free_ends (firmware d).
Proof.
  intros Hd.
  apply ubnt_parse_packet_inv in Hd
    as (ip_l & udp_l & payload & m & Hip & Hudp & Hport & Hload & Hlen & Hsig & Hm & ->).
  destruct (ubnt_parse_tlv_fields_ok (drop 4 payload)) as (Fm & Fh & Fmo & Ff).
  pose proof (Fm m Hm) as Hc.
  split; [by exists udp_l, payload|]. split; [by eexists|].
  split; [exact Hc|]. split; [by apply canonical_mac_length|].
  split; [by apply canonical_mac_upper|].
  split; [reflexivity|].
  cbn [name model firmware discovered_at last_seen new_Device].
  assert (Hd' : forall (o : option string) (dflt : string),
             (forall s, o = Some s -> nul_free_ends s) -> nul_free_ends dflt ->
             nul_free_ends (default dflt o)).
  { intros [s|] dflt Ho Hdf; [by apply Ho|exact Hdf]. }
  split; [by apply Hd'|]. split; [by apply Hd'|]. by apply Hd'.
Qed.

Lemma ubnt_device_well_formed_witness :
  canonical_mac "AA:BB:CC:DD:EE:FF" ∧ nul_free_ends "AP1".
Proof.
  pose proof (ubnt_device_well_formed 7%N
                (UbntStream.frame "10.0.0.9"
                   (UbntStream.header false x00 x00
                    ++ UbntStream.encode [(x01, ex_mac); (x0b, bytes_of_string "AP1")]))
                _ eq_refl) as (_ & _ & Hc & _ & _ & _ & Hn & _).
  split; [exact Hc|exact Hn].
Defined.

Lemma mndp_device_well_formed_witness :
  canonical_mac "AA:BB:CC:DD:EE:FF" ∧ nul_free_ends "SA".
Proof.
  pose proof (mndp_device_well_formed 7%N (MndpStream.frame "10.0.0.9" mimosa_split)
                _ eq_refl) as (_ & _ & Hc & _ & _ & _ & _ & Hn & _).
  split; [exact Hc|exact Hn].
Defined.

Lemma bytes_of_string_length (s : string) : length (bytes_of_string s) = String.length s.
Proof.
  unfold bytes_of_string. rewrite length_map.
  induction s as [|a s IH]; [reflexivity|]. cbn. by rewrite IH.
Qed.

Lemma bytes_of_string_cons (a : ascii) (s : string) :
  bytes_of_string (String a s) = byte_of_ascii a :: bytes_of_string s.
Proof. reflexivity. Qed.

Lemma byte_of_ascii_to_N (a : ascii) : Byte.to_N (byte_of_ascii a) = N_of_ascii a.
Proof. apply Byte.to_of_N. symmetry. apply byte_of_ascii_via_N. Qed.

Lemma decode_plain (s : string) :
  plain_text s = true -> Utf8.decode_ignore (bytes_of_string s) = s.
Proof.
  induction s as [|a s IH]; [reflexivity|].
  cbn [plain_text]. intros Hp.
  apply andb_true_iff in Hp as [Hp Hs]. apply andb_true_iff in Hp as [_ Hlt].
  rewrite bytes_of_string_cons. cbn [Utf8.decode_ignore].
  rewrite byte_of_ascii_to_N, Hlt. unfold Utf8.chr.
  by rewrite ascii_of_byte_of_ascii, IH.
Qed.

Lemma rstrip_plain (s : string) :
  plain_text s = true -> PyStr.rstrip PyStr.NUL s = s.
Proof.
  induction s as [|a s IH]; [reflexivity|].
  cbn [plain_text]. intros Hp.
  apply andb_true_iff in Hp as [Hp Hs]. apply andb_true_iff in Hp as [Hpos _].
  cbn [PyStr.rstrip]. rewrite (IH Hs). destruct s; [|reflexivity].
  destruct (Ascii.eqb_spec a PyStr.NUL) as [->|]; [discriminate|reflexivity].
Qed.

Lemma lstrip_plain (s : string) :
  plain_text s = true -> PyStr.lstrip PyStr.NUL s = s.
Proof.
  destruct s as [|a s]; [reflexivity|].
  cbn [plain_text]. intros Hp.
  apply andb_true_iff in Hp as [Hp Hs]. apply andb_true_iff in Hp as [Hpos _].
  cbn [PyStr.lstrip].
  destruct (Ascii.eqb_spec a PyStr.NUL) as [->|]; [discriminate|reflexivity].
Qed.

Lemma decode_text_plain (s : string) :
  plain_text s = true -> decode_text (bytes_of_string s) = s.
Proof.
  intros Hp. unfold decode_text, PyStr.strip.
  by rewrite decode_plain, lstrip_plain, rstrip_plain.
Qed.

Lemma be_pack_BE_I (n : N) : (n < 4294967296)%N -> Struct.be (pack_BE_I n) = n.
Proof.
  intros Hn. unfold Struct.be, pack_BE_I.
  cbn [fold_left]. rewrite !byte_of_N_to_N.
  assert (H3 : (n / 16777216 < 256)%N) by (apply N.Div0.div_lt_upper_bound; lia).
  rewrite (N.mod_small (n / 16777216)) by lia.
  replace (n / 16777216)%N with (n / 256 / 256 / 256)%N in *
    by (rewrite !N.Div0.div_div; reflexivity).
  replace (n / 65536)%N with (n / 256 / 256)%N
    by (rewrite !N.Div0.div_div; reflexivity).
  pose proof (N.div_mod n 256 ltac:(lia)).
  pose proof (N.div_mod (n / 256) 256 ltac:(lia)).
  pose proof (N.div_mod (n / 256 / 256) 256 ltac:(lia)).
  pose proof (N.mod_small (n / 256 / 256 / 256) 256 H3).
  lia.
Qed.

Lemma le_pack_LE_I (n : N) : (n < 4294967296)%N -> Struct.le (pack_LE_I n) = n.
Proof.
  intros Hn. unfold Struct.le, pack_LE_I. rewrite rev_involutive.
  by apply be_pack_BE_I.
Qed.

Lemma ubnt_absorb_mac (r : Ubnt.TlvData) (v : bytes) :
  6 <= length v ->
  UbntStream.absorb r (x01, v) = Ubnt.set_mac (format_mac (take 6 v)) r.
Proof.
  intros Hl. unfold UbntStream.absorb, Ubnt.dispatch. cbn [fst snd].
  change (Byte.to_N x01 =? Ubnt.TLV_MAC_ADDRESS)%N with true. cbv iota.
  by rewrite (proj2 (Nat.leb_le _ _)) by lia.
Qed.

Lemma ubnt_absorb_ip_info (r : Ubnt.TlvData) (v : bytes) :
  UbntStream.absorb r (x02, v)
  = if 10 <=? length v
    then Ubnt.set_ip (format_ipv4 (slice v 6 10)) (Ubnt.set_mac (format_mac (take 6 v)) r)
    else r.
Proof.
  unfold UbntStream.absorb, Ubnt.dispatch. cbn [fst snd].
  change (Byte.to_N x02 =? Ubnt.TLV_MAC_ADDRESS)%N with false.
  change (Byte.to_N x02 =? Ubnt.TLV_IP_INFO)%N with true. cbv iota.
  by destruct (10 <=? length v).
Qed.

Lemma ubnt_absorb_hostname (r : Ubnt.TlvData) (v : bytes) :
  UbntStream.absorb r (x0b, v) = Ubnt.set_hostname (decode_text v) r.
Proof. reflexivity. Qed.

Lemma ubnt_absorb_firmware_eq (r : Ubnt.TlvData) (v : bytes) :
  UbntStream.absorb r (x03, v) = Ubnt.set_firmware (decode_text v) r.
Proof. reflexivity. Qed.

Lemma ubnt_absorb_model_full (r : Ubnt.TlvData) (v : bytes) :
  UbntStream.absorb r (x14, v) = Ubnt.set_model (decode_text v) r.
Proof. reflexivity. Qed.

Lemma ubnt_absorb_model_short (r : Ubnt.TlvData) (v : bytes) :
  UbntStream.absorb r (x0c, v)
  = match Ubnt.r_model r with
    | None => Ubnt.set_model (decode_text v) r
    | Some _ => r
    end.
Proof.
  unfold UbntStream.absorb, Ubnt.dispatch. cbn [fst snd].
  change (Byte.to_N x0c =? Ubnt.TLV_MAC_ADDRESS)%N with false.
  change (Byte.to_N x0c =? Ubnt.TLV_IP_INFO)%N with false.
  change (Byte.to_N x0c =? Ubnt.TLV_FIRMWARE)%N with false.
  change (Byte.to_N x0c =? Ubnt.TLV_HOSTNAME)%N with false.
  change (Byte.to_N x0c =? Ubnt.TLV_MODEL_SHORT)%N with true. cbv iota.
  by destruct (Ubnt.r_model r).
Qed.

Lemma ubnt_absorb_uptime (r : Ubnt.TlvData) (v : bytes) :
  4 <= length v ->
  UbntStream.absorb r (x0e, v) = Ubnt.set_uptime (Struct.be (take 4 v)) r.
Proof.
  intros Hl. unfold UbntStream.absorb, Ubnt.dispatch. cbn [fst snd].
  change (Byte.to_N x0e =? Ubnt.TLV_MAC_ADDRESS)%N with false.
  change (Byte.to_N x0e =? Ubnt.TLV_IP_INFO)%N with false.
  change (Byte.to_N x0e =? Ubnt.TLV_FIRMWARE)%N with false.
  change (Byte.to_N x0e =? Ubnt.TLV_HOSTNAME)%N with false.
  change (Byte.to_N x0e =? Ubnt.TLV_MODEL_SHORT)%N with false.
  change (Byte.to_N x0e =? Ubnt.TLV_MODEL_FULL)%N with false.
  change (Byte.to_N x0e =? Ubnt.TLV_UPTIME)%N with true. cbv iota.
  rewrite (proj2 (Nat.leb_le _ _)) by lia.
  by rewrite unpack_BE_I_take4 by lia.
Qed.

Lemma fits_text (ty : byte) (s : string) :
  (N.of_nat (String.length s) < 65536)%N -> UbntStream.fits (ty, bytes_of_string s).
Proof. intros Hl. unfold UbntStream.fits. cbn [snd]. by rewrite bytes_of_string_length. Qed.

Lemma truthy_format_mac6 (v : bytes) : length v = 6 -> PyStr.truthy (format_mac v) = true.
Proof.
  intros Hl. rewrite <- (take_ge v 6) by lia. apply format_mac_truthy. lia.
Qed.

Lemma ubnt_decode_encoded (now : N) (source : string) (v2 : bool) (b2 b3 : byte)
    (mac6 : bytes) (firmware_text hostname model_text : string) (seconds : N) :
  length mac6 = 6 ->
  plain_text firmware_text = true -> (N.of_nat (String.length firmware_text) < 65536)%N ->
  plain_text hostname = true -> (N.of_nat (String.length hostname) < 65536)%N ->
  plain_text model_text = true -> (N.of_nat (String.length model_text) < 65536)%N ->
  (seconds < 4294967296)%N ->
  Ubnt.parse_packet now
    (UbntStream.frame source
       (UbntStream.header v2 b2 b3
        ++ UbntStream.encode [(x01, mac6);
                              (x03, bytes_of_string firmware_text);
                              (x0b, bytes_of_string hostname);
                              (x14, bytes_of_string model_text);
                              (x0e, pack_BE_I seconds)]))
  = Some (new_Device now "Ubiquiti" source (format_mac mac6) hostname model_text
            firmware_text seconds).
Proof.
  intros Hmac Pf Lf Ph Lh Pm Lm Hs.
  rewrite ubnt_parse_frame.
  2:{ rewrite ubnt_encode_cons, length_app, ubnt_encode_tlv_length. lia. }
  rewrite ubnt_parse_encode.
  2:{ repeat constructor; try (by apply fits_text).
      - unfold UbntStream.fits. cbn [snd]. rewrite Hmac. reflexivity. }
  unfold UbntStream.accumulate. cbn [fold_left].
  rewrite ubnt_absorb_mac by lia.
  rewrite ubnt_absorb_firmware_eq, ubnt_absorb_hostname, ubnt_absorb_model_full.
  rewrite ubnt_absorb_uptime by (unfold pack_BE_I; cbn [length]; lia).
  rewrite (take_ge mac6 6) by lia.
  change (take 4 (pack_BE_I seconds)) with (pack_BE_I seconds).
  rewrite be_pack_BE_I by done. rewrite !decode_text_plain by done.
  cbv zeta. cbn [Ubnt.r_mac Ubnt.r_ip Ubnt.r_hostname Ubnt.r_model Ubnt.r_firmware
                 Ubnt.r_uptime Ubnt.set_mac Ubnt.set_firmware Ubnt.set_hostname
                 Ubnt.set_model Ubnt.set_uptime Ubnt.empty default from_option id].
  by rewrite truthy_format_mac6.
Qed.

(** X3.  Round trip for the Ubiquiti decoder: a frame whose TLV stream
    carries a six-byte hardware address, firmware, hostname and full model
    as NUL-free ASCII text shorter than 65536 bytes, and an uptime below
    2^32 in big-endian order, decodes to the [Device] with exactly these
    fields, the frame's source address and the brand "Ubiquiti". *)
Theorem ubnt_round_trip_general (now : N) (source : string) (v2 : bool) (b2 b3 : byte)
    (mac6 : bytes) (firmware_text hostname model_text : string) (seconds : N) :
  length mac6 = 6 ->
  plain_text firmware_text = true -> (N.of_nat (String.length firmware_text) < 65536)%N ->
  plain_text hostname = true -> (N.of_nat (String.length hostname) < 65536)%N ->
  plain_text model_text = true -> (N.of_nat (String.length model_text) < 65536)%N ->
  (seconds < 4294967296)%N ->
  Ubnt.parse_packet now
    (UbntStream.frame source
       (UbntStream.header v2 b2 b3
        ++ UbntStream.encode [(x01, mac6);
                              (x03, bytes_of_string firmware_text);
                              (x0b, bytes_of_string hostname);
                              (x14, bytes_of_string model_text);
                              (x0e, pack_BE_I seconds)]))
  = Some (new_Device now "Ubiquiti" source (format_mac mac6) hostname model_text
            firmware_text seconds).
Proof.
  apply ubnt_decode_encoded.
Qed.

Lemma ubnt_round_trip_general_witness :
  Ubnt.parse_packet 7%N
    (UbntStream.frame "10.0.0.9"
       (UbntStream.header true x00 x00
        ++ UbntStream.encode [(x01, ex_mac);
                              (x03, bytes_of_string "XM.v6.1.7");
                              (x0b, bytes_of_string "Rooftop-North");
                              (x14, bytes_of_string "NanoStation M5");
                              (x0e, pack_BE_I 86400)]))
  = Some (new_Device 7%N "Ubiquiti" "10.0.0.9" (format_mac ex_mac) "Rooftop-North"
            "NanoStation M5" "XM.v6.1.7" 86400%N).
Proof.
  apply (ubnt_round_trip_general 7%N "10.0.0.9" true x00 x00 ex_mac
           "XM.v6.1.7" "Rooftop-North" "NanoStation M5" 86400%N);
    reflexivity.
Defined.

Lemma mndp_absorb_mac (r : Mndp.TlvData) (v : bytes) :
  6 <= length v ->
  MndpStream.absorb r (1%N, v) = Mndp.set_mac (format_mac (take 6 v)) r.
Proof.
  intros Hl. unfold MndpStream.absorb, Mndp.dispatch. cbn [fst snd].
  change (1 =? Mndp.TLV_MAC_ADDRESS)%N with true. cbv iota.
  by rewrite (proj2 (Nat.leb_le _ _)) by lia.
Qed.

Lemma mndp_absorb_identity (r : Mndp.TlvData) (v : bytes) :
  MndpStream.absorb r (5%N, v) = Mndp.set_identity (decode_text v) r.
Proof. reflexivity. Qed.

Lemma mndp_absorb_version (r : Mndp.TlvData) (v : bytes) :
  MndpStream.absorb r (7%N, v) = Mndp.set_version (decode_text v) r.
Proof. reflexivity. Qed.

Lemma mndp_absorb_platform (r : Mndp.TlvData) (v : bytes) :
  MndpStream.absorb r (8%N, v) = Mndp.set_platform (decode_text v) r.
Proof. reflexivity. Qed.

Lemma mndp_absorb_board (r : Mndp.TlvData) (v : bytes) :
  MndpStream.absorb r (14%N, v) = Mndp.set_board (decode_text v) r.
Proof. reflexivity. Qed.

Lemma mndp_absorb_uptime (r : Mndp.TlvData) (v : bytes) :
  4 <= length v ->
  MndpStream.absorb r (10%N, v) = Mndp.set_uptime (Struct.le (take 4 v)) r.
Proof.
  intros Hl. unfold MndpStream.absorb, Mndp.dispatch. cbn [fst snd].
  change (10 =? Mndp.TLV_MAC_ADDRESS)%N with false.
  change (10 =? Mndp.TLV_IDENTITY)%N with false.
  change (10 =? Mndp.TLV_VERSION)%N with false.
  change (10 =? Mndp.TLV_PLATFORM)%N with false.
  change (10 =? Mndp.TLV_BOARD)%N with false.
  change (10 =? Mndp.TLV_UPTIME)%N with true. cbv iota.
  rewrite (proj2 (Nat.leb_le _ _)) by lia.
  by rewrite unpack_LE_I_take4 by lia.
Qed.

Lemma mndp_absorb_ipv4 (r : Mndp.TlvData) (v : bytes) :
  MndpStream.absorb r (20%N, v)
  = if 4 <=? length v then Mndp.set_ip (format_ipv4 (take 4 v)) r else r.
Proof.
  unfold MndpStream.absorb, Mndp.dispatch. cbn [fst snd].
  change (20 =? Mndp.TLV_MAC_ADDRESS)%N with false.
  change (20 =? Mndp.TLV_IDENTITY)%N with false.
  change (20 =? Mndp.TLV_VERSION)%N with false.
  change (20 =? Mndp.TLV_PLATFORM)%N with false.
  change (20 =? Mndp.TLV_BOARD)%N with false.
  change (20 =? Mndp.TLV_UPTIME)%N with false.
  change (20 =? Mndp.TLV_IPV4)%N with true. cbv iota.
  by destruct (4 <=? length v).
Qed.

Lemma mndp_fits_text (ty : N) (s : string) :
  (ty < 65536)%N -> (N.of_nat (String.length s) < 65536)%N ->
  MndpStream.fits (ty, bytes_of_string s).
Proof.
  intros Ht Hl. split; [exact Ht|]. cbn [snd]. by rewrite bytes_of_string_length.
Qed.

Section RoundTrip.
Context `{PyCase}.

(** X4.  Round trip for the MNDP decoder: a frame whose TLV stream carries
    a six-byte hardware address, identity, version, platform and board as
    NUL-free ASCII text, a little-endian uptime below 2^32 and a four-byte
    IPv4 address decodes to the [Device] with these fields: the address of
    the TLV as [ip], the board as [model] unless it is empty (then the
    platform), and the brand that [_detect_brand] gives. *)
Theorem mndp_round_trip_general (now : N) (source : string)
    (mac6 ip4 : bytes) (identity version platform board : string) (seconds : N) :
  length mac6 = 6 -> length ip4 = 4 ->
  plain_text identity = true -> (N.of_nat (String.length identity) < 65536)%N ->
  plain_text version = true -> (N.of_nat (String.length version) < 65536)%N ->
  plain_text platform = true -> (N.of_nat (String.length platform) < 65536)%N ->
  plain_text board = true -> (N.of_nat (String.length board) < 65536)%N ->
  (seconds < 4294967296)%N ->
  Mndp.parse_packet now
    (MndpStream.frame source
       (MndpStream.encode [(1%N, mac6);
                           (5%N, bytes_of_string identity);
                           (7%N, bytes_of_string version);
                           (8%N, bytes_of_string platform);
                           (14%N, bytes_of_string board);
                           (10%N, pack_LE_I seconds);
                           (20%N, ip4)]))
  = Some (new_Device now (Mndp._detect_brand platform board) (format_ipv4 ip4)
            (format_mac mac6) identity
            (if PyStr.truthy board then board else platform) version seconds).
Proof.
  intros Hmac Hip Pi Li Pv Lv Pp Lp Pb Lb Hs.
  rewrite mndp_parse_frame.
  2:{ rewrite mndp_encode_cons, length_app, mndp_encode_tlv_length. lia. }
  rewrite mndp_parse_encode.
  2:{ repeat constructor; try (by apply mndp_fits_text); try reflexivity.
      all: cbn [snd]; rewrite ?Hmac, ?Hip; reflexivity. }
  unfold MndpStream.accumulate. cbn [fold_left].
  rewrite mndp_absorb_mac by lia.
  rewrite mndp_absorb_identity, mndp_absorb_version, mndp_absorb_platform, mndp_absorb_board.
  rewrite mndp_absorb_uptime by (unfold pack_LE_I, pack_BE_I; cbn [length rev app]; lia).
  rewrite mndp_absorb_ipv4, (proj2 (Nat.leb_le 4 (length ip4))) by lia.
  rewrite (take_ge mac6 6), (take_ge ip4 4) by lia.
  change (take 4 (pack_LE_I seconds)) with (pack_LE_I seconds).
  rewrite le_pack_LE_I by done. rewrite !decode_text_plain by done.
  cbv zeta. cbn [Mndp.r_mac Mndp.r_ip Mndp.r_identity Mndp.r_version Mndp.r_platform
                 Mndp.r_board Mndp.r_uptime Mndp.set_mac Mndp.set_identity
                 Mndp.set_version Mndp.set_platform Mndp.set_board Mndp.set_uptime
                 Mndp.set_ip Mndp.empty default from_option id].
  by rewrite truthy_format_mac6.
Qed.

End RoundTrip.

Lemma mndp_round_trip_general_witness :
  Mndp.parse_packet 7%N
    (MndpStream.frame "10.0.0.9"
       (MndpStream.encode [(1%N, ex_mac);
                           (5%N, bytes_of_string "tower-3");
                           (7%N, bytes_of_string "6.49.7");
                           (8%N, bytes_of_string "MikroTik");
                           (14%N, bytes_of_string "RB951G");
                           (10%N, pack_LE_I 86400);
                           (20%N, [xc0; xa8; x58; x01])]))
  = Some (new_Device 7%N (Mndp._detect_brand "MikroTik" "RB951G")
            (format_ipv4 [xc0; xa8; x58; x01]) (format_mac ex_mac) "tower-3"
            (if PyStr.truthy "RB951G" then "RB951G" else "MikroTik") "6.49.7" 86400%N).
Proof.
  apply (mndp_round_trip_general 7%N "10.0.0.9" ex_mac [xc0; xa8; x58; x01]
           "tower-3" "6.49.7" "MikroTik" "RB951G" 86400%N);
    reflexivity.
Defined.

Lemma fold_left_keeps {A B C : Type} (f : A -> B -> A) (g : A -> C) (P : B -> Prop)
    (l : list B) (a : A) :
  (forall a b, P b -> g (f a b) = g a) -> Forall P l -> g (fold_left f l a) = g a.
Proof.
  intros Hstep Hl. revert a. induction Hl as [|b l Hb _ IH]; intros a; [done|].
  cbn [fold_left]. rewrite IH. by apply Hstep.
Qed.

Lemma ubnt_absorb_mac_kept (r : Ubnt.TlvData) (t : UbntStream.tlv) :
  ubnt_sets_mac t = false -> Ubnt.r_mac (UbntStream.absorb r t) = Ubnt.r_mac r.
Proof.
  unfold ubnt_sets_mac, UbntStream.absorb, Ubnt.dispatch. intros Hs.
  destruct (Byte.to_N t.1 =? Ubnt.TLV_MAC_ADDRESS)%N.
  { cbn [andb orb] in Hs. apply orb_false_iff in Hs as [-> _]. reflexivity. }
  destruct (Byte.to_N t.1 =? Ubnt.TLV_IP_INFO)%N.
  { cbn [andb orb] in Hs. rewrite Hs. reflexivity. }
  repeat (case_match; try reflexivity).
  destruct (Struct.unpack_BE_I _); reflexivity.
Qed.

Lemma ubnt_absorb_ip_kept (r : Ubnt.TlvData) (t : UbntStream.tlv) :
  ubnt_sets_ip t = false -> Ubnt.r_ip (UbntStream.absorb r t) = Ubnt.r_ip r.
Proof.
  unfold ubnt_sets_ip, UbntStream.absorb, Ubnt.dispatch. intros Hs.
  destruct (Byte.to_N t.1 =? Ubnt.TLV_MAC_ADDRESS)%N.
  { case_match; reflexivity. }
  destruct (Byte.to_N t.1 =? Ubnt.TLV_IP_INFO)%N.
  { cbn [andb] in Hs. rewrite Hs. reflexivity. }
  repeat (case_match; try reflexivity).
  destruct (Struct.unpack_BE_I _); reflexivity.
Qed.

Lemma ubnt_absorb_unknown (r : Ubnt.TlvData) (t : UbntStream.tlv) :
  ubnt_known t.1 = false -> UbntStream.absorb r t = r.
Proof.
  unfold ubnt_known, UbntStream.absorb, Ubnt.dispatch. cbn [existsb]. intros Hk.
  repeat (apply orb_false_iff in Hk as [? Hk]).
  repeat match goal with E : (_ =? _)%N = false |- _ => rewrite E; clear E end.
  reflexivity.
Qed.

Lemma mndp_absorb_mac_kept (r : Mndp.TlvData) (t : MndpStream.tlv) :
  mndp_sets_mac t = false -> Mndp.r_mac (MndpStream.absorb r t) = Mndp.r_mac r.
Proof.
  unfold mndp_sets_mac, MndpStream.absorb, Mndp.dispatch. intros Hs.
  destruct (t.1 =? Mndp.TLV_MAC_ADDRESS)%N.
  { cbn [andb] in Hs. rewrite Hs. reflexivity. }
  repeat (case_match; try reflexivity).
  destruct (Struct.unpack_LE_I _); reflexivity.
Qed.

Lemma mndp_absorb_ip_kept (r : Mndp.TlvData) (t : MndpStream.tlv) :
  mndp_sets_ip t = false -> Mndp.r_ip (MndpStream.absorb r t) = Mndp.r_ip r.
Proof.
  unfold mndp_sets_ip, MndpStream.absorb, Mndp.dispatch. intros Hs.
  repeat (case_match; try reflexivity); try discriminate.
  destruct (Struct.unpack_LE_I _); reflexivity.
Qed.

Lemma mndp_absorb_unknown (r : Mndp.TlvData) (t : MndpStream.tlv) :
  mndp_known t.1 = false -> MndpStream.absorb r t = r.
Proof.
  unfold mndp_known, MndpStream.absorb, Mndp.dispatch. cbn [existsb]. intros Hk.
  repeat (apply orb_false_iff in Hk as [? Hk]).
  repeat match goal with E : (_ =? _)%N = false |- _ => rewrite E; clear E end.
  reflexivity.
Qed.

Lemma ubnt_frame_inv (now : N) (source : string) (v2 : bool) (b2 b3 : byte)
    (stream : bytes) (d : Device) :
  Ubnt.parse_packet now (UbntStream.frame source (UbntStream.header v2 b2 b3 ++ stream))
  = Some d ->
  exists m,
    Ubnt.r_mac (Ubnt._parse_tlv stream) = Some m
    ∧ d = new_Device now Ubnt.brand
            (default source (Ubnt.r_ip (Ubnt._parse_tlv stream))) m
            (default "Unknown" (Ubnt.r_hostname (Ubnt._parse_tlv stream)))
            (default "" (Ubnt.r_model (Ubnt._parse_tlv stream)))
            (default "" (Ubnt.r_firmware (Ubnt._parse_tlv stream)))
            (default 0%N (Ubnt.r_uptime (Ubnt._parse_tlv stream))).
Proof.
  intros Hd.
  apply ubnt_parse_packet_inv in Hd
    as (ip_l & udp_l & payload & m & Hip & Hudp & _ & Hload & _ & _ & Hm & ->).
  cbn in Hip, Hudp. injection Hip as <-. injection Hudp as <-.
  cbn in Hload. injection Hload as <-.
  change (drop 4 (UbntStream.header v2 b2 b3 ++ stream)%list) with stream in *.
  by exists m.
Qed.

Section StreamFacts.
Context `{PyCase}.

Lemma mndp_frame_inv (now : N) (source : string) (payload : bytes) (d : Device) :
  Mndp.parse_packet now (MndpStream.frame source payload) = Some d ->
  exists m,
    Mndp.r_mac (Mndp._parse_tlv payload) = Some m
    ∧ d = new_Device now
            (Mndp._detect_brand (default "" (Mndp.r_platform (Mndp._parse_tlv payload)))
               (default "" (Mndp.r_board (Mndp._parse_tlv payload))))
            (default source (Mndp.r_ip (Mndp._parse_tlv payload))) m
            (default "Unknown" (Mndp.r_identity (Mndp._parse_tlv payload)))
            (if PyStr.truthy (default "" (Mndp.r_board (Mndp._parse_tlv payload)))
             then default "" (Mndp.r_board (Mndp._parse_tlv payload))
             else default "" (Mndp.r_platform (Mndp._parse_tlv payload)))
            (default "" (Mndp.r_version (Mndp._parse_tlv payload)))
            (default 0%N (Mndp.r_uptime (Mndp._parse_tlv payload))).
Proof.
  intros Hd.
  apply mndp_parse_packet_inv in Hd
    as (ip_l & udp_l & payload' & m & Hip & Hudp & _ & Hload & _ & Hm & ->).
  cbn in Hip, Hudp. injection Hip as <-. injection Hudp as <-.
  cbn in Hload. injection Hload as <-.
  by exists m.
Qed.

(** X5.  A stream in which no TLV gives a hardware address (no MAC TLV of
    six bytes or more and, for Ubiquiti, no IP-info TLV of ten bytes or
    more) yields no device, whatever else it carries: both decoders return
    [None]. *)
Theorem no_mac_no_device (now : N) (source : string) (v2 : bool) (b2 b3 : byte)
    (uts : list UbntStream.tlv) (utail : bytes)
    (mts : list MndpStream.tlv) (mtail : bytes) :
  Forall UbntStream.fits uts -> ubnt_stops utail ->
  Forall (fun t => ubnt_sets_mac t = false) uts ->
  Forall MndpStream.fits mts -> mndp_stops mtail ->
  Forall (fun t => mndp_sets_mac t = false) mts ->
  Ubnt.parse_packet now
    (UbntStream.frame source
       (UbntStream.header v2 b2 b3 ++ UbntStream.encode uts ++ utail)) = None
  ∧ Mndp.parse_packet now
      (MndpStream.frame source (MndpStream.encode mts ++ mtail)) = None.
Proof.
  intros Hu Hus Hun Hm Hms Hmn. split.
  - destruct (Ubnt.parse_packet _ _) as [d|] eqn:Hd; [|reflexivity].
    apply ubnt_frame_inv in Hd as (m & Hmac & _).
    rewrite ubnt_parse_stream in Hmac by done.
    unfold UbntStream.accumulate in Hmac.
    rewrite (fold_left_keeps UbntStream.absorb Ubnt.r_mac
               (fun t => ubnt_sets_mac t = false)) in Hmac;
      [discriminate| |done].
    intros a b. apply ubnt_absorb_mac_kept.
  - destruct (Mndp.parse_packet _ _) as [d|] eqn:Hd; [|reflexivity].
    apply mndp_frame_inv in Hd as (m & Hmac & _).
    rewrite mndp_parse_stream in Hmac by done.
    unfold MndpStream.accumulate in Hmac.
    rewrite (fold_left_keeps MndpStream.absorb Mndp.r_mac
               (fun t => mndp_sets_mac t = false)) in Hmac;
      [discriminate| |done].
    intros a b. apply mndp_absorb_mac_kept.
Qed.

(** X6.  When no TLV of the stream gives an IP address (Ubiquiti: no
    IP-info TLV of ten bytes or more; MNDP: no IPv4 TLV of four bytes or
    more), the decoded [Device] has the source address of the frame's IP
    layer as its [ip]. *)
Theorem source_address_fallback (now : N) (source : string) (v2 : bool) (b2 b3 : byte)
    (uts : list UbntStream.tlv) (utail : bytes) (ud : Device)
    (mts : list MndpStream.tlv) (mtail : bytes) (md : Device) :
  Forall UbntStream.fits uts -> ubnt_stops utail ->
  Forall (fun t => ubnt_sets_ip t = false) uts ->
  Forall MndpStream.fits mts -> mndp_stops mtail ->
  Forall (fun t => mndp_sets_ip t = false) mts ->
  Ubnt.parse_packet now
    (UbntStream.frame source
       (UbntStream.header v2 b2 b3 ++ UbntStream.encode uts ++ utail)) = Some ud ->
  Mndp.parse_packet now
    (MndpStream.frame source (MndpStream.encode mts ++ mtail)) = Some md ->
  ip ud = source ∧ ip md = source.
Proof.
  intros Hu Hus Hun Hm Hms Hmn Hud Hmd. split.
  - apply ubnt_frame_inv in Hud as (m & _ & ->). cbn [ip new_Device].
    rewrite ubnt_parse_stream by done. unfold UbntStream.accumulate.
    rewrite (fold_left_keeps UbntStream.absorb Ubnt.r_ip
               (fun t => ubnt_sets_ip t = false)); [reflexivity| |done].
    intros a b. apply ubnt_absorb_ip_kept.
  - apply mndp_frame_inv in Hmd as (m & _ & ->). cbn [ip new_Device].
    rewrite mndp_parse_stream by done. unfold MndpStream.accumulate.
    rewrite (fold_left_keeps MndpStream.absorb Mndp.r_ip
               (fun t => mndp_sets_ip t = false)); [reflexivity| |done].
    intros a b. apply mndp_absorb_ip_kept.
Qed.

(** X7.  A TLV whose type the decoder does not act on is skipped: the
    stream decodes to the same result as the stream without it, wherever
    the TLV stands, for both TLV loops. *)
Theorem unknown_tlv_ignored
    (upre upost : list UbntStream.tlv) (ut : UbntStream.tlv) (utail : bytes)
    (mpre mpost : list MndpStream.tlv) (mt : MndpStream.tlv) (mtail : bytes) :
  Forall UbntStream.fits (upre ++ ut :: upost) -> ubnt_stops utail ->
  ubnt_known ut.1 = false ->
  Forall MndpStream.fits (mpre ++ mt :: mpost) -> mndp_stops mtail ->
  mndp_known mt.1 = false ->
  Ubnt._parse_tlv (UbntStream.encode (upre ++ ut :: upost) ++ utail)
    = Ubnt._parse_tlv (UbntStream.encode (upre ++ upost) ++ utail)
  ∧ Mndp._parse_tlv (MndpStream.encode (mpre ++ mt :: mpost) ++ mtail)
    = Mndp._parse_tlv (MndpStream.encode (mpre ++ mpost) ++ mtail).
Proof.
  intros Hu Hus Huk Hm Hms Hmk.
  assert (Hu' : Forall UbntStream.fits (upre ++ upost)).
  { apply Forall_app in Hu as [? Hu]. apply Forall_app. split; [done|].
    by apply Forall_cons in Hu as [_ ?]. }
  assert (Hm' : Forall MndpStream.fits (mpre ++ mpost)).
  { apply Forall_app in Hm as [? Hm]. apply Forall_app. split; [done|].
    by apply Forall_cons in Hm as [_ ?]. }
  split.
  - rewrite !ubnt_parse_stream by done. unfold UbntStream.accumulate.
    rewrite !fold_left_app. cbn [fold_left]. by rewrite ubnt_absorb_unknown.
  - rewrite !mndp_parse_stream by done. unfold MndpStream.accumulate.
    rewrite !fold_left_app. cbn [fold_left]. by rewrite mndp_absorb_unknown.
Qed.

End StreamFacts.

Lemma ubnt_absorb_model_kept (r : Ubnt.TlvData) (t : UbntStream.tlv) :
  t.1 ≠ x0c -> t.1 ≠ x14 -> Ubnt.r_model (UbntStream.absorb r t) = Ubnt.r_model r.
Proof.
  intros Hs Hf. unfold UbntStream.absorb, Ubnt.dispatch.
  destruct (N.eqb_spec (Byte.to_N t.1) Ubnt.TLV_MODEL_SHORT) as [E|_].
  { exfalso. apply Hs. by apply byte_to_N_inj. }
  destruct (N.eqb_spec (Byte.to_N t.1) Ubnt.TLV_MODEL_FULL) as [E|_].
  { exfalso. apply Hf. by apply byte_to_N_inj. }
  repeat (case_match; try reflexivity).
  destruct (Struct.unpack_BE_I _); reflexivity.
Qed.

Lemma ubnt_absorb_model_sticky (r : Ubnt.TlvData) (t : UbntStream.tlv) (s : string) :
  t.1 ≠ x14 -> Ubnt.r_model r = Some s -> Ubnt.r_model (UbntStream.absorb r t) = Some s.
Proof.
  intros Hf Hr. destruct (decide (t.1 = x0c)) as [E|Hs].
  - destruct t as [ty v]. cbn [fst] in E. subst ty.
    rewrite ubnt_absorb_model_short, Hr. exact Hr.
  - by rewrite ubnt_absorb_model_kept.
Qed.

Lemma ubnt_fold_model_sticky (ts : list UbntStream.tlv) (r : Ubnt.TlvData) (s : string) :
  Forall (fun t : UbntStream.tlv => t.1 ≠ x14) ts -> Ubnt.r_model r = Some s ->
  Ubnt.r_model (fold_left UbntStream.absorb ts r) = Some s.
Proof.
  intros Hts. revert r. induction Hts as [|t ts Ht _ IH]; intros r Hr; [done|].
  cbn [fold_left]. apply IH. by apply ubnt_absorb_model_sticky.
Qed.

(** X8.  Model precedence in the Ubiquiti decoder: the last full-model TLV
    (0x14) gives the [model], whatever short-model TLVs stand before or
    after it; in a stream without a full-model TLV the first short-model
    TLV (0x0C) gives it, and later ones are ignored. *)
Theorem ubnt_model_precedence (now : N) (source : string) (v2 : bool) (b2 b3 : byte)
    (pre post pre' post' : list UbntStream.tlv) (full short : bytes)
    (tail tail' : bytes) (d d' : Device) :
  Forall UbntStream.fits (pre ++ (x14, full) :: post) -> ubnt_stops tail ->
  Forall (fun t : UbntStream.tlv => t.1 ≠ x14) post ->
  Ubnt.parse_packet now
    (UbntStream.frame source
       (UbntStream.header v2 b2 b3
        ++ UbntStream.encode (pre ++ (x14, full) :: post) ++ tail)) = Some d ->
  Forall UbntStream.fits (pre' ++ (x0c, short) :: post') -> ubnt_stops tail' ->
  Forall (fun t : UbntStream.tlv => t.1 ≠ x0c ∧ t.1 ≠ x14) pre' ->
  Forall (fun t : UbntStream.tlv => t.1 ≠ x14) post' ->
  Ubnt.parse_packet now
    (UbntStream.frame source
       (UbntStream.header v2 b2 b3
        ++ UbntStream.encode (pre' ++ (x0c, short) :: post') ++ tail')) = Some d' ->
  model d = decode_text full ∧ model d' = decode_text short.
Proof.
  intros Hfit Hstop Hpost Hd Hfit' Hstop' Hpre' Hpost' Hd'. split.
  - apply ubnt_frame_inv in Hd as (m & _ & ->). cbn [model new_Device].
    rewrite ubnt_parse_stream by done. unfold UbntStream.accumulate.
    rewrite fold_left_app. cbn [fold_left].
    by rewrite (ubnt_fold_model_sticky post _ (decode_text full)).
  - apply ubnt_frame_inv in Hd' as (m & _ & ->). cbn [model new_Device].
    rewrite ubnt_parse_stream by done. unfold UbntStream.accumulate.
    rewrite fold_left_app. cbn [fold_left].
    rewrite (ubnt_fold_model_sticky post' _ (decode_text short)); [done..|].
    rewrite ubnt_absorb_model_short.
    rewrite (fold_left_keeps UbntStream.absorb Ubnt.r_model
               (fun t : UbntStream.tlv => t.1 ≠ x0c ∧ t.1 ≠ x14)); [reflexivity| |done].
    intros a b [? ?]. by apply ubnt_absorb_model_kept.
Qed.

(** X9.  The Ubiquiti IP-info TLV (0x02): with ten bytes or more it gives
    both the [mac] (bytes 0 to 5) and the [ip] (bytes 6 to 9) of the device,
    when no later TLV gives another hardware address; with fewer than ten
    bytes it is ignored as a whole, also when its first six bytes would
    make a hardware address. *)
Theorem ubnt_ip_info_tlv (now : N) (source : string) (v2 : bool) (b2 b3 : byte)
    (pre post : list UbntStream.tlv) (long short : bytes) (tail : bytes) :
  Forall UbntStream.fits (pre ++ (x02, long) :: post) ->
  Forall UbntStream.fits (pre ++ (x02, short) :: post) ->
  ubnt_stops tail ->
  10 <= length long -> length short < 10 ->
  Forall (fun t => ubnt_sets_mac t = false) post ->
  (exists d,
      Ubnt.parse_packet now
        (UbntStream.frame source
           (UbntStream.header v2 b2 b3
            ++ UbntStream.encode (pre ++ (x02, long) :: post) ++ tail)) = Some d
      ∧ mac d = format_mac (take 6 long)
      ∧ ip d = format_ipv4 (slice long 6 10))
  ∧ Ubnt._parse_tlv (UbntStream.encode (pre ++ (x02, short) :: post) ++ tail)
    = Ubnt._parse_tlv (UbntStream.encode (pre ++ post) ++ tail).
Proof.
  intros Hfit Hfit' Hstop Hlong Hshort Hpost. split.
  - rewrite ubnt_parse_frame.
    2:{ rewrite ubnt_encode_app, ubnt_encode_cons, !length_app, ubnt_encode_tlv_length.
        lia. }
    cbv zeta. rewrite ubnt_parse_stream by done. unfold UbntStream.accumulate.
    rewrite fold_left_app. cbn [fold_left].
    rewrite ubnt_absorb_ip_info, (proj2 (Nat.leb_le _ _)) by done.
    set (r := Ubnt.set_ip _ _).
    assert (Hmac : Ubnt.r_mac (fold_left UbntStream.absorb post r)
                   = Some (format_mac (take 6 long))).
    { rewrite (fold_left_keeps UbntStream.absorb Ubnt.r_mac
                 (fun t => ubnt_sets_mac t = false)); [reflexivity| |done].
      intros a b. apply ubnt_absorb_mac_kept. }
    assert (Hip : Ubnt.r_ip (fold_left UbntStream.absorb post r)
                  = Some (format_ipv4 (slice long 6 10))).
    { rewrite (fold_left_keeps UbntStream.absorb Ubnt.r_ip
                 (fun t => ubnt_sets_mac t = false)); [reflexivity| |done].
      intros a b Hb. apply ubnt_absorb_ip_kept.
      unfold ubnt_sets_mac in Hb. apply orb_false_iff in Hb as [_ Hb]. exact Hb. }
    rewrite Hmac, Hip. change (default "" (Some ?x)) with x.
    rewrite format_mac_truthy by lia. eexists. split; [reflexivity|]. by split.
  - assert (Hfit0 : Forall UbntStream.fits (pre ++ post)).
    { apply Forall_app in Hfit as [? Hfit]. apply Forall_app. split; [done|].
      by apply Forall_cons in Hfit as [_ ?]. }
    rewrite !ubnt_parse_stream by done. unfold UbntStream.accumulate.
    rewrite !fold_left_app. cbn [fold_left].
    by rewrite ubnt_absorb_ip_info, (proj2 (Nat.leb_gt _ _)).
Qed.

Lemma no_mac_no_device_witness :
  Ubnt.parse_packet 7%N
    (UbntStream.frame "10.0.0.9"
       (UbntStream.header false x00 x00
        ++ UbntStream.encode [ex_host; (x01, [xaa; xbb])] ++ [x01])) = None
  ∧ Mndp.parse_packet 7%N
      (MndpStream.frame "10.0.0.9"
         (MndpStream.encode [ex_identity; (1%N, [xaa; xbb])] ++ [x01])) = None.
Proof.
  apply (no_mac_no_device 7%N "10.0.0.9" false x00 x00
           [ex_host; (x01, [xaa; xbb])] [x01]
           [ex_identity; (1%N, [xaa; xbb])] [x01]).
  - repeat constructor; reflexivity.
  - left. cbn [length]. lia.
  - repeat constructor; reflexivity.
  - repeat constructor; reflexivity.
  - left. cbn [length]. lia.
  - repeat constructor; reflexivity.
Defined.

Lemma source_address_fallback_witness :
  exists ud md,
    Ubnt.parse_packet 7%N
      (UbntStream.frame "10.0.0.9"
         (UbntStream.header false x00 x00
          ++ UbntStream.encode [(x01, ex_mac); ex_host] ++ [])) = Some ud
    ∧ Mndp.parse_packet 7%N
        (MndpStream.frame "10.0.0.9"
           (MndpStream.encode [(1%N, ex_mac); ex_identity] ++ [])) = Some md
    ∧ ip ud = "10.0.0.9" ∧ ip md = "10.0.0.9".
Proof.
  eexists _, _. split; [vm_compute; reflexivity|]. split; [vm_compute; reflexivity|].
  apply (source_address_fallback 7%N "10.0.0.9" false x00 x00
           [(x01, ex_mac); ex_host] [] _ [(1%N, ex_mac); ex_identity] []).
  - repeat constructor; reflexivity.
  - left. cbn [length]. lia.
  - repeat constructor; reflexivity.
  - repeat constructor; reflexivity.
  - left. cbn [length]. lia.
  - repeat constructor; reflexivity.
  - vm_compute; reflexivity.
  - vm_compute; reflexivity.
Defined.

Lemma unknown_tlv_ignored_witness :
  Ubnt._parse_tlv (UbntStream.encode ([(x01, ex_mac)] ++ ex_essid :: [ex_host]) ++ [])
    = Ubnt._parse_tlv (UbntStream.encode ([(x01, ex_mac)] ++ [ex_host]) ++ [])
  ∧ Mndp._parse_tlv
      (MndpStream.encode ([(1%N, ex_mac)] ++ ex_interface :: [ex_identity]) ++ [])
    = Mndp._parse_tlv (MndpStream.encode ([(1%N, ex_mac)] ++ [ex_identity]) ++ []).
Proof.
  apply (unknown_tlv_ignored [(x01, ex_mac)] [ex_host] ex_essid []
           [(1%N, ex_mac)] [ex_identity] ex_interface []).
  - repeat constructor; reflexivity.
  - left. cbn [length]. lia.
  - reflexivity.
  - repeat constructor; reflexivity.
  - left. cbn [length]. lia.
  - reflexivity.
Defined.

Lemma ubnt_model_precedence_witness :
  exists d d',
    Ubnt.parse_packet 7%N
      (UbntStream.frame "10.0.0.9"
         (UbntStream.header false x00 x00
          ++ UbntStream.encode ([(x01, ex_mac)]
                                ++ (x14, bytes_of_string "NanoStation M5")
                                   :: [(x0c, bytes_of_string "NSM5")]) ++ [])) = Some d
    ∧ Ubnt.parse_packet 7%N
        (UbntStream.frame "10.0.0.9"
           (UbntStream.header false x00 x00
            ++ UbntStream.encode ([(x01, ex_mac)]
                                  ++ (x0c, bytes_of_string "NSM5")
                                     :: [(x0c, bytes_of_string "LBE")]) ++ [])) = Some d'
    ∧ model d = "NanoStation M5" ∧ model d' = "NSM5".
Proof.
  eexists _, _. split; [vm_compute; reflexivity|]. split; [vm_compute; reflexivity|].
  apply (ubnt_model_precedence 7%N "10.0.0.9" false x00 x00
           [(x01, ex_mac)] [(x0c, bytes_of_string "NSM5")]
           [(x01, ex_mac)] [(x0c, bytes_of_string "LBE")]
           (bytes_of_string "NanoStation M5") (bytes_of_string "NSM5") [] []).
  - repeat constructor; reflexivity.
  - left. cbn [length]. lia.
  - repeat constructor; discriminate.
  - vm_compute; reflexivity.
  - repeat constructor; reflexivity.
  - left. cbn [length]. lia.
  - repeat constructor; discriminate.
  - repeat constructor; discriminate.
  - vm_compute; reflexivity.
Defined.

Lemma ubnt_ip_info_tlv_witness :
  (exists d,
      Ubnt.parse_packet 7%N
        (UbntStream.frame "10.0.0.9"
           (UbntStream.header false x00 x00
            ++ UbntStream.encode ([] ++ (x02, ex_ip_info) :: [ex_host]) ++ [])) = Some d
      ∧ mac d = format_mac (take 6 ex_ip_info)
      ∧ ip d = format_ipv4 (slice ex_ip_info 6 10))
  ∧ Ubnt._parse_tlv (UbntStream.encode ([] ++ (x02, ex_mac) :: [ex_host]) ++ [])
    = Ubnt._parse_tlv (UbntStream.encode ([] ++ [ex_host]) ++ []).
Proof.
  apply (ubnt_ip_info_tlv 7%N "10.0.0.9" false x00 x00 [] [ex_host] ex_ip_info ex_mac []).
  - repeat constructor; reflexivity.
  - repeat constructor; reflexivity.
  - left. cbn [length]. lia.
  - cbn [length ex_ip_info ex_mac app]. lia.
  - cbn [length ex_mac]. lia.
  - repeat constructor; reflexivity.
Defined.

Lemma same_record_refl (d : Device) : same_record d d.
Proof. by repeat split. Qed.

Lemma same_record_trans (a b c : Device) :
  same_record a b -> same_record b c -> same_record a c.
Proof.
  unfold same_record. intros (?&?&?&?&?&?&?) (?&?&?&?&?&?&?).
  repeat split; congruence.
Qed.

Lemma grows_refl (w : World) : grows w w.
Proof.
  repeat split; try done. intros l d Hl. exists d. split; [done|apply same_record_refl].
Qed.

Lemma grows_trans (a b c : World) : grows a b -> grows b c -> grows a c.
Proof.
  intros (?&?&?&?&?&Hk1&Hh1) (?&?&?&?&?&Hk2&Hh2).
  repeat split; try congruence.
  - intros k l Hl. by apply Hk2, Hk1.
  - intros l d Hl. destruct (Hh1 l d Hl) as (d1 & Hd1 & S1).
    destruct (Hh2 l d1 Hd1) as (d2 & Hd2 & S2).
    exists d2. split; [done|]. by eapply same_record_trans.
Qed.

Lemma grows_stdout (lines : list string) (w : World) : grows w (with_stdout lines w).
Proof.
  repeat split; try done. intros l d Hl. exists d. split; [done|apply same_record_refl].
Qed.

Section ManagerMoreFacts.
Context `{PyCase}.

Lemma refreshed_same_record (now : N) (d e : Device) : same_record e (refreshed now d e).
Proof. unfold refreshed. case_match; by repeat split. Qed.

Lemma refreshed_unique_id (now : N) (d e : Device) :
  unique_id (refreshed now d e) = unique_id e.
Proof. unfold refreshed, unique_id. by case_match. Qed.

Lemma handler_grows (t : nat) (cbs : Callbacks) (l : nat) (d : Device) (w : World) :
  passive_callbacks cbs -> lock w = unlocked -> registry_keyed w ->
  heap w !! l = Some d ->
  exists w', _on_device_discovered t cbs l w = Done tt w'
             ∧ grows w w' ∧ registry_keyed w'
             ∧ is_Some (devices w' !! unique_id d).
Proof.
  intros [Hpn Hpu] Hlock Hkeyed Hl.
  destruct (devices w !! unique_id d) as [existing|] eqn:Hk.
  - destruct (Hkeyed _ _ Hk) as (e & He & Hue).
    rewrite (discovered_again t cbs l existing d e w) by done.
    destruct (finish_passive t (on_device_update cbs) existing
                (world_at_update t existing d e w) Hpu eq_refl) as [lines ->].
    assert (Hlt : existing < length (heap w)) by (by eapply lookup_lt_Some).
    eexists. split; [reflexivity|]. split; [|split].
    + repeat split; try done.
      intros l0 d0 Hl0. cbn. destruct (decide (existing = l0)) as [<-|Hne].
      * rewrite list_lookup_insert_eq by done. eexists. split; [done|].
        rewrite He in Hl0. injection Hl0 as <-. apply refreshed_same_record.
      * rewrite list_lookup_insert_ne by done. exists d0.
        split; [done|apply same_record_refl].
    + intros k l0 Hk0. cbn in Hk0. destruct (Hkeyed _ _ Hk0) as (d0 & Hd0 & Hu0).
      cbn. destruct (decide (existing = l0)) as [<-|Hne].
      * rewrite list_lookup_insert_eq by done. eexists. split; [done|].
        rewrite refreshed_unique_id. rewrite He in Hd0. by injection Hd0 as <-.
      * rewrite list_lookup_insert_ne by done. by exists d0.
    + cbn. rewrite Hk. by eexists.
  - rewrite (discovered_new t cbs l d w) by done.
    destruct (finish_passive t (on_device cbs) l (world_at_new t l d w) Hpn eq_refl)
      as [lines ->].
    eexists. split; [reflexivity|]. split; [|split].
    + repeat split; try done.
      * intros k l0 Hk0. cbn. destruct (decide (unique_id d = k)) as [<-|Hne].
        -- congruence.
        -- by rewrite lookup_insert_ne.
      * intros l0 d0 Hl0. exists d0. split; [done|apply same_record_refl].
    + intros k l0 Hk0. cbn in Hk0. cbn.
      destruct (decide (unique_id d = k)) as [<-|Hne].
      * rewrite lookup_insert_eq in Hk0. injection Hk0 as <-. by exists d.
      * rewrite lookup_insert_ne in Hk0 by done. by apply Hkeyed.
    + cbn. rewrite lookup_insert_eq. by eexists.
Qed.

Lemma alloc_grows (d : Device) (w : World) :
  registry_keyed w ->
  grows w (with_heap (heap w ++ [d]) w)
  ∧ registry_keyed (with_heap (heap w ++ [d]) w)
  ∧ heap (with_heap (heap w ++ [d]) w) !! length (heap w) = Some d.
Proof.
  intros Hkeyed. split; [|split].
  - repeat split; try done. intros l d0 Hl. exists d0. split; [|apply same_record_refl].
    cbn. rewrite lookup_app_l; [done|]. by eapply lookup_lt_Some.
  - intros k l Hk. destruct (Hkeyed k l Hk) as (d0 & Hd0 & Hu). exists d0. split; [|done].
    cbn. rewrite lookup_app_l; [done|]. by eapply lookup_lt_Some.
  - cbn. by rewrite list_lookup_middle.
Qed.

Lemma handle_packet_grows (t : nat) (cbs : Callbacks) (s : BaseScanner) (p : Packet)
    (w : World) :
  passive_callbacks cbs -> lock w = unlocked -> registry_keyed w ->
  exists w', handle_packet t cbs s p w = Done tt w' ∧ grows w w' ∧ registry_keyed w'.
Proof.
  intros Hp Hlock Hkeyed. unfold handle_packet, try_except.
  rewrite (run_bind datetime_now _ w w (clock w) eq_refl).
  destruct (sc_parse_packet s (clock w) p) as [e|[d|]].
  - eexists. split; [reflexivity|]. split; [apply grows_stdout|exact Hkeyed].
  - rewrite (run_bind (alloc d) _ w _ (length (heap w)) eq_refl).
    destruct (alloc_grows d w Hkeyed) as (G1 & K1 & L1).
    destruct (handler_grows t cbs (length (heap w)) d (with_heap (heap w ++ [d]) w)
                Hp Hlock K1 L1)
      as (w' & -> & G2 & K2 & _).
    exists w'. split; [reflexivity|]. split; [by eapply grows_trans|done].
  - exists w. split; [reflexivity|]. split; [apply grows_refl|done].
Qed.

Lemma for_each_scanner_grows (t : nat) (cbs : Callbacks) (scs : list BaseScanner)
    (p : Packet) (w : World) :
  passive_callbacks cbs -> lock w = unlocked -> registry_keyed w ->
  exists w', for_each_scanner t cbs scs p w = Done tt w' ∧ grows w w' ∧ registry_keyed w'.
Proof.
  intros Hp. revert w. induction scs as [|s scs IH]; intros w Hlock Hkeyed.
  - exists w. split; [reflexivity|]. split; [apply grows_refl|done].
  - cbn [for_each_scanner].
    destruct (handle_packet_grows t cbs s p w Hp Hlock Hkeyed) as (w1 & E1 & G1 & K1).
    rewrite (run_bind _ _ _ _ _ E1).
    destruct (IH w1) as (w2 & E2 & G2 & K2); [|done|].
    { destruct G1 as (_&_&_&Hl&_). congruence. }
    exists w2. split; [done|]. split; [by eapply grows_trans|done].
Qed.

Lemma packet_handler_grows (t : nat) (cbs : Callbacks) (p : Packet) (w : World) :
  passive_callbacks cbs -> lock w = unlocked -> registry_keyed w ->
  exists w', _packet_handler t cbs p w = Done tt w' ∧ grows w w' ∧ registry_keyed w'.
Proof.
  intros Hp Hlock Hkeyed. unfold _packet_handler.
  rewrite (run_bind (gets scanners) _ w w (scanners w) eq_refl).
  by apply for_each_scanner_grows.
Qed.

Lemma sniff_frames_grows (t : nat) (cbs : Callbacks) (fs : list Packet) (e : capture_end)
    (w : World) :
  passive_callbacks cbs -> lock w = unlocked -> registry_keyed w ->
  exists w',
    (sniff_frames (_packet_handler t cbs) (fun _ => r ← gets running; mret (negb r)) fs e w
     = Done tt w'
     ∨ exists x, e = Raises x
         ∧ sniff_frames (_packet_handler t cbs) (fun _ => r ← gets running; mret (negb r))
             fs e w = Raised x w')
    ∧ grows w w' ∧ registry_keyed w'.
Proof.
  intros Hp. revert w. induction fs as [|p fs IH]; intros w Hlock Hkeyed.
  - exists w. split; [|split; [apply grows_refl|done]].
    destruct e as [|x]; [by left|]. right. by exists x.
  - cbn [sniff_frames].
    destruct (packet_handler_grows t cbs p w Hp Hlock Hkeyed) as (w1 & E1 & G1 & K1).
    rewrite (run_bind _ _ _ _ _ E1).
    rewrite (run_bind (r ← gets running; mret (negb r)) _ w1 w1 (negb (running w1)) eq_refl).
    destruct (negb (running w1)).
    + exists w1. split; [by left|done].
    + destruct (IH w1) as (w2 & E2 & G2 & K2); [|done|].
      { destruct G1 as (_&_&_&Hl&_). congruence. }
      exists w2. split; [exact E2|]. split; [by eapply grows_trans|done].
Qed.

(** X10.  The capture loop ends normally on every capture, whatever frames
    arrive and however the capture source ends, when the callbacks leave
    the manager alone and the lock is free at its start.  It leaves the
    running flag, the scanners and the lock as they were, removes no key of
    the registry and no object, changes of a known record at most [ip] and
    [last_seen], and keeps every key of the registry equal to the
    [unique_id] of its record. *)
Theorem sniff_loop_never_fails (t : nat) (cbs : Callbacks) (c : Capture) (w : World) :
  passive_callbacks cbs -> lock w = unlocked -> registry_keyed w ->
  exists w', _sniff_loop t cbs c w = Done tt w'
             ∧ grows w w' ∧ registry_keyed w'.
Proof.
  intros Hp Hlock Hkeyed. unfold _sniff_loop.
  rewrite (run_bind (gets scanners) _ w w (scanners w) eq_refl).
  set (line := "[Manager] Starting sniff with filter: " ++ _build_filter (scanners w)).
  rewrite (run_bind (print line) _ w (with_stdout (stdout w ++ [line]) w) tt eq_refl).
  set (w0 := with_stdout (stdout w ++ [line]) w).
  destruct (sniff_frames_grows t cbs (frames c) (ending c) w0 Hp Hlock Hkeyed)
    as (w1 & E1 & G1 & K1).
  assert (G0 : grows w w1) by (eapply grows_trans; [apply grows_stdout|exact G1]).
  unfold try_finally, try_except, sniff.
  destruct E1 as [E1|(x & _ & E1)]; rewrite E1.
  - eexists. split; [reflexivity|]. split; [|exact K1].
    eapply grows_trans; [exact G0|apply grows_stdout].
  - destruct x as [msg|msg].
    + eexists. split; [reflexivity|]. split; [|exact K1].
      eapply grows_trans; [exact G0|].
      eapply grows_trans; apply grows_stdout.
    + eexists. split; [reflexivity|]. split; [|exact K1].
      eapply grows_trans; [exact G0|].
      eapply grows_trans; apply grows_stdout.
Qed.

(** X11.  With the running flag cleared, the capture loop hands exactly one
    more frame to the scanners and stops: the frames after it and the way
    the capture source would have ended play no role. *)
Theorem sniff_loop_stops_after_one_frame (t : nat) (cbs : Callbacks) (p : Packet)
    (rest : list Packet) (e : capture_end) (w : World) :
  passive_callbacks cbs -> lock w = unlocked -> registry_keyed w ->
  running w = false ->
  _sniff_loop t cbs {| frames := p :: rest; ending := e |} w
  = _sniff_loop t cbs {| frames := [p]; ending := Returns |} w.
Proof.
  intros Hp Hlock Hkeyed Hrun. unfold _sniff_loop.
  rewrite !(run_bind (gets scanners) _ w w (scanners w) eq_refl).
  set (line := "[Manager] Starting sniff with filter: " ++ _build_filter (scanners w)).
  rewrite !(run_bind (print line) _ w (with_stdout (stdout w ++ [line]) w) tt eq_refl).
  set (w0 := with_stdout (stdout w ++ [line]) w).
  destruct (packet_handler_grows t cbs p w0 Hp Hlock Hkeyed) as (w1 & E1 & G1 & K1).
  assert (Hr1 : running w1 = false).
  { destruct G1 as (Hr&_). rewrite Hr. exact Hrun. }
  unfold try_finally, try_except, sniff. cbn [frames ending sniff_frames].
  rewrite !(run_bind _ _ _ _ _ E1).
  rewrite !(run_bind (r ← gets running; mret (negb r)) _ w1 w1 (negb (running w1)) eq_refl).
  rewrite Hr1. reflexivity.
Qed.

(** X12.  A sighting of a device that the registry already holds changes
    only the [ip] and the [last_seen] of the stored record: its [brand],
    [mac], [name], [model], [firmware], [uptime] and [discovered_at] stay
    those of the first sighting, the object of the new sighting is left
    untouched and the registry keeps its keys and references. *)
Theorem repeat_sighting_keeps_first_record (t : nat) (cbs : Callbacks) (w : World)
    (l existing : nat) (d e : Device) :
  passive_callbacks cbs -> lock w = unlocked ->
  heap w !! l = Some d -> heap w !! existing = Some e ->
  devices w !! unique_id d = Some existing -> l ≠ existing ->
  exists w' r,
    _on_device_discovered t cbs l w = Done tt w'
    ∧ devices w' = devices w
    ∧ heap w' !! l = Some d
    ∧ heap w' !! existing = Some r
    ∧ ip r = ip d ∧ last_seen r = clock w
    ∧ brand r = brand e ∧ mac r = mac e ∧ name r = name e ∧ model r = model e
    ∧ firmware r = firmware e ∧ uptime r = uptime e
    ∧ discovered_at r = discovered_at e.
Proof.
  intros [_ Hpu] Hlock Hl He Hk Hne.
  rewrite (discovered_again t cbs l existing d e w) by done.
  destruct (finish_passive t (on_device_update cbs) existing
              (world_at_update t existing d e w) Hpu eq_refl) as [lines ->].
  assert (Hlt : existing < length (heap w)) by (by eapply lookup_lt_Some).
  exists (with_stdout lines (with_lock_state unlocked (world_at_update t existing d e w))),
         (refreshed (clock w) d e).
  split; [reflexivity|]. split; [reflexivity|].
  split; [cbn; by rewrite list_lookup_insert_ne|].
  split; [cbn; by rewrite list_lookup_insert_eq|].
  unfold refreshed. destruct (bool_decide_reflect (ip e ≠ ip d)) as [Hd|Hs].
  - by repeat split.
  - assert (ip e = ip d) by (destruct (decide (ip e = ip d)); [done|by destruct Hs]).
    by repeat split.
Qed.

Lemma finish_raising (t : nat) (x : exn) (l : nat) (w : World) :
  lock w = held t 1 ->
  try_finally (notify (Some (fun _ : nat => raise x)) l) (release t) w
  = Raised x (with_lock_state unlocked w).
Proof.
  intros Hl. unfold try_finally. cbn [notify]. unfold raise at 1.
  by rewrite (run_bind (release t) _ w _ tt (release_level_1 t w Hl)).
Qed.

(** X13.  A new-device callback that raises does not lose the device and
    does not leave the lock held: [handle_packet] returns normally, the
    device is in the registry, the lock is free, and the last line of the
    output is the scanner's "Packet parsing error" line with the text of
    the exception. *)
Theorem raising_callback_keeps_device (t : nat) (s : BaseScanner) (p : Packet)
    (d : Device) (x : exn) (update_cb : option (nat -> M unit)) (w : World) :
  lock w = unlocked ->
  sc_parse_packet s (clock w) p = inr (Some d) ->
  devices w !! unique_id d = None ->
  exists w',
    handle_packet t {| on_device := Some (fun _ => raise x); on_device_update := update_cb |}
      s p w = Done tt w'
    ∧ lock w' = unlocked
    ∧ devices w' = <[unique_id d := length (heap w)]> (devices w)
    ∧ heap w' = (heap w ++ [d])%list
    ∧ last (stdout w')
      = Some ("[" ++ sc_brand s ++ "] Packet parsing error: " ++ exn_text x).
Proof.
  intros Hlock Hparse Hnone. unfold handle_packet, try_except.
  rewrite (run_bind datetime_now _ w w (clock w) eq_refl), Hparse.
  rewrite (run_bind (alloc d) _ w _ (length (heap w)) eq_refl).
  set (w1 := with_heap (heap w ++ [d]) w).
  assert (Hl1 : heap w1 !! length (heap w) = Some d) by (cbn; by rewrite list_lookup_middle).
  rewrite (discovered_new t _ (length (heap w)) d w1 Hlock Hl1 Hnone).
  cbn [on_device]. rewrite finish_raising by reflexivity.
  eexists. split; [reflexivity|]. split; [reflexivity|]. split; [reflexivity|].
  split; [reflexivity|]. cbn. by rewrite last_snoc.
Qed.

Lemma handle_packet_none (t : nat) (cbs : Callbacks) (s : BaseScanner) (p : Packet)
    (w : World) :
  sc_parse_packet s (clock w) p = inr None -> handle_packet t cbs s p w = Done tt w.
Proof.
  intros Hn. unfold handle_packet, try_except.
  by rewrite (run_bind datetime_now _ w w (clock w) eq_refl), Hn.
Qed.

(** X14.  One scanner does not disturb the next: when a scanner's decoder
    raises on a frame, the frame is routed to the remaining scanners as if
    that scanner were absent, in a state that differs only by the error
    line on the output; when its decoder returns [None], in the same
    state. *)
Theorem scanner_failure_is_isolated (t : nat) (cbs : Callbacks) (s : BaseScanner)
    (rest : list BaseScanner) (p : Packet) (w : World) :
  (forall x, sc_parse_packet s (clock w) p = inl x ->
     for_each_scanner t cbs (s :: rest) p w
     = for_each_scanner t cbs rest p
         (with_stdout
            (stdout w ++ ["[" ++ sc_brand s ++ "] Packet parsing error: " ++ exn_text x]) w))
  ∧ (sc_parse_packet s (clock w) p = inr None ->
     for_each_scanner t cbs (s :: rest) p w = for_each_scanner t cbs rest p w).
Proof.
  split.
  - intros x Hx. cbn [for_each_scanner].
    erewrite run_bind; [reflexivity|].
    unfold handle_packet, try_except.
    by rewrite (run_bind datetime_now _ w w (clock w) eq_refl), Hx.
  - intros Hn. cbn [for_each_scanner].
    erewrite run_bind; [reflexivity|].
    unfold handle_packet, try_except.
    by rewrite (run_bind datetime_now _ w w (clock w) eq_refl), Hn.
Qed.

(** X15.  With the Ubiquiti and MNDP scanners registered, a frame without a
    UDP layer, or whose UDP ports are neither 10001 nor 5678, leaves the
    whole state of the manager as it was, output included. *)
Theorem foreign_frame_is_ignored (t : nat) (cbs : Callbacks) (p : Packet) (w : World) :
  scanners w = [UbiquitiScanner; MNDPScanner] ->
  (forall u, udp_layer p = Some u ->
             sport u ≠ 10001%Z ∧ dport u ≠ 10001%Z ∧ sport u ≠ 5678%Z ∧ dport u ≠ 5678%Z) ->
  _packet_handler t cbs p w = Done tt w.
Proof.
  intros Hs Hports. unfold _packet_handler.
  rewrite (run_bind (gets scanners) _ w w (scanners w) eq_refl), Hs.
  assert (Hu : Ubnt.parse_packet (clock w) p = None).
  { unfold Ubnt.parse_packet. destruct (ip_layer p); [|done].
    destruct (udp_layer p) as [u|]; [|done].
    destruct (Hports u eq_refl) as (P1 & P2 & _).
    apply Z.eqb_neq in P1, P2. unfold Ubnt.port. by rewrite P1, P2. }
  assert (Hm : Mndp.parse_packet (clock w) p = None).
  { unfold Mndp.parse_packet. destruct (ip_layer p); [|done].
    destruct (udp_layer p) as [u|]; [|done].
    destruct (Hports u eq_refl) as (_ & _ & P1 & P2).
    apply Z.eqb_neq in P1, P2. unfold Mndp.port. by rewrite P1, P2. }
  cbn [for_each_scanner].
  rewrite (run_bind _ _ w w tt (handle_packet_none t cbs UbiquitiScanner p w
                                  ltac:(cbn; by rewrite Hu))).
  rewrite (run_bind _ _ w w tt (handle_packet_none t cbs MNDPScanner p w
                                  ltac:(cbn; by rewrite Hm))).
  reflexivity.
Qed.

Lemma with_lock_done {A : Type} (t : nat) (m : M A) (a : A) (w w' : World) :
  lock w = unlocked -> m (with_lock_state (held t 1) w) = Done a w' ->
  lock w' = held t 1 ->
  with_lock t m w = Done a (with_lock_state unlocked w').
Proof.
  intros Hl Hm Hl'. rewrite with_lock_unlocked by done. unfold try_finally. rewrite Hm.
  by rewrite (run_bind (release t) _ w' _ tt (release_level_1 t w' Hl')).
Qed.

Lemma clear_devices_ok (t : nat) (w : World) :
  lock w = unlocked ->
  clear_devices t w
  = Done tt (with_stdout (stdout w ++ ["[Manager] Device list cleared"])
               (with_devices ∅ w)).
Proof.
  intros Hl. unfold clear_devices.
  rewrite (run_bind _ _ w _ tt
             (with_lock_done t (modify (with_devices ∅)) tt w _ Hl eq_refl eq_refl)).
  cbn. rewrite <- Hl. by destruct w.
Qed.

(** X16.  [clear_devices] empties the registry and nothing else: the count
    is 0 and [get_devices] is the empty list afterwards, the objects and
    the running flag stay; a device sighted after it is registered as a new
    device, also when it was known before. *)
Theorem clear_then_rediscover (t : nat) (cbs : Callbacks) (w : World) (l : nat)
    (d : Device) :
  passive_callbacks cbs -> lock w = unlocked -> heap w !! l = Some d ->
  exists w1 w2,
    clear_devices t w = Done tt w1
    ∧ devices w1 = ∅ ∧ heap w1 = heap w ∧ running w1 = running w
    ∧ get_device_count t w1 = Done 0 w1
    ∧ get_devices t w1 = Done [] w1
    ∧ _on_device_discovered t cbs l w1 = Done tt w2
    ∧ devices w2 = {[ unique_id d := l ]}
    ∧ heap w2 !! l = Some d.
Proof.
  intros [Hpn _] Hlock Hl.
  rewrite clear_devices_ok by done.
  set (w1 := with_stdout _ (with_devices ∅ w)).
  assert (Hlock1 : lock w1 = unlocked) by exact Hlock.
  assert (Hl1 : heap w1 !! l = Some d) by exact Hl.
  assert (Hnone : devices w1 !! unique_id d = None) by apply lookup_empty.
  pose proof (discovered_new t cbs l d w1 Hlock1 Hl1 Hnone) as Step.
  destruct (finish_passive t (on_device cbs) l (world_at_new t l d w1) Hpn eq_refl)
    as [lines Fin].
  rewrite Fin in Step.
  eexists w1, _. split; [reflexivity|]. split; [reflexivity|].
  split; [reflexivity|]. split; [reflexivity|].
  split; [rewrite get_device_count_ok by (by left); reflexivity|].
  split; [rewrite get_devices_ok by (by left); cbn; by rewrite map_to_list_empty|].
  split; [exact Step|]. split; [reflexivity|exact Hl].
Qed.

(** X17.  In a registry whose keys are the [unique_id]s of their records,
    [get_devices] returns every record once: its list has no duplicate
    reference, refers only to existing objects, and is as long as
    [get_device_count] says; neither call changes the state. *)
Theorem get_devices_lists_each_record_once (t : nat) (w : World) :
  lockable t w -> registry_keyed w ->
  exists ls,
    get_devices t w = Done ls w
    ∧ get_device_count t w = Done (length ls) w
    ∧ NoDup ls
    ∧ Forall (fun l : nat => is_Some (heap w !! l)) ls.
Proof.
  intros Hl Hkeyed. exists ((map_to_list (devices w)).*2).
  split; [by apply get_devices_ok|].
  split; [rewrite get_device_count_ok by done; by rewrite length_fmap, length_map_to_list|].
  split.
  - apply NoDup_fmap_2_strong; [|apply NoDup_map_to_list].
    intros [k1 l1] [k2 l2] H1 H2 E. cbn in E. subst l2.
    apply elem_of_map_to_list in H1, H2.
    destruct (Hkeyed _ _ H1) as (d1 & Hd1 & <-).
    destruct (Hkeyed _ _ H2) as (d2 & Hd2 & <-).
    rewrite Hd1 in Hd2. by injection Hd2 as <-.
  - apply Forall_forall. intros l Hin. apply list_elem_of_fmap in Hin as ([k l'] & -> & Hin).
    apply elem_of_map_to_list in Hin. destruct (Hkeyed _ _ Hin) as (d & Hd & _). by eexists.
Qed.

End ManagerMoreFacts.

(** X18.  [start] on a running manager only prints "Already running";
    [stop] clears the running flag, and a [start] after it sets the flag and
    a live capture thread again, with the registry, the objects, the lock
    and the scanners as they were before. *)
Theorem stop_then_start (w : World) :
  running w = true ->
  exists w1 w2,
    start w = Done tt (with_stdout (stdout w ++ ["[Manager] Already running"]) w)
    ∧ stop w = Done tt w1 ∧ running w1 = false
    ∧ start w1 = Done tt w2
    ∧ running w2 = true ∧ sniff_thread w2 = Alive
    ∧ devices w2 = devices w ∧ heap w2 = heap w ∧ lock w2 = lock w
    ∧ scanners w2 = scanners w.
Proof.
  intros Hr.
  set (w1 := with_stdout (stdout w ++ ["[Manager] Scanner stopped"]) (with_running false w)).
  assert (Hstart : exists w2, start w1 = Done tt w2
                     ∧ running w2 = true ∧ sniff_thread w2 = Alive
                     ∧ devices w2 = devices w ∧ heap w2 = heap w ∧ lock w2 = lock w
                     ∧ scanners w2 = scanners w).
  { unfold start.
    rewrite (run_bind (gets running) _ w1 w1 false eq_refl).
    rewrite (run_bind (gets scanners) _ w1 w1 (scanners w) eq_refl).
    destruct (scanners w) as [|s scs] eqn:Hs;
      (eexists; split; [reflexivity|]); by repeat split. }
  destruct Hstart as (w2 & Hstart & Hrest).
  exists w1, w2.
  split.
  { unfold start.
    by rewrite (run_bind (gets running) _ w w true) by (unfold gets; by rewrite Hr). }
  split; [reflexivity|]. split; [reflexivity|]. split; [exact Hstart|exact Hrest].
Qed.

Section CaptureFacts.
Context `{PyCase}.

Lemma handle_packet_new (t : nat) (cbs : Callbacks) (s : BaseScanner) (p : Packet)
    (d : Device) (w : World) :
  passive_callbacks cbs -> lock w = unlocked ->
  sc_parse_packet s (clock w) p = inr (Some d) ->
  devices w !! unique_id d = None ->
  exists lines,
    handle_packet t cbs s p w
    = Done tt (with_stdout lines
                 (with_lock_state unlocked
                    (world_at_new t (length (heap w)) d (with_heap (heap w ++ [d]) w)))).
Proof.
  intros [Hpn _] Hlock Hparse Hnone. unfold handle_packet, try_except.
  rewrite (run_bind datetime_now _ w w (clock w) eq_refl), Hparse.
  rewrite (run_bind (alloc d) _ w _ (length (heap w)) eq_refl).
  set (w1 := with_heap (heap w ++ [d]) w).
  assert (Hl1 : heap w1 !! length (heap w) = Some d) by (cbn; by rewrite list_lookup_middle).
  rewrite (discovered_new t cbs (length (heap w)) d w1 Hlock Hl1 Hnone).
  destruct (finish_passive t (on_device cbs) (length (heap w))
              (world_at_new t (length (heap w)) d w1) Hpn eq_refl) as [lines ->].
  by exists lines.
Qed.

End CaptureFacts.

(** X19.  End to end: when the capture source of a default manager delivers
    one Ubiquiti announcement of a device that the registry does not hold,
    the capture loop ends normally with that device registered under the
    text of its hardware address, as one new object carrying the announced
    hostname, model, firmware and uptime and the frame's source address;
    the lock is free and the running flag as before. *)
Theorem captured_ubiquiti_frame_is_registered (t : nat) (cbs : Callbacks) (w : World)
    (source : string) (v2 : bool) (b2 b3 : byte)
    (mac6 : bytes) (firmware_text hostname model_text : string) (seconds : N) :
  passive_callbacks cbs -> lock w = unlocked ->
  scanners w = [UbiquitiScanner; MNDPScanner] ->
  devices w !! format_mac mac6 = None ->
  length mac6 = 6 ->
  plain_text firmware_text = true -> (N.of_nat (String.length firmware_text) < 65536)%N ->
  plain_text hostname = true -> (N.of_nat (String.length hostname) < 65536)%N ->
  plain_text model_text = true -> (N.of_nat (String.length model_text) < 65536)%N ->
  (seconds < 4294967296)%N ->
  exists w',
    _sniff_loop t cbs
      {| frames :=
           [UbntStream.frame source
              (UbntStream.header v2 b2 b3
               ++ UbntStream.encode [(x01, mac6);
                                     (x03, bytes_of_string firmware_text);
                                     (x0b, bytes_of_string hostname);
                                     (x14, bytes_of_string model_text);
                                     (x0e, pack_BE_I seconds)])];
         ending := Returns |} w
    = Done tt w'
    ∧ devices w' = <[format_mac mac6 := length (heap w)]> (devices w)
    ∧ heap w'
      = (heap w ++ [new_Device (clock w) "Ubiquiti" source (format_mac mac6) hostname
                      model_text firmware_text seconds])%list
    ∧ lock w' = unlocked ∧ running w' = running w.
Proof.
  intros Hp Hlock Hscs Hnone Hmac Pf Lf Ph Lh Pm Lm Hs.
  set (p := UbntStream.frame source _).
  set (d := new_Device (clock w) "Ubiquiti" source (format_mac mac6) hostname
              model_text firmware_text seconds).
  assert (Hcanon : canonical_mac (format_mac mac6)).
  { rewrite <- (take_ge mac6 6) by lia. apply take6_canonical. lia. }
  assert (Huid : unique_id d = format_mac mac6).
  { unfold unique_id. cbn. by apply canonical_mac_upper. }
  unfold _sniff_loop.
  rewrite (run_bind (gets scanners) _ w w (scanners w) eq_refl).
  set (line := "[Manager] Starting sniff with filter: " ++ _build_filter (scanners w)).
  rewrite (run_bind (print line) _ w (with_stdout (stdout w ++ [line]) w) tt eq_refl).
  set (w0 := with_stdout (stdout w ++ [line]) w).
  assert (Hparse : sc_parse_packet UbiquitiScanner (clock w0) p = inr (Some d)).
  { cbn [sc_parse_packet UbiquitiScanner]. f_equal. by apply ubnt_decode_encoded. }
  destruct (handle_packet_new t cbs UbiquitiScanner p d w0 Hp Hlock Hparse)
    as [lines E1].
  { exact (eq_ind_r (fun k => devices w !! k = None) Hnone Huid). }
  set (w2 := with_stdout lines _) in E1.
  assert (E2 : handle_packet t cbs MNDPScanner p w2 = Done tt w2)
    by (by apply handle_packet_none).
  assert (Eh : _packet_handler t cbs p w0 = Done tt w2).
  { unfold _packet_handler.
    rewrite (run_bind (gets scanners) _ w0 w0 (scanners w) eq_refl), Hscs.
    cbn [for_each_scanner].
    rewrite (run_bind _ _ _ _ _ E1), (run_bind _ _ _ _ _ E2). reflexivity. }
  unfold try_finally, try_except, sniff. cbn [frames ending sniff_frames].
  rewrite (run_bind _ _ _ _ _ Eh).
  rewrite (run_bind (r ← gets running; mret (negb r)) _ w2 w2 (negb (running w2)) eq_refl).
  exists (with_stdout (stdout w2 ++ ["[Manager] Sniff loop ended"]) w2).
  split; [by destruct (negb (running w2))|].
  split; [rewrite <- Huid; reflexivity|]. by repeat split.
Qed.

Lemma create_default_manager_scanners `{PyCase} (w : World) :
  scanners w = [] ->
  exists w',
    create_default_manager w = Done tt w'
    ∧ scanners w' = [UbiquitiScanner; MNDPScanner]
    ∧ _build_filter (scanners w') = "udp and (port 10001 or port 5678)"
    ∧ devices w' = devices w ∧ heap w' = heap w ∧ lock w' = lock w
    ∧ running w' = running w.
Proof.
  intros Hs. eexists. split; [reflexivity|]. cbn. rewrite Hs. repeat split.
Qed.

Lemma no_callbacks_passive : passive_callbacks no_callbacks.
Proof. split; intros f Hf; discriminate. Qed.

Lemma empty_registry_keyed `{PyCase} (w : World) : devices w = ∅ -> registry_keyed w.
Proof. intros He k l Hk. rewrite He in Hk. by rewrite lookup_empty in Hk. Qed.

Lemma one_device_world_keyed : registry_keyed one_device_world.
Proof.
  intros k l Hk. cbn in Hk. apply lookup_singleton_Some in Hk as [<- <-].
  by exists second_sighting.
Qed.

Lemma sniff_loop_never_fails_witness :
  exists w',
    _sniff_loop 1 no_callbacks
      {| frames := [ubnt_announcement; dns_frame];
         ending := Raises (Exception "device removed") |} default_world
    = Done tt w'
    ∧ grows default_world w' ∧ registry_keyed w'.
Proof.
  apply (sniff_loop_never_fails 1 no_callbacks
           {| frames := [ubnt_announcement; dns_frame];
              ending := Raises (Exception "device removed") |} default_world).
  - apply no_callbacks_passive.
  - reflexivity.
  - by apply empty_registry_keyed.
Defined.

Lemma sniff_loop_stops_after_one_frame_witness :
  _sniff_loop 1 no_callbacks
    {| frames := ubnt_announcement :: [dns_frame; ubnt_announcement];
       ending := Raises (PermissionError "denied") |}
    (with_running false default_world)
  = _sniff_loop 1 no_callbacks
      {| frames := [ubnt_announcement]; ending := Returns |}
      (with_running false default_world).
Proof.
  apply (sniff_loop_stops_after_one_frame 1 no_callbacks ubnt_announcement
           [dns_frame; ubnt_announcement] (Raises (PermissionError "denied"))
           (with_running false default_world)).
  - apply no_callbacks_passive.
  - reflexivity.
  - by apply empty_registry_keyed.
  - reflexivity.
Defined.

Lemma repeat_sighting_keeps_first_record_witness :
  exists w' r,
    _on_device_discovered 1 no_callbacks 1 resighting_world = Done tt w'
    ∧ devices w' = devices resighting_world
    ∧ heap w' !! 1 = Some later_sighting
    ∧ heap w' !! 0 = Some r
    ∧ ip r = ip later_sighting ∧ last_seen r = clock resighting_world
    ∧ brand r = brand second_sighting ∧ mac r = mac second_sighting
    ∧ name r = name second_sighting ∧ model r = model second_sighting
    ∧ firmware r = firmware second_sighting ∧ uptime r = uptime second_sighting
    ∧ discovered_at r = discovered_at second_sighting.
Proof.
  apply (repeat_sighting_keeps_first_record 1 no_callbacks resighting_world 1 0
           later_sighting second_sighting).
  - apply no_callbacks_passive.
  - reflexivity.
  - reflexivity.
  - reflexivity.
  - reflexivity.
  - discriminate.
Defined.

Lemma raising_callback_keeps_device_witness :
  exists w',
    handle_packet 1
      {| on_device := Some (fun _ => raise (Exception "widget destroyed"));
         on_device_update := None |}
      UbiquitiScanner ubnt_announcement default_world = Done tt w'
    ∧ lock w' = unlocked
    ∧ devices w'
      = <[unique_id (new_Device 170 "Ubiquiti" "10.0.0.9" "AA:BB:CC:DD:EE:FF" "AP1" "" "" 0%N)
          := length (heap default_world)]> (devices default_world)
    ∧ heap w'
      = (heap default_world
         ++ [new_Device 170 "Ubiquiti" "10.0.0.9" "AA:BB:CC:DD:EE:FF" "AP1" "" "" 0%N])%list
    ∧ last (stdout w')
      = Some ("[" ++ sc_brand UbiquitiScanner ++ "] Packet parsing error: "
              ++ exn_text (Exception "widget destroyed")).
Proof.
  apply (raising_callback_keeps_device 1 UbiquitiScanner ubnt_announcement
           (new_Device 170 "Ubiquiti" "10.0.0.9" "AA:BB:CC:DD:EE:FF" "AP1" "" "" 0%N)
           (Exception "widget destroyed") None default_world).
  - reflexivity.
  - vm_compute; reflexivity.
  - reflexivity.
Defined.

Lemma scanner_failure_is_isolated_witness :
  for_each_scanner 1 no_callbacks (broken_scanner :: [UbiquitiScanner]) ubnt_announcement
    default_world
  = for_each_scanner 1 no_callbacks [UbiquitiScanner] ubnt_announcement
      (with_stdout
         (stdout default_world
          ++ ["[" ++ sc_brand broken_scanner ++ "] Packet parsing error: "
              ++ exn_text (Exception "index out of range")]) default_world)
  ∧ for_each_scanner 1 no_callbacks (MNDPScanner :: [UbiquitiScanner]) ubnt_announcement
      default_world
    = for_each_scanner 1 no_callbacks [UbiquitiScanner] ubnt_announcement default_world.
Proof.
  split.
  - apply (proj1 (scanner_failure_is_isolated 1 no_callbacks broken_scanner
                    [UbiquitiScanner] ubnt_announcement default_world)).
    reflexivity.
  - apply (proj2 (scanner_failure_is_isolated 1 no_callbacks MNDPScanner
                    [UbiquitiScanner] ubnt_announcement default_world)).
    reflexivity.
Defined.

Lemma foreign_frame_is_ignored_witness :
  _packet_handler 1 probing dns_frame default_world = Done tt default_world.
Proof.
  apply (foreign_frame_is_ignored 1 probing dns_frame default_world).
  - reflexivity.
  - intros u Hu. injection Hu as <-. cbn. repeat split; discriminate.
Defined.

Lemma clear_then_rediscover_witness :
  exists w1 w2,
    clear_devices 1 one_device_world = Done tt w1
    ∧ devices w1 = ∅ ∧ heap w1 = heap one_device_world
    ∧ running w1 = running one_device_world
    ∧ get_device_count 1 w1 = Done 0 w1
    ∧ get_devices 1 w1 = Done [] w1
    ∧ _on_device_discovered 1 no_callbacks 0 w1 = Done tt w2
    ∧ devices w2 = {[ unique_id second_sighting := 0 ]}
    ∧ heap w2 !! 0 = Some second_sighting.
Proof.
  apply (clear_then_rediscover 1 no_callbacks one_device_world 0 second_sighting).
  - apply no_callbacks_passive.
  - reflexivity.
  - reflexivity.
Defined.

Lemma get_devices_lists_each_record_once_witness :
  exists ls,
    get_devices 1 one_device_world = Done ls one_device_world
    ∧ get_device_count 1 one_device_world = Done (length ls) one_device_world
    ∧ NoDup ls
    ∧ Forall (fun l : nat => is_Some (heap one_device_world !! l)) ls.
Proof.
  apply (get_devices_lists_each_record_once 1 one_device_world).
  - left. reflexivity.
  - apply one_device_world_keyed.
Defined.

Lemma stop_then_start_witness :
  exists w1 w2,
    start default_world
    = Done tt (with_stdout (stdout default_world ++ ["[Manager] Already running"])
                 default_world)
    ∧ stop default_world = Done tt w1 ∧ running w1 = false
    ∧ start w1 = Done tt w2
    ∧ running w2 = true ∧ sniff_thread w2 = Alive
    ∧ devices w2 = devices default_world ∧ heap w2 = heap default_world
    ∧ lock w2 = lock default_world
    ∧ scanners w2 = scanners default_world.
Proof.
  apply (stop_then_start default_world). reflexivity.
Defined.

Lemma captured_ubiquiti_frame_is_registered_witness :
  exists w',
    _sniff_loop 1 no_callbacks
      {| frames :=
           [UbntStream.frame "10.0.0.9"
              (UbntStream.header true x00 x00
               ++ UbntStream.encode [(x01, ex_mac);
                                     (x03, bytes_of_string "XM.v6.1.7");
                                     (x0b, bytes_of_string "Rooftop-North");
                                     (x14, bytes_of_string "NanoStation M5");
                                     (x0e, pack_BE_I 86400)])];
         ending := Returns |} default_world
    = Done tt w'
    ∧ devices w' = <[format_mac ex_mac := length (heap default_world)]> (devices default_world)
    ∧ heap w'
      = (heap default_world
         ++ [new_Device (clock default_world) "Ubiquiti" "10.0.0.9" (format_mac ex_mac)
               "Rooftop-North" "NanoStation M5" "XM.v6.1.7" 86400])%list
    ∧ lock w' = unlocked ∧ running w' = running default_world.
Proof.
  apply (captured_ubiquiti_frame_is_registered 1 no_callbacks default_world "10.0.0.9"
           true x00 x00 ex_mac "XM.v6.1.7" "Rooftop-North" "NanoStation M5" 86400%N);
    try reflexivity.
  apply no_callbacks_passive.
Defined.

(** ** A MAC TLV that is too short *)

Lemma ubnt_parse_tlv_short (data : bytes) : length data < 3 -> Ubnt._parse_tlv data = Ubnt.empty.
Proof.
  intros Hl. change data with (UbntStream.encode [] ++ data)%list.
  rewrite ubnt_parse_stream; [reflexivity|constructor|by left].
Qed.

Lemma mndp_parse_tlv_short (data : bytes) : length data < 4 -> Mndp._parse_tlv data = Mndp.empty.
Proof.
  intros Hl. change data with (MndpStream.encode [] ++ data)%list.
  rewrite mndp_parse_stream; [reflexivity|constructor|by left].
Qed.

Lemma ubnt_parse_short_payload (now : N) (source : string) (v2 : bool) (b2 b3 : byte)
    (stream : bytes) :
  length stream < 2 ->
  Ubnt.parse_packet now (UbntStream.frame source (UbntStream.header v2 b2 b3 ++ stream)) = None.
Proof.
  intros Hl. unfold Ubnt.parse_packet, UbntStream.frame.
  cbn [ip_layer udp_layer sport dport load src].
  change (negb (Ubnt.port =? Ubnt.port)%Z && negb (Ubnt.port =? Ubnt.port)%Z) with false.
  cbv iota.
  rewrite (proj2 (Nat.ltb_lt _ _)); [reflexivity|].
  rewrite length_app. destruct v2; cbn [UbntStream.header length]; lia.
Qed.

Lemma ubnt_frame_congr (now : N) (source : string) (v2 : bool) (b2 b3 : byte)
    (stream stream' : bytes) :
  2 <= length stream ->
  Ubnt._parse_tlv stream = Ubnt._parse_tlv stream' ->
  Ubnt.parse_packet now (UbntStream.frame source (UbntStream.header v2 b2 b3 ++ stream))
  = Ubnt.parse_packet now (UbntStream.frame source (UbntStream.header v2 b2 b3 ++ stream')).
Proof.
  intros Hl He.
  destruct (decide (2 <= length stream')) as [Hl'|Hl'].
  - rewrite !ubnt_parse_frame by done. by rewrite He.
  - rewrite (ubnt_parse_short_payload _ _ _ _ _ stream') by lia.
    rewrite ubnt_parse_frame by done. rewrite He, ubnt_parse_tlv_short by lia.
    reflexivity.
Qed.

Lemma ubnt_encode_length_pos (ts : list UbntStream.tlv) :
  ts ≠ [] -> 3 <= length (UbntStream.encode ts).
Proof.
  destruct ts as [|t ts]; [done|]. intros _.
  rewrite ubnt_encode_cons, length_app, ubnt_encode_tlv_length. lia.
Qed.

Lemma mndp_encode_length_pos (ts : list MndpStream.tlv) :
  ts ≠ [] -> 4 <= length (MndpStream.encode ts).
Proof.
  destruct ts as [|t ts]; [done|]. intros _.
  rewrite mndp_encode_cons, length_app, mndp_encode_tlv_length. lia.
Qed.

Lemma Forall_fits_remove {A : Type} (P : A -> Prop) (pre post : list A) (x : A) :
  Forall P (pre ++ x :: post) -> Forall P (pre ++ post).
Proof.
  intros Hf. apply Forall_app in Hf as [? Hf]. apply Forall_app. split; [done|].
  by apply Forall_cons in Hf as [_ ?].
Qed.

Section ShortMacFacts.
Context `{PyCase}.

Lemma mndp_parse_short_payload (now : N) (source : string) (payload : bytes) :
  length payload < 4 ->
  Mndp.parse_packet now (MndpStream.frame source payload) = None.
Proof.
  intros Hl. unfold Mndp.parse_packet, MndpStream.frame.
  cbn [ip_layer udp_layer sport dport load src].
  change (negb (Mndp.port =? Mndp.port)%Z && negb (Mndp.port =? Mndp.port)%Z) with false.
  cbv iota.
  by rewrite (proj2 (Nat.ltb_lt _ _)).
Qed.

Lemma mndp_frame_congr (now : N) (source : string) (payload payload' : bytes) :
  4 <= length payload ->
  Mndp._parse_tlv payload = Mndp._parse_tlv payload' ->
  Mndp.parse_packet now (MndpStream.frame source payload)
  = Mndp.parse_packet now (MndpStream.frame source payload').
Proof.
  intros Hl He.
  destruct (decide (4 <= length payload')) as [Hl'|Hl'].
  - rewrite !mndp_parse_frame by done. by rewrite He.
  - rewrite (mndp_parse_short_payload _ _ payload') by lia.
    rewrite mndp_parse_frame by done. rewrite He, mndp_parse_tlv_short by lia.
    reflexivity.
Qed.

(** C10.  In both decoders a MAC TLV whose value has fewer than 6 bytes is
    skipped, wherever it stands in the stream and however the stream ends:
    the stream parses, and the frame decodes, to what it does without that
    TLV; when no other TLV gives a hardware address the MAC field stays
    unset and no device is returned; and a later MAC TLV of 6 bytes or more
    is still read, so that the decode returns a [Device] whose [mac] is the
    text of the first six bytes of the last such TLV. *)
Theorem short_mac_tlv_skipped (now : N) (source : string) (v2 : bool) (b2 b3 : byte)
    (short : bytes)
    (upre upost : list UbntStream.tlv) (utail : bytes)
    (mpre mpost : list MndpStream.tlv) (mtail : bytes) :
  length short < 6 ->
  Forall UbntStream.fits (upre ++ (x01, short) :: upost) -> ubnt_stops utail ->
  Forall MndpStream.fits (mpre ++ (1%N, short) :: mpost) -> mndp_stops mtail ->
  (* the TLV changes nothing: the stream parses as it does without it *)
  Ubnt._parse_tlv (UbntStream.encode (upre ++ (x01, short) :: upost) ++ utail)
    = Ubnt._parse_tlv (UbntStream.encode (upre ++ upost) ++ utail)
  ∧ Mndp._parse_tlv (MndpStream.encode (mpre ++ (1%N, short) :: mpost) ++ mtail)
    = Mndp._parse_tlv (MndpStream.encode (mpre ++ mpost) ++ mtail)
  ∧ Ubnt.parse_packet now
      (UbntStream.frame source
         (UbntStream.header v2 b2 b3
          ++ UbntStream.encode (upre ++ (x01, short) :: upost) ++ utail))
    = Ubnt.parse_packet now
        (UbntStream.frame source
           (UbntStream.header v2 b2 b3 ++ UbntStream.encode (upre ++ upost) ++ utail))
  ∧ Mndp.parse_packet now
      (MndpStream.frame source (MndpStream.encode (mpre ++ (1%N, short) :: mpost) ++ mtail))
    = Mndp.parse_packet now
        (MndpStream.frame source (MndpStream.encode (mpre ++ mpost) ++ mtail))
  (* it does not set the MAC field: with no other source of a MAC, none *)
  ∧ (Forall (fun t => ubnt_sets_mac t = false) (upre ++ upost) ->
     Ubnt.r_mac (Ubnt._parse_tlv
                   (UbntStream.encode (upre ++ (x01, short) :: upost) ++ utail)) = None
     ∧ Ubnt.parse_packet now
         (UbntStream.frame source
            (UbntStream.header v2 b2 b3
             ++ UbntStream.encode (upre ++ (x01, short) :: upost) ++ utail)) = None)
  ∧ (Forall (fun t => mndp_sets_mac t = false) (mpre ++ mpost) ->
     Mndp.r_mac (Mndp._parse_tlv
                   (MndpStream.encode (mpre ++ (1%N, short) :: mpost) ++ mtail)) = None
     ∧ Mndp.parse_packet now
         (MndpStream.frame source
            (MndpStream.encode (mpre ++ (1%N, short) :: mpost) ++ mtail)) = None)
  (* a later well-formed MAC TLV is still read and gives the device its MAC *)
  ∧ (forall (mid rest : list UbntStream.tlv) (good : bytes),
       upost = (mid ++ (x01, good) :: rest)%list -> 6 <= length good ->
       Forall (fun t => ubnt_sets_mac t = false) rest ->
       exists d,
         Ubnt.parse_packet now
           (UbntStream.frame source
              (UbntStream.header v2 b2 b3
               ++ UbntStream.encode (upre ++ (x01, short) :: upost) ++ utail)) = Some d
         ∧ mac d = format_mac (take 6 good))
  ∧ (forall (mid rest : list MndpStream.tlv) (good : bytes),
       mpost = (mid ++ (1%N, good) :: rest)%list -> 6 <= length good ->
       Forall (fun t => mndp_sets_mac t = false) rest ->
       exists d,
         Mndp.parse_packet now
           (MndpStream.frame source
              (MndpStream.encode (mpre ++ (1%N, short) :: mpost) ++ mtail)) = Some d
         ∧ mac d = format_mac (take 6 good)).
Proof.
  intros Hshort Hu Hut Hm Hmt.
  pose proof (Forall_fits_remove _ _ _ _ Hu) as Hu'.
  pose proof (Forall_fits_remove _ _ _ _ Hm) as Hm'.
  assert (Eu : UbntStream.accumulate (upre ++ (x01, short) :: upost)
               = UbntStream.accumulate (upre ++ upost)).
  { unfold UbntStream.accumulate. rewrite !fold_left_app. cbn [fold_left].
    by rewrite ubnt_absorb_short_mac. }
  assert (Em : MndpStream.accumulate (mpre ++ (1%N, short) :: mpost)
               = MndpStream.accumulate (mpre ++ mpost)).
  { unfold MndpStream.accumulate. rewrite !fold_left_app. cbn [fold_left].
    by rewrite mndp_absorb_short_mac. }
  assert (Pu : Ubnt._parse_tlv (UbntStream.encode (upre ++ (x01, short) :: upost) ++ utail)
               = Ubnt._parse_tlv (UbntStream.encode (upre ++ upost) ++ utail)).
  { by rewrite !ubnt_parse_stream. }
  assert (Pm : Mndp._parse_tlv (MndpStream.encode (mpre ++ (1%N, short) :: mpost) ++ mtail)
               = Mndp._parse_tlv (MndpStream.encode (mpre ++ mpost) ++ mtail)).
  { by rewrite !mndp_parse_stream. }
  assert (Lu : 3 <= length (UbntStream.encode (upre ++ (x01, short) :: upost) ++ utail)).
  { rewrite length_app.
    pose proof (ubnt_encode_length_pos (upre ++ (x01, short) :: upost)) as Hp.
    assert ((upre ++ (x01, short) :: upost)%list ≠ []) by (by destruct upre).
    specialize (Hp ltac:(done)). lia. }
  assert (Lm : 4 <= length (MndpStream.encode (mpre ++ (1%N, short) :: mpost) ++ mtail)).
  { rewrite length_app.
    pose proof (mndp_encode_length_pos (mpre ++ (1%N, short) :: mpost)) as Hp.
    assert ((mpre ++ (1%N, short) :: mpost)%list ≠ []) by (by destruct mpre).
    specialize (Hp ltac:(done)). lia. }
  split; [exact Pu|]. split; [exact Pm|].
  split; [apply ubnt_frame_congr; [lia|exact Pu]|].
  split; [apply mndp_frame_congr; [lia|exact Pm]|].
  split; [|split; [|split]].
  - intros Hno.
    assert (Hr : Ubnt.r_mac (Ubnt._parse_tlv
                   (UbntStream.encode (upre ++ (x01, short) :: upost) ++ utail)) = None).
    { rewrite Pu, ubnt_parse_stream by done. unfold UbntStream.accumulate.
      rewrite (fold_left_keeps UbntStream.absorb Ubnt.r_mac
                 (fun t => ubnt_sets_mac t = false)); [reflexivity| |done].
      intros a b Hb. by apply ubnt_absorb_mac_kept. }
    split; [exact Hr|].
    rewrite ubnt_parse_frame by lia. cbv zeta. rewrite Hr. reflexivity.
  - intros Hno.
    assert (Hr : Mndp.r_mac (Mndp._parse_tlv
                   (MndpStream.encode (mpre ++ (1%N, short) :: mpost) ++ mtail)) = None).
    { rewrite Pm, mndp_parse_stream by done. unfold MndpStream.accumulate.
      rewrite (fold_left_keeps MndpStream.absorb Mndp.r_mac
                 (fun t => mndp_sets_mac t = false)); [reflexivity| |done].
      intros a b Hb. by apply mndp_absorb_mac_kept. }
    split; [exact Hr|].
    rewrite mndp_parse_frame by lia. cbv zeta. rewrite Hr. reflexivity.
  - intros mid rest good -> Hgood Hrest.
    assert (Hr : Ubnt.r_mac (Ubnt._parse_tlv
                   (UbntStream.encode (upre ++ (x01, short) :: mid ++ (x01, good) :: rest)
                    ++ utail)) = Some (format_mac (take 6 good))).
    { rewrite ubnt_parse_stream by done. unfold UbntStream.accumulate.
      rewrite fold_left_app. cbn [fold_left]. rewrite fold_left_app. cbn [fold_left].
      rewrite (fold_left_keeps UbntStream.absorb Ubnt.r_mac
                 (fun t => ubnt_sets_mac t = false)); [| |done].
      - by rewrite ubnt_absorb_mac.
      - intros a b Hb. by apply ubnt_absorb_mac_kept. }
    rewrite ubnt_parse_frame by lia. cbv zeta. rewrite Hr.
    change (default "" (Some (format_mac (take 6 good)))) with (format_mac (take 6 good)).
    rewrite format_mac_truthy by done. eexists. split; reflexivity.
  - intros mid rest good -> Hgood Hrest.
    assert (Hr : Mndp.r_mac (Mndp._parse_tlv
                   (MndpStream.encode (mpre ++ (1%N, short) :: mid ++ (1%N, good) :: rest)
                    ++ mtail)) = Some (format_mac (take 6 good))).
    { rewrite mndp_parse_stream by done. unfold MndpStream.accumulate.
      rewrite fold_left_app. cbn [fold_left]. rewrite fold_left_app. cbn [fold_left].
      rewrite (fold_left_keeps MndpStream.absorb Mndp.r_mac
                 (fun t => mndp_sets_mac t = false)); [| |done].
      - by rewrite mndp_absorb_mac.
      - intros a b Hb. by apply mndp_absorb_mac_kept. }
    rewrite mndp_parse_frame by lia. cbv zeta. rewrite Hr.
    change (default "" (Some (format_mac (take 6 good)))) with (format_mac (take 6 good)).
    rewrite format_mac_truthy by done. eexists. split; reflexivity.
Qed.

End ShortMacFacts.

Lemma short_mac_tlv_skipped_witness :
  (Ubnt.parse_packet 7%N
     (UbntStream.frame "10.0.0.9"
        (UbntStream.header false x00 x00
         ++ UbntStream.encode ([ex_host] ++ (x01, [xaa; xbb]) :: []) ++ [xff])) = None
   ∧ Mndp.parse_packet 7%N
       (MndpStream.frame "10.0.0.9"
          (MndpStream.encode ([ex_identity] ++ (1%N, [xaa; xbb]) :: []) ++ [xff])) = None)
  ∧ (exists d,
        Ubnt.parse_packet 7%N
          (UbntStream.frame "10.0.0.9"
             (UbntStream.header false x00 x00
              ++ UbntStream.encode ([] ++ (x01, [xaa; xbb]) :: [ex_host; (x01, ex_mac)])
              ++ [xff])) = Some d
        ∧ mac d = format_mac (take 6 ex_mac))
  ∧ (exists d,
        Mndp.parse_packet 7%N
          (MndpStream.frame "10.0.0.9"
             (MndpStream.encode ([] ++ (1%N, [xaa; xbb]) :: [ex_identity; (1%N, ex_mac)])
              ++ [xff])) = Some d
        ∧ mac d = format_mac (take 6 ex_mac)).
Proof.
  assert (Hshort : length [xaa; xbb] < 6) by (cbn [length]; lia).
  assert (Hut : ubnt_stops [xff]) by (left; cbn [length]; lia).
  assert (Hmt : mndp_stops [xff]) by (left; cbn [length]; lia).
  split; [|split].
  - assert (Hu : Forall UbntStream.fits ([ex_host] ++ (x01, [xaa; xbb]) :: []))
      by (repeat constructor; reflexivity).
    assert (Hm : Forall MndpStream.fits ([ex_identity] ++ (1%N, [xaa; xbb]) :: []))
      by (repeat constructor; reflexivity).
    pose proof (short_mac_tlv_skipped 7%N "10.0.0.9" false x00 x00 [xaa; xbb]
                  [ex_host] [] [xff] [ex_identity] [] [xff] Hshort Hu Hut Hm Hmt)
      as (_ & _ & _ & _ & H5 & H6 & _).
    split.
    + apply H5. repeat constructor.
    + apply H6. repeat constructor.
  - assert (Hu : Forall UbntStream.fits ([] ++ (x01, [xaa; xbb]) :: [ex_host; (x01, ex_mac)]))
      by (repeat constructor; reflexivity).
    assert (Hm : Forall MndpStream.fits ([] ++ (1%N, [xaa; xbb]) :: [(1%N, ex_mac)]))
      by (repeat constructor; reflexivity).
    pose proof (short_mac_tlv_skipped 7%N "10.0.0.9" false x00 x00 [xaa; xbb]
                  [] [ex_host; (x01, ex_mac)] [xff] [] [(1%N, ex_mac)] [xff]
                  Hshort Hu Hut Hm Hmt)
      as (_ & _ & _ & _ & _ & _ & H7 & _).
    apply (H7 [ex_host] [] ex_mac); [reflexivity|cbn [length ex_mac]; lia|constructor].
  - assert (Hu : Forall UbntStream.fits ([] ++ (x01, [xaa; xbb]) :: [(x01, ex_mac)]))
      by (repeat constructor; reflexivity).
    assert (Hm : Forall MndpStream.fits
                   ([] ++ (1%N, [xaa; xbb]) :: [ex_identity; (1%N, ex_mac)]))
      by (repeat constructor; reflexivity).
    pose proof (short_mac_tlv_skipped 7%N "10.0.0.9" false x00 x00 [xaa; xbb]
                  [] [(x01, ex_mac)] [xff] [] [ex_identity; (1%N, ex_mac)] [xff]
                  Hshort Hu Hut Hm Hmt)
      as (_ & _ & _ & _ & _ & _ & _ & H8).
    apply (H8 [ex_identity] [] ex_mac); [reflexivity|cbn [length ex_mac]; lia|constructor].
Defined.
